(** * Playwright locator assistant: a shallow embedding of the content script

    The development follows the content script of the extension
    ([content.js]: the generator [generateBestLocator] and the verifier
    [findAndHighlight]), the copy of it that is kept with the popup, and the
    earlier content script with its uniqueness evaluator
    [validatePlaywrightLocatorUniqueness].  The host page is a finite tree
    of elements; every DOM call the scripts make is a function over that
    tree, and the one collaborator that is not part of the repository, the
    browser's CSS selector engine, is a parameter of the development.

    Strings are sequences of code units below 256.  The scripts return
    text, so the generators are modelled as returning text; the exceptions a
    script can raise are results of their own.  Three things the scripts
    meet in a browser are part of the model because the scripts depend on
    them: the outline of the inline style, which the verifier writes; the
    properties that the role tables inherit as object literals; and the
    quirks mode of the document, in which an id selector takes no account of
    the case. *)

From Stdlib Require Import Bool Arith Lia List Ascii String.
From Stdlib Require Import Numbers.DecimalString.
Import ListNotations.
Open Scope string_scope.

(** ** JavaScript string primitives *)

Module JsString.

Definition code (c : ascii) : nat := nat_of_ascii c.

Definition codeIn (c : ascii) (l : list nat) : bool :=
  existsb (Nat.eqb (code c)) l.

(** [\s] of a regular expression and the characters [trim] removes. *)
Definition isSpace (c : ascii) : bool := codeIn c [9; 10; 11; 12; 13; 32; 160].

(** The characters [.] does not match. *)
Definition isLineTerminator (c : ascii) : bool := codeIn c [10; 13].

Definition isDot (c : ascii) : bool := negb (isLineTerminator c).

Definition isUpper (c : ascii) : bool := ((65 <=? code c) && (code c <=? 90))%nat.
Definition isLower (c : ascii) : bool := ((97 <=? code c) && (code c <=? 122))%nat.
Definition isAlpha (c : ascii) : bool := isUpper c || isLower c.

(** The quote characters of the class that holds the single quote, the
    double quote and the backquote. *)
Definition isQuote (c : ascii) : bool := codeIn c [39; 34; 96].

Definition dquote : ascii := ascii_of_nat 34.
Definition backslash : ascii := ascii_of_nat 92.

Definition toLowerChar (c : ascii) : ascii :=
  let n := code c in
  if isUpper c then ascii_of_nat (n + 32)
  else if ((192 <=? n) && (n <=? 222) && negb (n =? 215))%nat
       then ascii_of_nat (n + 32)
  else c.

Fixpoint toLowerCase (s : string) : string :=
  match s with
  | EmptyString => EmptyString
  | String c r => String (toLowerChar c) (toLowerCase r)
  end.

(** The text with its ASCII capitals in lower case, which is how a
    selector compares where it takes no account of the case. *)
Fixpoint asciiLowerCase (s : string) : string :=
  match s with
  | EmptyString => EmptyString
  | String c r =>
      String (if isUpper c then ascii_of_nat (code c + 32) else c)
             (asciiLowerCase r)
  end.

Fixpoint trimStart (s : string) : string :=
  match s with
  | EmptyString => EmptyString
  | String c r => if isSpace c then trimStart r else s
  end.

Fixpoint trimEnd (s : string) : string :=
  match s with
  | EmptyString => EmptyString
  | String c r =>
      match trimEnd r with
      | EmptyString => if isSpace c then EmptyString else String c EmptyString
      | t => String c t
      end
  end.

Definition trim (s : string) : string := trimEnd (trimStart s).

(** Every run of white space becomes one blank; [inRun] tells that the previous character was
    white space, already replaced. *)
Fixpoint collapseFrom (inRun : bool) (s : string) : string :=
  match s with
  | EmptyString => EmptyString
  | String c r =>
      if isSpace c
      then (if inRun then collapseFrom true r else String " " (collapseFrom true r))
      else String c (collapseFrom false r)
  end.

Definition collapseWhitespace (s : string) : string := collapseFrom false s.

Fixpoint startsWith (p s : string) : bool :=
  match p, s with
  | EmptyString, _ => true
  | String _ _, EmptyString => false
  | String a p', String b s' => Ascii.eqb a b && startsWith p' s'
  end.

(** [hay.includes(needle)] *)
Fixpoint includes (needle hay : string) : bool :=
  startsWith needle hay ||
  match hay with
  | EmptyString => false
  | String _ r => includes needle r
  end.

Fixpoint stripPrefix (p s : string) : option string :=
  match p, s with
  | EmptyString, _ => Some s
  | String _ _, EmptyString => None
  | String a p', String b s' => if Ascii.eqb a b then stripPrefix p' s' else None
  end.

(** The leading [page.] is removed when it is there. *)
Definition dropPagePrefix (s : string) : string :=
  match stripPrefix "page." s with
  | Some r => r
  | None => s
  end.

(** [escapeStr]: every double quote gets a backslash before it. *)
Fixpoint escapeStr (s : string) : string :=
  match s with
  | EmptyString => EmptyString
  | String c r =>
      if Ascii.eqb c dquote
      then String backslash (String dquote (escapeStr r))
      else String c (escapeStr r)
  end.

(** An underscore goes before every capital letter, then the whole is put
    in lower case. *)
Fixpoint snakeCase (s : string) : string :=
  match s with
  | EmptyString => EmptyString
  | String c r =>
      if isUpper c
      then String "_" (String (toLowerChar c) (snakeCase r))
      else String (toLowerChar c) (snakeCase r)
  end.

(** Decimal rendering of a number in a template literal. *)
Definition ofNat (n : nat) : string := NilEmpty.string_of_uint (Nat.to_uint n).

Fixpoint join (sep : string) (l : list string) : string :=
  match l with
  | [] => EmptyString
  | [x] => x
  | x :: r => x ++ sep ++ join sep r
  end.

(** [s.substring(0, n)] for [n] within the string. *)
Fixpoint take (n : nat) (s : string) : string :=
  match n, s with
  | S k, String c r => String c (take k r)
  | _, _ => EmptyString
  end.

End JsString.

(** ** The regular expressions of the script

    Every expression the script uses is a sequence of literals, character
    classes, starred classes and capture groups, with one back-reference;
    [run] is a backtracking matcher for such sequences with the priorities of
    the JavaScript matcher: a greedy star gives up characters one at a time,
    a lazy star takes them one at a time. *)

Module Regex.
Import JsString.

Inductive item : Type :=
| Lit (s : string)                      (* literal text *)
| Class (p : ascii -> bool)             (* one character of a class *)
| Star (p : ascii -> bool)              (* p*  (greedy) *)
| Plus (p : ascii -> bool)              (* p+  (greedy) *)
| LazyStar (p : ascii -> bool)          (* p*? *)
| LazyPlus (p : ascii -> bool)          (* p+? *)
| Open (g : nat)                        (* start of capture group g *)
| Close (g : nat)                       (* end of capture group g *)
| Backref (g : nat)                     (* \g *)
| End.                                  (* the end of the input *)

(** Capture state: for a group that is open, the input that was left when it
    opened; for a closed group, its text. *)
Record captures : Type := mkCaptures {
  opened : list (nat * string);
  closed : list (nat * string)
}.

Definition noCaptures : captures := mkCaptures [] [].

Fixpoint lookup (g : nat) (l : list (nat * string)) : option string :=
  match l with
  | [] => None
  | (k, v) :: r => if Nat.eqb g k then Some v else lookup g r
  end.

Definition group (g : nat) (c : captures) : string :=
  match lookup g (closed c) with
  | Some s => s
  | None => EmptyString
  end.

Definition openGroup (g : nat) (rest : string) (c : captures) : captures :=
  mkCaptures ((g, rest) :: opened c) (closed c).

Definition closeGroup (g : nat) (rest : string) (c : captures) : captures :=
  match lookup g (opened c) with
  | Some start =>
      mkCaptures (opened c)
        ((g, take (String.length start - String.length rest) start) :: closed c)
  | None => c
  end.

Section Stars.

Context {R : Type}.
Variable p : ascii -> bool.
Variable k : string -> option R.

Fixpoint greedy (s : string) : option R :=
  match s with
  | String c r =>
      if p c
      then match greedy r with
           | Some x => Some x
           | None => k s
           end
      else k s
  | EmptyString => k s
  end.

Fixpoint lazy (s : string) : option R :=
  match k s with
  | Some x => Some x
  | None =>
      match s with
      | String c r => if p c then lazy r else None
      | EmptyString => None
      end
  end.

End Stars.

(** [runThen items k c s]: match [items] at the start of [s] and go on with
    [k], which gets the capture state and the input that is left; when [k]
    fails the matcher tries the next way of matching [items]. *)
Fixpoint runThen {R : Type} (items : list item)
    (k : captures -> string -> option R) (c : captures) (s : string)
  : option R :=
  match items with
  | [] => k c s
  | Lit l :: rest =>
      match stripPrefix l s with
      | Some s' => runThen rest k c s'
      | None => None
      end
  | Class p :: rest =>
      match s with
      | String a s' => if p a then runThen rest k c s' else None
      | EmptyString => None
      end
  | Star p :: rest => greedy p (runThen rest k c) s
  | Plus p :: rest =>
      match s with
      | String a s' => if p a then greedy p (runThen rest k c) s' else None
      | EmptyString => None
      end
  | LazyStar p :: rest => lazy p (runThen rest k c) s
  | LazyPlus p :: rest =>
      match s with
      | String a s' => if p a then lazy p (runThen rest k c) s' else None
      | EmptyString => None
      end
  | Open g :: rest => runThen rest k (openGroup g s c) s
  | Close g :: rest => runThen rest k (closeGroup g s c) s
  | Backref g :: rest =>
      match stripPrefix (group g c) s with
      | Some s' => runThen rest k c s'
      | None => None
      end
  | End :: rest =>
      match s with
      | EmptyString => runThen rest k c s
      | String _ _ => None
      end
  end.

(** [run items c s]: match [items] at the start of [s]; the result is the
    capture state and the input left after the match. *)
Definition run (items : list item) (c : captures) (s : string)
  : option (captures * string) :=
  runThen items (fun c' s' => Some (c', s')) c s.

(** [s.match(re)] without the [g] flag: the leftmost position where the
    expression matches. *)
Fixpoint search (items : list item) (s : string) : option captures :=
  match run items noCaptures s with
  | Some (c, _) => Some c
  | None =>
      match s with
      | String _ r => search items r
      | EmptyString => None
      end
  end.

(** The call pattern of [findAndHighlight]: group 1 is [getBy] and one or more
    letters; white space; an opening parenthesis; group 2 is a greedy run of
    any characters of the line; a closing parenthesis. *)
Definition reLocatorCall : list item :=
  [Open 1; Lit "getBy"; Plus isAlpha; Close 1; Star isSpace; Lit "(";
   Open 2; Star isDot; Close 2; Lit ")"].

(** The CSS pattern of [findAndHighlight]: [locator], white space, an opening
    parenthesis, white space, group 1 a quote character, group 2 a lazy run
    of any characters, the text of group 1 again, white space, a closing
    parenthesis. *)
Definition reLocatorCss : list item :=
  [Lit "locator"; Star isSpace; Lit "("; Star isSpace;
   Open 1; Class isQuote; Close 1;
   Open 2; LazyStar isDot; Close 2; Backref 1; Star isSpace; Lit ")"].

(** The argument pattern: a quote character, group 1 a lazy run of any
    characters, a quote character. *)
Definition reQuoted : list item :=
  [Class isQuote; Open 1; LazyStar isDot; Close 1; Class isQuote].

(** The name option: [name], white space, a colon, white space, then the
    argument pattern. *)
Definition reNameOption : list item :=
  [Lit "name"; Star isSpace; Lit ":"; Star isSpace;
   Class isQuote; Open 1; LazyStar isDot; Close 1; Class isQuote].

(** The pattern of [formatChainedLocator], which is tried at the start of
    the text only: group 1 is [getBy], a capital and letters; an opening
    parenthesis and a double quote; group 2 is a lazy run of one or more
    characters; a double quote; then the optional group, a comma, a blank
    and group 3, a greedy run of one or more characters; a closing
    parenthesis and the end of the text.  The matcher tries what is left
    with the optional group first, and without it next. *)
Definition matchChildCall (s : string) : option captures :=
  runThen
    [Open 1; Lit "getBy"; Class isUpper; Star isAlpha; Close 1;
     Lit "("; Lit (String dquote EmptyString);
     Open 2; LazyPlus isDot; Close 2; Lit (String dquote EmptyString)]
    (fun c rest =>
       match run [Lit ", "; Open 3; Plus isDot; Close 3; Lit ")"; End] c rest with
       | Some (c', _) => Some c'
       | None =>
           match run [Lit ")"; End] c rest with
           | Some (c', _) => Some c'
           | None => None
           end
       end)
    noCaptures s.

End Regex.

(** ** The document tree *)

Module Dom.
Import JsString.

(** An element with what the script reads and writes of it.  [innerText]
    and [textContent] are the texts the browser computes for the element;
    [cleanText] is the text of a copy of the element from which the script
    and style elements are removed; [hasOffsetParent] tells that
    [offsetParent] is not null, that is, that the element is rendered;
    [hidden] is the property of that name; [value] is the current form
    value, empty where the element has none.  The inline style is kept
    apart from [attributes], whose names the scripts read are other than
    [style]: [outline] is the outline of the inline style, [el.style.outline]
    as it was set last, and it is empty when the inline style has none.
    Every element of the tree is one that has an inline style, as the
    elements of HTML, SVG and MathML have. *)
#[warnings="-register-all"]
Inductive Element : Type := mkElement {
  tagName : string;
  attributes : list (string * string);
  value : string;
  innerText : string;
  textContent : string;
  cleanText : string;
  hasOffsetParent : bool;
  hidden : bool;
  outline : string;
  children : list Element
}.

(** The document is its root element; a node is named by the child indices
    on the way from the root, so that [n1 === n2] is equality of paths. *)
Definition Document : Type := Element.
Definition NodeId : Type := list nat.

Definition nodeEqb (a b : NodeId) : bool :=
  if list_eq_dec Nat.eq_dec a b then true else false.

Definition noElement : Element :=
  mkElement EmptyString [] EmptyString EmptyString EmptyString EmptyString
            false false EmptyString [].

Fixpoint elementAt (e : Element) (p : NodeId) : Element :=
  match p with
  | [] => e
  | i :: q =>
      match nth_error (children e) i with
      | Some c => elementAt c q
      | None => noElement
      end
  end.

Fixpoint inDocument (e : Element) (p : NodeId) : bool :=
  match p with
  | [] => true
  | i :: q =>
      match nth_error (children e) i with
      | Some c => inDocument c q
      | None => false
      end
  end.

(** [n.parentElement]; the root has none. *)
Definition parentElement (p : NodeId) : option NodeId :=
  match p with
  | [] => None
  | _ :: _ => Some (removelast p)
  end.

(** The nodes of a subtree in document order, as paths from its root. *)
Fixpoint subtree (e : Element) : list NodeId :=
  [] :: (fix kids (i : nat) (l : list Element) {struct l} : list NodeId :=
           match l with
           | [] => []
           | c :: r => (map (cons i) (subtree c) ++ kids (S i) r)%list
           end) 0 (children e).

(** [document.querySelectorAll('*')] *)
Definition allElements (doc : Document) : list NodeId := subtree doc.

(** [scope.querySelectorAll('*')]: the proper descendants of [scope]. *)
Definition descendants (doc : Document) (scope : NodeId) : list NodeId :=
  map (app scope) (tl (subtree (elementAt doc scope))).

(** [scope.children] *)
Definition childNodes (doc : Document) (scope : NodeId) : list NodeId :=
  map (fun i => (scope ++ [i])%list) (seq 0 (List.length (children (elementAt doc scope)))).

Fixpoint assoc (k : string) (l : list (string * string)) : option string :=
  match l with
  | [] => None
  | (k', v) :: r => if String.eqb k k' then Some v else assoc k r
  end.

(** [el.getAttribute(name)]; [None] is null. *)
Definition getAttribute (el : Element) (name : string) : option string :=
  assoc name (attributes el).

(** A string or null used as a condition. *)
Definition truthy (v : option string) : bool :=
  match v with
  | Some (String _ _) => true
  | _ => false
  end.

(** [a || b] on strings and null. *)
Definition orElse (a b : option string) : option string :=
  if truthy a then a else b.

(** [v || ''] *)
Definition orEmpty (v : option string) : string :=
  match v with
  | Some s => s
  | None => EmptyString
  end.

Definition nonEmpty (s : string) : bool :=
  match s with
  | EmptyString => false
  | String _ _ => true
  end.

(** [el.id] *)
Definition id (el : Element) : string := orEmpty (getAttribute el "id").

(** The lower-case tag name, [el.tagName.toLowerCase()]. *)
Definition localName (el : Element) : string := toLowerCase (tagName el).

(** The white space that separates class names. *)
Definition isTokenSeparator (c : ascii) : bool := codeIn c [9; 10; 12; 13; 32].

(** The non-empty pieces of a text between separators: [cur] holds the
    piece being read. *)
Fixpoint tokensFrom (sep : ascii -> bool) (cur : string) (s : string)
  : list string :=
  match s with
  | EmptyString => if nonEmpty cur then [cur] else []
  | String c r =>
      if sep c
      then (if nonEmpty cur then cur :: tokensFrom sep EmptyString r
            else tokensFrom sep EmptyString r)
      else tokensFrom sep (cur ++ String c EmptyString) r
  end.

Fixpoint dedupe (seen : list string) (l : list string) : list string :=
  match l with
  | [] => []
  | x :: r =>
      if existsb (String.eqb x) seen then dedupe seen r
      else x :: dedupe (x :: seen) r
  end.

(** [Array.from(el.classList)] *)
Definition classList (el : Element) : list string :=
  dedupe [] (tokensFrom isTokenSeparator EmptyString
                         (orEmpty (getAttribute el "class"))).

(** The first label of the document whose [for] attribute is the given id:
    what [document.querySelector] returns for the selector the script builds
    from [label], [for] and the escaped id. *)
Definition labelFor (doc : Document) (ident : string) : option NodeId :=
  find (fun n =>
          let el := elementAt doc n in
          String.eqb (localName el) "label" &&
          match getAttribute el "for" with
          | Some f => String.eqb f ident
          | None => false
          end)
       (allElements doc).

(** The test id of an element: the first non-empty one of the three
    attributes, as the disjunction of the script computes it. *)
Definition testIdOf (el : Element) : option string :=
  orElse (orElse (getAttribute el "data-testid") (getAttribute el "data-qa"))
         (getAttribute el "data-test").

(** *** What a call can do besides returning *)

Inductive Exception : Type := TypeError | SyntaxError | ReferenceError.

Inductive Completion (A : Type) : Type :=
| Return (a : A)
| Throw (e : Exception).

Arguments Return {A} a.
Arguments Throw {A} e.

Definition bind {A B : Type} (m : Completion A) (f : A -> Completion B)
  : Completion B :=
  match m with
  | Return a => f a
  | Throw e => Throw e
  end.

(** The selector engine of the host.  [None] is the syntax error the engine
    raises on text that is not a selector. *)
Record SelectorEngine : Type := mkEngine {
  (* el.matches(selector) *)
  matches : Document -> NodeId -> string -> option bool;
  (* scope.querySelectorAll(selector); no scope is the document *)
  querySelectorAll : Document -> option NodeId -> string -> option (list NodeId)
}.

Definition engineResult {A : Type} (r : option A) : Completion A :=
  match r with
  | Some a => Return a
  | None => Throw SyntaxError
  end.

(** *** Changing attributes *)

Definition withAttributes (e : Element) (a : list (string * string)) : Element :=
  mkElement (tagName e) a (value e) (innerText e) (textContent e) (cleanText e)
            (hasOffsetParent e) (hidden e) (outline e) (children e).

Definition withChildren (e : Element) (c : list Element) : Element :=
  mkElement (tagName e) (attributes e) (value e) (innerText e) (textContent e)
            (cleanText e) (hasOffsetParent e) (hidden e) (outline e) c.

(** [el.style.outline = v] *)
Definition setOutline (v : string) (e : Element) : Element :=
  mkElement (tagName e) (attributes e) (value e) (innerText e) (textContent e)
            (cleanText e) (hasOffsetParent e) (hidden e) v (children e).

(** [el.hasAttribute(name)], which is what the attribute selector of a name
    alone asks. *)
Definition hasAttribute (e : Element) (name : string) : bool :=
  match assoc name (attributes e) with
  | Some _ => true
  | None => false
  end.

(** [el.removeAttribute(name)] *)
Definition removeAttribute (name : string) (e : Element) : Element :=
  withAttributes e
    (filter (fun kv => negb (String.eqb (fst kv) name)) (attributes e)).

Fixpoint putAttribute (name v : string) (l : list (string * string))
  : list (string * string) :=
  match l with
  | [] => [(name, v)]
  | (k, w) :: r =>
      if String.eqb k name then (k, v) :: r else (k, w) :: putAttribute name v r
  end.

(** [el.setAttribute(name, v)] *)
Definition setAttribute (name v : string) (e : Element) : Element :=
  withAttributes e (putAttribute name v (attributes e)).

(** The same change on every element of the tree. *)
Fixpoint mapElements (f : Element -> Element) (e : Element) : Element :=
  withChildren (f e) (map (mapElements f) (children e)).

Fixpoint updateNth {A : Type} (i : nat) (f : A -> A) (l : list A) : list A :=
  match l, i with
  | [], _ => []
  | x :: r, 0 => f x :: r
  | x :: r, S j => x :: updateNth j f r
  end.

(** A change on the element at a path. *)
Fixpoint updateAt (f : Element -> Element) (e : Element) (p : NodeId) : Element :=
  match p with
  | [] => f e
  | i :: q => withChildren e (updateNth i (fun c => updateAt f c q) (children e))
  end.

End Dom.

(** ** The generator of the content script

    The content script exists in two copies that differ in how the
    accessible name is computed and in the words of the fallback comment;
    what they share is written once, over these two. *)

Module Script.
Import JsString Dom.

Definition roleMappings : list (string * string) :=
  [("a", "link"); ("area", "link"); ("button", "button");
   ("h1", "heading"); ("h2", "heading"); ("h3", "heading");
   ("h4", "heading"); ("h5", "heading"); ("h6", "heading");
   ("img", "img"); ("textarea", "textbox"); ("select", "combobox");
   ("li", "listitem"); ("ul", "list"); ("ol", "list");
   ("nav", "navigation"); ("form", "form"); ("dialog", "dialog");
   ("table", "table"); ("tr", "row"); ("td", "cell"); ("th", "columnheader");
   ("thead", "rowgroup"); ("tbody", "rowgroup"); ("tfoot", "rowgroup");
   ("fieldset", "group"); ("option", "option"); ("optgroup", "group");
   ("progress", "progressbar"); ("meter", "progressbar");
   ("article", "article"); ("aside", "complementary");
   ("footer", "contentinfo"); ("header", "banner"); ("main", "main");
   ("section", "region"); ("summary", "button"); ("details", "group")].

Definition inputTypeRoles : list (string * string) :=
  [("button", "button"); ("submit", "button"); ("reset", "button");
   ("checkbox", "checkbox"); ("radio", "radio");
   ("text", "textbox"); ("email", "textbox"); ("password", "textbox");
   ("search", "textbox"); ("tel", "textbox"); ("url", "textbox");
   ("number", "spinbutton"); ("range", "slider");
   ("date", "textbox"); ("time", "textbox"); ("datetime-local", "textbox")].

(** The names every object inherits from [Object.prototype].  The two
    tables are object literals, and an index by one of these names gives
    what the table inherits: a function or, for [__proto__], the prototype
    itself. *)
Definition inheritedKeys : list string :=
  ["constructor"; "__defineGetter__"; "__defineSetter__"; "hasOwnProperty";
   "__lookupGetter__"; "__lookupSetter__"; "isPrototypeOf";
   "propertyIsEnumerable"; "toString"; "valueOf"; "__proto__";
   "toLocaleString"].

(** What [getImplicitRole] returns when it is not null: a text, or the
    value a table inherits under a key, which is no text. *)
Inductive RoleValue : Type :=
| RoleText (role : string)
| Inherited (key : string).

(** [a === b]: two inherited values are the same object when they are read
    under the same name. *)
Definition roleEqb (a b : RoleValue) : bool :=
  match a, b with
  | RoleText x, RoleText y => String.eqb x y
  | Inherited x, Inherited y => String.eqb x y
  | _, _ => false
  end.

(** [role === value] for a text [value]. *)
Definition roleIsText (role : option RoleValue) (value : string) : bool :=
  match role with
  | Some (RoleText r) => String.eqb r value
  | _ => false
  end.

(** A role used as a condition; what a table inherits is an object. *)
Definition truthyRole (role : option RoleValue) : bool :=
  match role with
  | Some (RoleText r) => nonEmpty r
  | Some (Inherited _) => true
  | None => false
  end.

(** [table[key]]; [None] is undefined. *)
Definition tableLookup (key : string) (table : list (string * string))
  : option RoleValue :=
  match assoc key table with
  | Some r => Some (RoleText r)
  | None =>
      if existsb (String.eqb key) inheritedKeys then Some (Inherited key)
      else None
  end.

(** [getImplicitRole]; [None] is null.  A type that is null is looked up
    as the text [null], which is no key. *)
Definition getImplicitRole (element : Element) : option RoleValue :=
  let tagName := localName element in
  let type := getAttribute element "type" in
  let explicitRole := getAttribute element "role" in
  if truthy explicitRole then option_map RoleText explicitRole
  else match tableLookup tagName roleMappings with
       | Some r => Some r
       | None =>
           if String.eqb tagName "input"
           then match tableLookup (match type with Some t => t | None => "null" end)
                                  inputTypeRoles with
                | Some r => Some r
                | None => Some (RoleText "textbox")
                end
           else None
       end.

(** The class names [getRelativeCSS] keeps. *)
Definition stableClass (cls : string) : bool :=
  nonEmpty cls && negb (includes ":" cls) && negb (includes "[" cls)
  && (2 <? String.length cls)%nat.

Fixpoint indexOf (n : NodeId) (l : list NodeId) : option nat :=
  match l with
  | [] => None
  | x :: r => if nodeEqb x n then Some 0
              else option_map S (indexOf n r)
  end.

(** [filter] with a callback that can raise. *)
Fixpoint filterM {A : Type} (f : A -> Completion bool) (l : list A)
  : Completion (list A) :=
  match l with
  | [] => Return []
  | x :: r =>
      bind (f x) (fun keep =>
      bind (filterM f r) (fun rest =>
      Return (if keep then x :: rest else rest)))
  end.

Section WithEngine.

Variable engine : SelectorEngine.

(** [getRelativeCSS(element, parent)]; reading [parent.children] of null is
    a type error. *)
Definition getRelativeCSS (doc : Document) (element : NodeId)
    (parent : option NodeId) : Completion string :=
  let el := elementAt doc element in
  let selector := localName el in
  let stableClasses := filter stableClass (classList el) in
  let selector :=
    if (0 <? List.length stableClasses)%nat
    then selector ++ "." ++ join "." stableClasses
    else selector in
  match parent with
  | None => Throw TypeError
  | Some parent =>
      let siblings := childNodes doc parent in
      bind (filterM (fun sibling => engineResult (matches engine doc sibling selector))
                    siblings)
           (fun elementsWithSameSelector =>
      if (1 <? List.length elementsWithSameSelector)%nat
      then
        (* index + 1, where indexOf gives -1 for an element that is absent *)
        let indexPlusOne :=
          match indexOf element elementsWithSameSelector with
          | Some index => S index
          | None => 0
          end in
        Return (selector ++ ":nth-of-type(" ++ ofNat indexPlusOne ++ ")")
      else Return selector)
  end.

(** [isLocatorUniqueInScope(locator, value, targetElement, scope)]; no scope
    is the document.  The generator calls it with a role for [value]. *)
Definition isLocatorUniqueInScope (doc : Document) (locator : string)
    (value : RoleValue) (targetElement : NodeId) (scope : option NodeId) : bool :=
  if String.eqb locator "getByRole"
  then
    let all := match scope with
               | None => allElements doc
               | Some s => descendants doc s
               end in
    let elements :=
      filter (fun el =>
                match getImplicitRole (elementAt doc el) with
                | Some r => roleEqb r value
                | None => false
                end) all in
    match elements with
    | [e] => nodeEqb e targetElement
    | _ => false
    end
  else false.

End WithEngine.

(** The values of an options object. *)
Inductive OptionValue : Type :=
| BoolValue (b : bool)
| StringValue (s : string).

Definition quoted (s : string) : string :=
  String dquote (escapeStr s ++ String dquote EmptyString).

Definition pytestOption (kv : string * OptionValue) : string :=
  let (k, v) := kv in
  k ++ "=" ++ match v with
              | BoolValue b => if b then "True" else "False"
              | StringValue s => quoted s
              end.

Definition jsOption (kv : string * OptionValue) : string :=
  let (k, v) := kv in
  k ++ ": " ++ match v with
               | BoolValue b => if b then "true" else "false"
               | StringValue s => quoted s
               end.

(** [formatLocator(method, value, options)]; no options is null. *)
Definition formatLocator (isPytest : bool) (method value : string)
    (options : option (list (string * OptionValue))) : string :=
  let methodName := if isPytest then snakeCase method else method in
  let formattedValue := quoted value in
  match options with
  | None => "page." ++ methodName ++ "(" ++ formattedValue ++ ")"
  | Some options =>
      let optionsStr :=
        if isPytest
        then join ", " (map pytestOption options)
        else "{ " ++ join ", " (map jsOption options) ++ " }" in
      "page." ++ methodName ++ "(" ++ formattedValue ++ ", " ++ optionsStr ++ ")"
  end.

(** [formatLocator('getByRole', role, options)]: a role that is no text has
    no [replace], and [escapeStr] raises a type error. *)
Definition formatRoleLocator (isPytest : bool) (role : option RoleValue)
    (options : option (list (string * OptionValue))) : Completion string :=
  match role with
  | Some (RoleText r) => Return (formatLocator isPytest "getByRole" r options)
  | _ => Throw TypeError
  end.

End Script.

Module Generator.
Import JsString Dom Script.

Section Body.

Variable engine : SelectorEngine.
(** [getAccessibleName] of the copy at hand *)
Variable getAccessibleName : Document -> NodeId -> string.
(** the fallback comment of the copy at hand, for pytest and for the rest *)
Variable fallbackComment : bool -> string.

Variable doc : Document.
Variable framework : string.

Definition isPytest : bool := String.eqb framework "pytest".

(** The test the loop applies to the locator of an ancestor. *)
Definition stableLocator (parentLocator : string) : bool :=
  nonEmpty parentLocator
  && negb (includes "locator(" parentLocator)
  && negb (includes "WARNING" parentLocator).

(** The [for] loop over the ancestors.  [self] is [generateBestLocator]
    itself, [remaining] is what is left of the four rounds, [parentElement]
    the loop variable.  The result is [Some s] when the body of the loop
    returns [s] from the function, and [None] when the loop ends. *)
Fixpoint ancestorLoop (self : NodeId -> option (Completion string))
    (element : NodeId) (role : option RoleValue)
    (remaining : nat) (parentElement : option NodeId)
  : option (Completion (option string)) :=
  match remaining with
  | 0 => Some (Return None)
  | S remaining' =>
      match parentElement with
      | None => Some (Return None)
      | Some parent =>
          if String.eqb (tagName (elementAt doc parent)) "BODY"
          then Some (Return None)
          else
            match self parent with
            | None => None
            | Some (Throw e) => Some (Throw e)
            | Some (Return parentLocator) =>
                let next :=
                  ancestorLoop self element role remaining'
                               (Dom.parentElement parent) in
                if stableLocator parentLocator
                then
                  if match role with
                     | Some r =>
                         isLocatorUniqueInScope doc "getByRole" r element
                                                (Some parent)
                     | None => false
                     end
                  then
                    match formatRoleLocator isPytest role None with
                    | Throw e => Some (Throw e)
                    | Return formatted =>
                        let childLocator := dropPagePrefix formatted in
                        Some (Return (Some (parentLocator ++ "." ++ childLocator)))
                    end
                  else
                    match getRelativeCSS engine doc element (Some parent) with
                    | Throw e => Some (Throw e)
                    | Return relativeCSS =>
                        match querySelectorAll engine doc (Some parent) relativeCSS with
                        | None => Some (Throw SyntaxError)
                        | Some found =>
                            if (List.length found =? 1)%nat
                            then
                              let childCssLocator :=
                                "locator(" ++ quoted relativeCSS ++ ")" in
                              Some (Return
                                      (Some (parentLocator ++ "." ++ childCssLocator)))
                            else next
                        end
                    end
                else next
            end
      end
  end.

(** The body of [generateBestLocator(element, framework)], with [self] for
    the calls of the function to itself. *)
Definition generateBestLocatorBody (self : NodeId -> option (Completion string))
    (element : NodeId) : option (Completion string) :=
  let el := elementAt doc element in
  let testId := testIdOf el in
  if truthy testId
  then Some (Return (formatLocator isPytest "getByTestId" (orEmpty testId) None))
  else
  let role := getImplicitRole el in
  let accName := getAccessibleName doc element in
  if truthyRole role && nonEmpty accName
  then Some (formatRoleLocator isPytest role
               (Some [("name", StringValue accName);
                      ("exact", BoolValue true)]))
  else
  let placeholder := getAttribute el "placeholder" in
  if truthy placeholder
  then Some (Return (formatLocator isPytest "getByPlaceholder"
                       (orEmpty placeholder)
                       (Some [("exact", BoolValue true)])))
  else
  let altText := getAttribute el "alt" in
  if truthy altText
  then Some (Return (formatLocator isPytest "getByAltText" (orEmpty altText)
                       (Some [("exact", BoolValue true)])))
  else
  if nonEmpty accName
  then Some (Return (formatLocator isPytest "getByText" accName
                       (Some [("exact", BoolValue true)])))
  else
  if match role with
     | Some r => isLocatorUniqueInScope doc "getByRole" r element None
     | None => false
     end
  then Some (formatRoleLocator isPytest role None)
  else
  match ancestorLoop self element role 4 (parentElement element) with
  | None => None
  | Some (Throw e) => Some (Throw e)
  | Some (Return (Some chained)) => Some (Return chained)
  | Some (Return None) =>
      match getRelativeCSS engine doc element (parentElement element) with
      | Throw e => Some (Throw e)
      | Return cssSelector =>
          let locator := "page.locator(" ++ quoted cssSelector ++ ")" in
          Some (Return (locator ++ " " ++ fallbackComment isPytest))
      end
  end.

(** [generateBestLocator(element, framework)].  [fuel] bounds the depth of
    the calls of the function to itself, and [None] tells that it was used
    up. *)
Fixpoint generateBestLocator (fuel : nat) (element : NodeId)
  : option (Completion string) :=
  match fuel with
  | 0 => None
  | S fuel' => generateBestLocatorBody (generateBestLocator fuel') element
  end.

End Body.

End Generator.

(** ** The content script with the verifier *)

Module Content.
Import JsString Dom Script.

(** [getAccessibleName] *)
Definition getAccessibleName (doc : Document) (element : NodeId) : string :=
  let el := elementAt doc element in
  let ariaLabel := getAttribute el "aria-label" in
  if truthy ariaLabel then trim (orEmpty ariaLabel)
  else
  match (if nonEmpty (id el) then labelFor doc (id el) else None) with
  | Some label =>
      let l := elementAt doc label in
      trim (if nonEmpty (innerText l) then innerText l else textContent l)
  | None =>
      let tagName := localName el in
      let type := getAttribute el "type" in
      if String.eqb tagName "input"
         && existsb (fun t => match type with
                              | Some ty => String.eqb t ty
                              | None => false
                              end) ["submit"; "button"; "reset"]
         && nonEmpty (value el)
      then trim (value el)
      else
      if String.eqb tagName "img" && truthy (getAttribute el "alt")
      then trim (orEmpty (getAttribute el "alt"))
      else
      let text := collapseWhitespace (trim (innerText el)) in
      if nonEmpty text && (String.length text <? 120)%nat
      then text
      else
      let title := getAttribute el "title" in
      if truthy title then trim (orEmpty title)
      else EmptyString
  end.

Definition fallbackComment (isPytest : bool) : string :=
  if isPytest
  then "# WARNING: CSS selector fallback. Consider adding a data-testid."
  else "// WARNING: CSS selector fallback. Consider adding a data-testid.".

Definition generateBestLocator (engine : SelectorEngine) (doc : Document)
    (framework : string) (fuel : nat) (element : NodeId)
  : option (Completion string) :=
  Generator.generateBestLocator engine getAccessibleName fallbackComment
                                doc framework fuel element.

(** *** The verifier *)

Definition highlightAttribute : string := "data-playwright-verifier-highlight".

(** The callback of the filter over the visible elements, the [switch] on
    the method.  [rawArgs] is read again for the name option at every
    element, as the script does. *)
Definition matchesLocator (doc : Document) (method rawArgs value : string)
    (el : NodeId) : bool :=
  let e := elementAt doc el in
  let roleIs := roleIsText (getImplicitRole e) value in
  if String.eqb method "getByRole" then
    match Regex.search Regex.reNameOption rawArgs with
    | Some nameMatch =>
        roleIs && includes (Regex.group 1 nameMatch) (getAccessibleName doc el)
    | None => roleIs
    end
  else if String.eqb method "getByText" then
    includes value
      (trim (if nonEmpty (innerText e) then innerText e else textContent e))
  else if String.eqb method "getByLabel" then
    includes value (getAccessibleName doc el)
  else if String.eqb method "getByPlaceholder" then
    match getAttribute e "placeholder" with
    | Some v => String.eqb v value
    | None => false
    end
  else if String.eqb method "getByAltText" then
    match getAttribute e "alt" with
    | Some v => String.eqb v value
    | None => false
    end
  else if String.eqb method "getByTitle" then
    match getAttribute e "title" with
    | Some v => String.eqb v value
    | None => false
    end
  else if String.eqb method "getByTestId" then
    match testIdOf e with
    | Some v => String.eqb v value
    | None => false
    end
  else false.

Definition isVisible (doc : Document) (el : NodeId) : bool :=
  hasOffsetParent (elementAt doc el).

(** The elements [findAndHighlight] finds, on a document whose marks are
    cleared.  The first query is in a [try] block that drops the error; the
    query for the argument of [locator] is not. *)
Definition findElements (engine : SelectorEngine) (doc : Document)
    (locatorString : string) : Completion (list NodeId) :=
  let foundElements :=
    match querySelectorAll engine doc None locatorString with
    | Some cssElements =>
        if (0 <? List.length cssElements)%nat
           && negb (includes "getBy" locatorString)
        then cssElements
        else []
    | None => []
    end in
  if (List.length foundElements =? 0)%nat
  then
    let locatorMatch := Regex.search Regex.reLocatorCall locatorString in
    let locatorCssMatch := Regex.search Regex.reLocatorCss locatorString in
    match locatorCssMatch with
    | Some m =>
        engineResult (querySelectorAll engine doc None (Regex.group 2 m))
    | None =>
        match locatorMatch with
        | Some m =>
            let method := Regex.group 1 m in
            let rawArgs := trim (Regex.group 2 m) in
            match Regex.search Regex.reQuoted rawArgs with
            | Some argMatch =>
                let value := Regex.group 1 argMatch in
                let allVisibleElements := filter (isVisible doc) (allElements doc) in
                Return (filter (matchesLocator doc method rawArgs value)
                               allVisibleElements)
            | None => Return foundElements
            end
        | None => Return foundElements
        end
    end
  else Return foundElements.

Definition highlightOutline : string := "3px solid #ff4757".

(** What the first loop does to an element that carries the mark: the
    outline is reset and the attribute removed.  The other elements are not
    among those the loop visits. *)
Definition unmark (e : Element) : Element :=
  if hasAttribute e highlightAttribute
  then removeAttribute highlightAttribute (setOutline EmptyString e)
  else e.

(** What the last loop does to an element that was found. *)
Definition mark (e : Element) : Element :=
  setAttribute highlightAttribute "true" (setOutline highlightOutline e).

(** The marks of the previous call are removed. *)
Definition clearHighlights (doc : Document) : Document :=
  mapElements unmark doc.

Definition highlight (doc : Document) (found : list NodeId) : Document :=
  fold_left (fun d el => updateAt mark d el) found doc.

(** [findAndHighlight(locatorString)]: the document it leaves and the count
    it returns, or the exception it raises. *)
Definition findAndHighlight (engine : SelectorEngine) (doc : Document)
    (locatorString : string) : Document * Completion nat :=
  let cleared := clearHighlights doc in
  match findElements engine cleared locatorString with
  | Return foundElements =>
      (highlight cleared foundElements, Return (List.length foundElements))
  | Throw e => (cleared, Throw e)
  end.

(** *** The copy button of the panel that shows the locator *)

(** [text.split(/ (#|\/\/)/)[0]]: the text before the first blank that a
    hash or two slashes follow. *)
Fixpoint beforeComment (text : string) : string :=
  match text with
  | EmptyString => EmptyString
  | String c r =>
      if startsWith " #" text || startsWith " //" text then EmptyString
      else String c (beforeComment r)
  end.

(** [pureLocator] of the copy button. *)
Definition pureLocator (text : string) : string := trim (beforeComment text).

End Content.

(** ** The content script that is kept with the popup *)

Module PopupContent.
Import JsString Dom Script.

(** [getAccessibleName] of this copy: no form value is read. *)
Definition getAccessibleName (doc : Document) (element : NodeId) : string :=
  let el := elementAt doc element in
  let ariaLabel := getAttribute el "aria-label" in
  if truthy ariaLabel then trim (orEmpty ariaLabel)
  else
  match (if nonEmpty (id el) then labelFor doc (id el) else None) with
  | Some label =>
      let l := elementAt doc label in
      trim (if nonEmpty (innerText l) then innerText l else textContent l)
  | None =>
      if String.eqb (localName el) "img" && truthy (getAttribute el "alt")
      then trim (orEmpty (getAttribute el "alt"))
      else
      let text := collapseWhitespace (trim (innerText el)) in
      if nonEmpty text && (String.length text <? 120)%nat
      then text
      else
      let title := getAttribute el "title" in
      if truthy title then trim (orEmpty title)
      else EmptyString
  end.

Definition fallbackComment (isPytest : bool) : string :=
  if isPytest
  then "# WARNING: CSS selector fallback. Consider adding a data-testid or a more specific parent."
  else "// WARNING: CSS selector fallback. Consider adding a data-testid or a more specific parent.".

Definition generateBestLocator (engine : SelectorEngine) (doc : Document)
    (framework : string) (fuel : nat) (element : NodeId)
  : option (Completion string) :=
  Generator.generateBestLocator engine getAccessibleName fallbackComment
                                doc framework fuel element.

End PopupContent.

(** ** The uniqueness evaluator of the earlier content script *)

Module Legacy.
Import JsString Dom.

Definition oneOf (l : list string) (v : option string) : bool :=
  match v with
  | Some s => existsb (String.eqb s) l
  | None => false
  end.

Definition tagRoles : list (string * string) :=
  [("button", "button"); ("a", "link"); ("img", "img");
   ("textarea", "textbox"); ("select", "combobox");
   ("h1", "heading"); ("h2", "heading"); ("h3", "heading");
   ("h4", "heading"); ("h5", "heading"); ("h6", "heading");
   ("li", "listitem"); ("ul", "list"); ("ol", "list");
   ("nav", "navigation"); ("form", "form"); ("dialog", "dialog");
   ("menu", "menu"); ("menuitem", "menuitem"); ("tab", "tab");
   ("table", "table"); ("th", "cell"); ("td", "cell"); ("tr", "row");
   ("fieldset", "group"); ("option", "option");
   ("meter", "progressbar"); ("progress", "progressbar");
   ("article", "article"); ("aside", "complementary");
   ("footer", "contentinfo"); ("header", "banner"); ("main", "main");
   ("section", "region"); ("output", "status"); ("summary", "button");
   ("datalist", "listbox")].

(** [getImplicitRole]: the [switch] on the tag name; an [input] of a type
    that is not listed leaves the switch and gets null. *)
Definition getImplicitRole (element : Element) : option string :=
  let tagName := localName element in
  let type := getAttribute element "type" in
  let role := getAttribute element "role" in
  if truthy role then role
  else if String.eqb tagName "input" then
    if oneOf ["button"; "submit"; "reset"] type then Some "button"
    else if oneOf ["checkbox"] type then Some "checkbox"
    else if oneOf ["radio"] type then Some "radio"
    else if oneOf ["text"; "email"; "password"; "search"; "tel"; "url";
                   "number"; "date"; "range"; "color"] type
    then Some "textbox"
    else None
  else assoc tagName tagRoles.

(** [document.getElementById(id)] *)
Definition getElementById (doc : Document) (ident : string) : option NodeId :=
  find (fun n => match getAttribute (elementAt doc n) "id" with
                 | Some i => String.eqb i ident
                 | None => false
                 end)
       (allElements doc).

(** [el.innerText || el.textContent || ''], trimmed *)
Definition shownText (e : Element) : string :=
  trim (if nonEmpty (innerText e) then innerText e else textContent e).

(** [getAccessibleName] *)
Definition getAccessibleName (doc : Document) (element : NodeId) : string :=
  let el := elementAt doc element in
  (* 1. aria-label *)
  let ariaLabel := getAttribute el "aria-label" in
  if truthy ariaLabel then trim (orEmpty ariaLabel)
  else
  (* 2. aria-labelledby *)
  let ariaLabelledBy := getAttribute el "aria-labelledby" in
  let labelTexts :=
    if truthy ariaLabelledBy
    then
      let ids := tokensFrom isSpace EmptyString (orEmpty ariaLabelledBy) in
      filter nonEmpty
        (map (fun i => match getElementById doc i with
                       | Some labelEl => shownText (elementAt doc labelEl)
                       | None => EmptyString
                       end) ids)
    else [] in
  if (0 <? List.length labelTexts)%nat then trim (join " " labelTexts)
  else
  (* 3. a label for the element *)
  match (if nonEmpty (id el) then labelFor doc (id el) else None) with
  | Some label => shownText (elementAt doc label)
  | None =>
      (* 4. the value of some inputs *)
      let tagName := localName el in
      let type := getAttribute el "type" in
      if String.eqb tagName "input" && oneOf ["submit"; "reset"; "button"] type
         && nonEmpty (value el)
      then trim (value el)
      else
      if ((String.eqb tagName "input"
           && oneOf ["text"; "email"; "password"; "search"; "tel"; "url"; "number"]
                    type)
          || String.eqb tagName "textarea")
         && nonEmpty (value el)
      then trim (value el)
      else
      (* 5. the alt text of an image *)
      if String.eqb tagName "img" && truthy (getAttribute el "alt")
      then trim (orEmpty (getAttribute el "alt"))
      else
      (* 6. the visible text *)
      let shown := shownText el in
      let clean := trim (cleanText el) in
      if hasOffsetParent el && negb (hidden el)
         && (0 <? String.length shown)%nat && (String.length shown <? 80)%nat
         && (0 <? String.length clean)%nat && (String.length clean <? 80)%nat
      then clean
      else
      (* 7. the title *)
      let title := getAttribute el "title" in
      if truthy title && (String.length (orEmpty title) <? 80)%nat
      then trim (orEmpty title)
      else EmptyString
  end.

(** The options object of a candidate; an absent field is undefined. *)
Record Options : Type := mkOptions {
  name : option string;
  exact : option bool
}.

Definition noOptions : Options := mkOptions None None.

(** [options.exact === true] *)
Definition exactMatch (options : Options) : bool :=
  match exact options with
  | Some true => true
  | _ => false
  end.

Definition textMatches (options : Options) (text value : string) : bool :=
  if exactMatch options then String.eqb text value else includes value text.

(** The elements the filter always drops: those that are not rendered or
    are hidden, and the script and style elements. *)
Definition ignored (e : Element) : bool :=
  negb (hasOffsetParent e) || hidden e
  || String.eqb (localName e) "script" || String.eqb (localName e) "style".

(** The callback of the filter in [validatePlaywrightLocatorUniqueness]:
    whether an element is a candidate for the method and the value. *)
Definition isCandidate (doc : Document) (method value : string)
    (options : Options) (el : NodeId) : bool :=
  let e := elementAt doc el in
  if ignored e
  then false
  else if String.eqb method "getByRole" then
    let desiredRole := value in
    let actualRole := orElse (getAttribute e "role") (getImplicitRole e) in
    match actualRole with
    | Some r =>
        if String.eqb r desiredRole
        then match name options with
             | Some n => textMatches options (getAccessibleName doc el) n
             | None => true
             end
        else false
    | None => false
    end
  else if String.eqb method "getByText" then
    let text := getAccessibleName doc el in
    nonEmpty text && textMatches options text value
  else if String.eqb method "getByLabel" then
    let label := getAccessibleName doc el in
    nonEmpty label && textMatches options label value
  else if String.eqb method "getByPlaceholder" then
    let placeholderText := getAttribute e "placeholder" in
    truthy placeholderText && textMatches options (orEmpty placeholderText) value
  else if String.eqb method "getByAltText" then
    if negb (String.eqb (localName e) "img") then false
    else
      let altText := getAttribute e "alt" in
      truthy altText && textMatches options (orEmpty altText) value
  else if String.eqb method "getByTitle" then
    let titleText := getAttribute e "title" in
    truthy titleText && textMatches options (orEmpty titleText) value
  else if String.eqb method "getByTestId" then
    match testIdOf e with
    | Some t => String.eqb t value
    | None => false
    end
  else false.

(** [validatePlaywrightLocatorUniqueness(targetElement, method, value, options)] *)
Definition validatePlaywrightLocatorUniqueness (doc : Document)
    (targetElement : NodeId) (method value : string) (options : Options) : bool :=
  match filter (isCandidate doc method value options) (allElements doc) with
  | [c] => nodeEqb c targetElement
  | _ => false
  end.

(** *** The generator of the earlier content script *)

Definition hexDigit (n : nat) : ascii :=
  if (n <? 10)%nat then ascii_of_nat (48 + n) else ascii_of_nat (87 + n).

(** [n.toString(16)] for a code unit. *)
Definition hex (n : nat) : string :=
  if (n <? 16)%nat then String (hexDigit n) EmptyString
  else String (hexDigit (n / 16)) (String (hexDigit (n mod 16)) EmptyString).

Definition isDigit (c : ascii) : bool := ((48 <=? code c) && (code c <=? 57))%nat.

Definition escapedAsCodePoint (c : ascii) : string :=
  String backslash (hex (code c) ++ " ").

(** [CSS.escape], character by character: [index] is the place of the
    character, [afterHyphen] tells that the text starts with a hyphen, and
    [alone] that it has one character.  The code unit 0, which the escape
    replaces by a character beyond the code units of the model, is kept. *)
Fixpoint cssEscapeFrom (index : nat) (afterHyphen alone : bool) (s : string)
  : string :=
  match s with
  | EmptyString => EmptyString
  | String c r =>
      let n := code c in
      (if (n =? 0)%nat then String c EmptyString
       else if ((1 <=? n) && (n <=? 31))%nat || (n =? 127)%nat
            then escapedAsCodePoint c
       else if (index =? 0)%nat && isDigit c then escapedAsCodePoint c
       else if (index =? 1)%nat && isDigit c && afterHyphen
            then escapedAsCodePoint c
       else if (index =? 0)%nat && (n =? 45)%nat && alone
            then String backslash (String c EmptyString)
       else if (128 <=? n)%nat || (n =? 45)%nat || (n =? 95)%nat
               || isDigit c || isAlpha c
            then String c EmptyString
       else String backslash (String c EmptyString))
      ++ cssEscapeFrom (S index) afterHyphen alone r
  end.

Definition cssEscape (s : string) : string :=
  cssEscapeFrom 0
    (match s with String c _ => (code c =? 45)%nat | EmptyString => false end)
    (String.length s =? 1)%nat s.

(** [document.body]: the first child of the root that is a body or a
    frameset. *)
Definition body (doc : Document) : option NodeId :=
  find (fun n => let t := localName (elementAt doc n) in
                 String.eqb t "body" || String.eqb t "frameset")
       (childNodes doc []).

Definition isBody (doc : Document) (n : NodeId) : bool :=
  match body doc with
  | Some b => nodeEqb b n
  | None => false
  end.

(** An id selector against the [id] attribute of an element.  A document
    in quirks mode, which [quirksMode] tells, compares the two without
    regard to the case of the ASCII letters; [getElementById] and the
    attribute selectors of the script compare exactly in either mode. *)
Definition idSelects (quirksMode : bool) (ident : string) (e : Element) : bool :=
  match getAttribute e "id" with
  | Some i =>
      if quirksMode
      then String.eqb (asciiLowerCase i) (asciiLowerCase ident)
      else String.eqb i ident
  | None => false
  end.

(** The elements an id selector finds in the document. *)
Definition withId (quirksMode : bool) (doc : Document) (ident : string)
  : list NodeId :=
  filter (fun n => idSelects quirksMode ident (elementAt doc n)) (allElements doc).

(** [isSelectorUnique] at the selector of an id. *)
Definition isIdUnique (quirksMode : bool) (doc : Document) (ident : string)
    (target : NodeId) : bool :=
  match withId quirksMode doc ident with
  | [n] => nodeEqb n target
  | _ => false
  end.

(** The tag and the escaped classes of an element, as a selector. *)
Definition tagAndClasses (el : Element) : string :=
  localName el
  ++ join EmptyString
       (map (fun cls => "." ++ cssEscape cls) (filter nonEmpty (classList el))).

Definition indexOf (n : NodeId) (l : list NodeId) : option nat :=
  Script.indexOf n l.

(** The siblings of a node: the children of its parent node; the parent
    node of the root is the document, whose only child is the root. *)
Definition siblings (doc : Document) (n : NodeId) : list NodeId :=
  match parentElement n with
  | Some p => childNodes doc p
  | None => [n]
  end.

(** One round of the loop of [generateCSSPath]: the selector of [current],
    or the id selector that ends the loop. *)
Definition pathStep (quirksMode : bool) (doc : Document) (current : NodeId)
  : string * bool :=
  let el := elementAt doc current in
  let idSelector := "#" ++ cssEscape (id el) in
  if nonEmpty (id el) && (List.length (withId quirksMode doc (id el)) =? 1)%nat
  then (idSelector, true)
  else
    let selector := tagAndClasses el in
    let siblingsMatchingSelector :=
      filter (fun child => String.eqb (tagAndClasses (elementAt doc child)) selector)
             (siblings doc current) in
    if (1 <? List.length siblingsMatchingSelector)%nat
    then match indexOf current siblingsMatchingSelector with
         | Some i => (selector ++ ":nth-of-type(" ++ ofNat (S i) ++ ")", false)
         | None => (selector, false)
         end
    else (selector, false).

(** The loop of [generateCSSPath]: [rounds] bounds its rounds, [path] is
    what is built, and the result holds the node at which the loop ends. *)
Fixpoint pathLoop (quirksMode : bool) (doc : Document) (rounds : nat)
    (current : option NodeId) (path : list string)
  : list string * option NodeId :=
  match rounds with
  | 0 => (path, current)
  | S rounds' =>
      match current with
      | None => (path, current)
      | Some cur =>
          if isBody doc cur then (path, current)
          else
            let (selector, stop) := pathStep quirksMode doc cur in
            if stop then (selector :: path, current)
            else pathLoop quirksMode doc rounds' (parentElement cur)
                          (selector :: path)
      end
  end.

(** [generateCSSPath(element)]; the loop climbs one level a round, so that
    one round more than the depth of the element lets it end by itself. *)
Definition generateCSSPath (quirksMode : bool) (doc : Document)
    (element : NodeId) : string :=
  let el := elementAt doc element in
  if nonEmpty (id el) && (List.length (withId quirksMode doc (id el)) =? 1)%nat
  then "#" ++ cssEscape (id el)
  else
    let (path, current) :=
      pathLoop quirksMode doc (S (List.length element)) (Some element) [] in
    let path :=
      match current, path with
      | Some cur, first :: _ =>
          if isBody doc cur && negb (String.eqb first "body") then "body" :: path
          else if nodeEqb cur [] && negb (String.eqb first "html") then "html" :: path
          else path
      | _, _ => path
      end in
    join " > " path.

Section Generator.

Variable engine : SelectorEngine.
(** The exception [formatChainedLocator] raises for a child with options:
    the syntax error of the JSON parser or a type error of [escapeStr], when
    one of them is raised, and else the reference error of the name
    [formattedValue], which is not defined where it is read. *)
Variable optionsFailure : string -> Exception.
(** The mode of the document, which the id selectors depend on. *)
Variable quirksMode : bool.
Variable doc : Document.
Variable framework : string.

Definition isPytest : bool := String.eqb framework "pytest".

Definition showBool (b : bool) : string := if b then "true" else "false".

(** [formatLocator(method, value, options)]; no options is null. *)
Definition formatLocator (method value : string) (options : option Options)
  : string :=
  let methodName := if isPytest then snakeCase method else method in
  let nameEntry (o : Options) : list string :=
    match name o with
    | Some n => [if isPytest then "name=" ++ Script.quoted n
                 else "name: " ++ Script.quoted n]
    | None => []
    end in
  let exactEntry (o : Options) : list string :=
    match exact o with
    | Some b => [if isPytest then "exact=" ++ showBool b
                 else "exact: " ++ showBool b]
    | None => []
    end in
  let entries (o : Options) : list string := List.app (nameEntry o) (exactEntry o) in
  let optionsStr :=
    match options with
    | Some o => join ", " (entries o)
    | None => EmptyString
    end in
  let formattedValue := Script.quoted value in
  if nonEmpty optionsStr
  then "page." ++ methodName ++ "(" ++ formattedValue ++ ", " ++ optionsStr ++ ")"
  else "page." ++ methodName ++ "(" ++ formattedValue ++ ")".

Fixpoint endsWith (suffix s : string) : bool :=
  String.eqb suffix s ||
  match s with
  | EmptyString => false
  | String _ r => endsWith suffix r
  end.

(** [formatChainedLocator(parentLocatorPart, childLocatorPart)].  When the
    child is a call that the pattern matches, every path raises. *)
Definition formatChainedLocator (parentLocatorPart childLocatorPart : string)
  : Completion string :=
  let cleanChild := dropPagePrefix childLocatorPart in
  if startsWith ("locator(" ++ String dquote EmptyString) cleanChild
     && endsWith (String dquote ")") cleanChild
  then Return (parentLocatorPart ++ "." ++ cleanChild)
  else
    match Regex.matchChildCall cleanChild with
    | Some byMethodMatch =>
        if nonEmpty (Regex.group 3 byMethodMatch)
        then Throw (optionsFailure (Regex.group 3 byMethodMatch))
        else Throw ReferenceError
    | None => Return (parentLocatorPart ++ "." ++ cleanChild)
    end.

Definition validate (target : NodeId) (method value : string) (options : Options)
  : bool :=
  validatePlaywrightLocatorUniqueness doc target method value options.

Definition nameExact (n : string) : Options := mkOptions (Some n) (Some true).
Definition nameOnly (n : string) : Options := mkOptions (Some n) None.
Definition exactOnly : Options := mkOptions None (Some true).

(** [s.length > 0 && s.length < 80] *)
Definition shortText (s : string) : bool :=
  nonEmpty s && (String.length s <? 80)%nat.

(** [el.getAttribute('role') || getImplicitRole(el)] *)
Definition roleOf (n : NodeId) : option string :=
  orElse (getAttribute (elementAt doc n) "role") (getImplicitRole (elementAt doc n)).

(** The locator of an ancestor in the chaining loop, null when there is
    none. *)
Definition parentLocatorCandidate (currentParent : NodeId) : option string :=
  let p := elementAt doc currentParent in
  let parentTestId := testIdOf p in
  if truthy parentTestId
     && validate currentParent "getByTestId" (orEmpty parentTestId) noOptions
  then Some (formatLocator "getByTestId" (orEmpty parentTestId) None)
  else if nonEmpty (id p) && isIdUnique quirksMode doc (id p) currentParent
  then Some ("page.locator(" ++ String dquote ("#" ++ cssEscape (id p))
             ++ String dquote ")")
  else
    let parentRole := roleOf currentParent in
    let parentAccessibleName := getAccessibleName doc currentParent in
    if truthy parentRole && nonEmpty parentAccessibleName
       && validate currentParent "getByRole" (orEmpty parentRole)
                   (nameExact parentAccessibleName)
    then Some (formatLocator "getByRole" (orEmpty parentRole)
                 (Some (nameExact parentAccessibleName)))
    else if truthy parentRole && nonEmpty parentAccessibleName
            && validate currentParent "getByRole" (orEmpty parentRole)
                        (nameOnly parentAccessibleName)
    then Some (formatLocator "getByRole" (orEmpty parentRole)
                 (Some (nameOnly parentAccessibleName)))
    else
      let parentTextContent := getAccessibleName doc currentParent in
      if shortText parentTextContent
         && validate currentParent "getByText" parentTextContent exactOnly
      then Some (formatLocator "getByText" parentTextContent (Some exactOnly))
      else None.

(** The first descendant of [scope] whose [data-testid] is [v]: what
    [querySelector] returns for the attribute selector the script builds. *)
Definition firstWithTestIdAttribute (scope : NodeId) (v : string) : option NodeId :=
  find (fun n => match getAttribute (elementAt doc n) "data-testid" with
                 | Some t => String.eqb t v
                 | None => false
                 end) (descendants doc scope).

(** The first child of [scope] that the selector of the id [ident] finds. *)
Definition firstChildWithId (scope : NodeId) (ident : string) : option NodeId :=
  find (fun n => idSelects quirksMode ident (elementAt doc n))
       (childNodes doc scope).

Definition isNode (found : option NodeId) (n : NodeId) : bool :=
  match found with
  | Some m => nodeEqb m n
  | None => false
  end.

(** The child part made of a CSS selector, the last resort for the child;
    null when the selector does not give the element back. *)
Definition childCssPart (element currentParent : NodeId)
  : Completion (option string) :=
  let el := elementAt doc element in
  if nonEmpty (id el) && isNode (firstChildWithId currentParent (id el)) element
  then Return (Some ("locator(" ++ String dquote ("#" ++ cssEscape (id el))
                     ++ String dquote ")"))
  else
    let simpleChildCss := tagAndClasses el in
    let siblingsOfSameSelector :=
      filter (fun child => String.eqb (tagAndClasses (elementAt doc child))
                                      simpleChildCss)
             (childNodes doc currentParent) in
    let simpleChildCss :=
      if (1 <? List.length siblingsOfSameSelector)%nat
      then
        match indexOf element
                (filter (fun child => String.eqb (tagName (elementAt doc child))
                                                 (tagName el))
                        (childNodes doc currentParent)) with
        | Some i => localName el ++ ":nth-of-type(" ++ ofNat (S i) ++ ")"
        | None => simpleChildCss
        end
      else simpleChildCss in
    match querySelectorAll engine doc (Some currentParent)
                           (":scope > " ++ simpleChildCss) with
    | None => Throw SyntaxError
    | Some found =>
        if isNode (hd_error found) element
        then Return (Some ("locator(" ++ String dquote simpleChildCss
                           ++ String dquote ")"))
        else Return None
    end.

(** The child part of the chained locator, relative to [currentParent]. *)
Definition childLocatorPart (element currentParent : NodeId)
    (testId role : option string) (accessibleName textContent : string)
  : Completion (option string) :=
  if truthy testId
     && isNode (firstWithTestIdAttribute currentParent (orEmpty testId)) element
  then Return (Some (dropPagePrefix
                       (formatLocator "getByTestId" (orEmpty testId) None)))
  else
    let roleCandidatesInParent :=
      filter (fun n =>
                match roleOf n with
                | Some r =>
                    String.eqb r (orEmpty role)
                    && String.eqb (getAccessibleName doc n) accessibleName
                    && nodeEqb n element
                | None => false
                end) (descendants doc currentParent) in
    if truthy role && nonEmpty accessibleName
       && (List.length roleCandidatesInParent =? 1)%nat
    then Return (Some (dropPagePrefix
                         (formatLocator "getByRole" (orEmpty role)
                            (Some (nameExact accessibleName)))))
    else
      let textCandidatesInParent :=
        filter (fun n => String.eqb (getAccessibleName doc n) textContent
                         && nodeEqb n element)
               (descendants doc currentParent) in
      if nonEmpty textContent && (String.length textContent <? 80)%nat
         && (List.length textCandidatesInParent =? 1)%nat
      then Return (Some (dropPagePrefix
                           (formatLocator "getByText" textContent (Some exactOnly))))
      else childCssPart element currentParent.

(** The chaining loop: [remaining] is what is left of its three rounds.
    The result is [Some s] when the body of the loop returns [s] from the
    function, and [None] when the loop ends. *)
Fixpoint chainLoop (element : NodeId) (testId role : option string)
    (accessibleName textContent : string)
    (remaining : nat) (currentParent : option NodeId)
  : Completion (option string) :=
  match remaining with
  | 0 => Return None
  | S remaining' =>
      match currentParent with
      | None => Return None
      | Some parent =>
          if isBody doc parent || nodeEqb parent [] then Return None
          else
            let next :=
              chainLoop element testId role accessibleName textContent
                        remaining' (parentElement parent) in
            match parentLocatorCandidate parent with
            | Some candidate =>
                bind (childLocatorPart element parent testId role
                                       accessibleName textContent)
                     (fun child =>
                        match child with
                        | Some part =>
                            bind (formatChainedLocator candidate part)
                                 (fun chained => Return (Some chained))
                        | None => next
                        end)
            | None => next
            end
      end
  end.

Definition textWarning : string :=
  if isPytest
  then "# WARNING: This getByText locator might not be unique. Consider adding exact=True or a more specific locator if possible."
  else "// WARNING: This getByText locator might not be unique. Consider adding exact: true or a more specific locator if possible.".

Definition cssWarning : string :=
  if isPytest
  then "# WARNING: Generic CSS selector. Prefer semantic locators (getByRole, getByText, etc.) or data-test attributes."
  else "// WARNING: Generic CSS selector. Prefer semantic locators (getByRole, getByText, etc.) or data-test attributes.".

Definition criticalWarning : string :=
  if isPytest
  then "# CRITICAL WARNING: Very generic locator (tag name only). This is highly unstable. Find a more specific attribute!"
  else "// CRITICAL WARNING: Very generic locator (tag name only). This is highly unstable. Find a more specific attribute!".

(** [el.placeholder]: the attribute of an input or a text area, undefined
    on other elements. *)
Definition placeholderOf (el : Element) : string :=
  if String.eqb (localName el) "input" || String.eqb (localName el) "textarea"
  then orEmpty (getAttribute el "placeholder")
  else EmptyString.

(** [el.title] *)
Definition titleOf (el : Element) : string := orEmpty (getAttribute el "title").

(** The two tries of a method, with [exact] and without. *)
Definition exactThenPartial (element : NodeId) (method value : string)
  : option string :=
  if validate element method value exactOnly
  then Some (formatLocator method value (Some exactOnly))
  else if validate element method value noOptions
  then Some (formatLocator method value None)
  else None.

(** The strategies 1 to 7, which return a locator without comment or fall
    through. *)
Definition uniqueLocator (element : NodeId) : option string :=
  let el := elementAt doc element in
  let testId := testIdOf el in
  if truthy testId && validate element "getByTestId" (orEmpty testId) noOptions
  then Some (formatLocator "getByTestId" (orEmpty testId) None)
  else
  let role := roleOf element in
  let accessibleName := getAccessibleName doc element in
  if truthy role && nonEmpty accessibleName
     && validate element "getByRole" (orEmpty role) (nameExact accessibleName)
  then Some (formatLocator "getByRole" (orEmpty role) (Some (nameExact accessibleName)))
  else if truthy role && nonEmpty accessibleName
          && validate element "getByRole" (orEmpty role) (nameOnly accessibleName)
  then Some (formatLocator "getByRole" (orEmpty role) (Some (nameOnly accessibleName)))
  else if truthy role && validate element "getByRole" (orEmpty role) noOptions
  then Some (formatLocator "getByRole" (orEmpty role) None)
  else
  match (if nonEmpty accessibleName
            && negb (String.eqb (localName el) "button"
                     || String.eqb (localName el) "a")
         then exactThenPartial element "getByLabel" accessibleName
         else None) with
  | Some l => Some l
  | None =>
  match (if nonEmpty (placeholderOf el)
         then exactThenPartial element "getByPlaceholder" (placeholderOf el)
         else None) with
  | Some l => Some l
  | None =>
  match (if String.eqb (localName el) "img" && truthy (getAttribute el "alt")
         then exactThenPartial element "getByAltText"
                               (orEmpty (getAttribute el "alt"))
         else None) with
  | Some l => Some l
  | None =>
  match (if shortText (titleOf el)
         then exactThenPartial element "getByTitle" (titleOf el)
         else None) with
  | Some l => Some l
  | None =>
      let textContent := getAccessibleName doc element in
      if shortText textContent
         && validate element "getByText" textContent exactOnly
      then Some (formatLocator "getByText" textContent (Some exactOnly))
      else None
  end end end end.

(** [generateBestLocator(element, framework)] *)
Definition generateBestLocator (element : NodeId) : Completion string :=
  match uniqueLocator element with
  | Some locator => Return locator
  | None =>
      let el := elementAt doc element in
      let testId := testIdOf el in
      let role := roleOf element in
      let accessibleName := getAccessibleName doc element in
      let textContent := getAccessibleName doc element in
      bind (chainLoop element testId role accessibleName textContent 3
                      (parentElement element))
           (fun chained =>
              match chained with
              | Some locator => Return locator
              | None =>
                  if shortText textContent
                  then Return (formatLocator "getByText" textContent None
                               ++ " " ++ textWarning)
                  else
                    let cssSelector := generateCSSPath quirksMode doc element in
                    if nonEmpty cssSelector
                    then Return ("page.locator(" ++ String dquote cssSelector
                                 ++ String dquote ") " ++ cssWarning)
                    else Return ("page.locator(" ++ String dquote (localName el)
                                 ++ String dquote ") " ++ criticalWarning)
              end)
  end.

End Generator.

End Legacy.


(** ** Documents and an engine for the examples *)

Module Examples.
Import JsString Dom.

(** A rendered element whose texts all are [text]. *)
Definition node (tag : string) (attrs : list (string * string)) (text : string)
    (kids : list Element) : Element :=
  mkElement tag attrs EmptyString text text text true false EmptyString kids.

Definition isTypeSelector (s : string) : bool :=
  nonEmpty s &&
  (fix all (t : string) : bool :=
     match t with
     | EmptyString => true
     | String c r => isAlpha c && all r
     end) s.

(** An engine that knows the universal selector and the type selectors, and
    raises a syntax error on every other text. *)
Definition typeSelectorEngine : SelectorEngine :=
  let selects (doc : Document) (sel : string) (n : NodeId) : bool :=
    String.eqb sel "*" || String.eqb (localName (elementAt doc n)) (toLowerCase sel) in
  let known (sel : string) : bool := String.eqb sel "*" || isTypeSelector sel in
  mkEngine
    (fun doc n sel => if known sel then Some (selects doc sel n) else None)
    (fun doc scope sel =>
       if known sel
       then Some (filter (selects doc sel)
                         (match scope with
                          | None => allElements doc
                          | Some s => descendants doc s
                          end))
       else None).

(** The root, the head and the body: elements without offset parent. *)
Definition frame (tag : string) (attrs : list (string * string)) (text : string)
    (kids : list Element) : Element :=
  mkElement tag attrs EmptyString text text text false false EmptyString kids.

(** A text between double quotes. *)
Definition dq (s : string) : string := String dquote (s ++ String dquote EmptyString).

(** Two buttons with the same text, side by side in a form. *)
Definition twoButtons : Document :=
  frame "HTML" [] "Submit Submit"
    [frame "HEAD" [] EmptyString [];
     frame "BODY" [] "Submit Submit"
       [node "FORM" [] "Submit Submit"
          [node "BUTTON" [] "Submit" [];
           node "BUTTON" [] "Submit" []]]].

(** A page with one image. *)
Definition logoPage : Document :=
  frame "HTML" [] EmptyString
    [frame "HEAD" [] EmptyString [];
     frame "BODY" [] EmptyString
       [node "IMG" [("alt", "Logo")] EmptyString []]].

(** Two elements that carry the same test id. *)
Definition sameTestId : Document :=
  frame "HTML" [] "Save Save"
    [frame "HEAD" [] EmptyString [];
     frame "BODY" [] "Save Save"
       [node "BUTTON" [("data-testid", "save")] "Save" [];
        node "BUTTON" [("data-testid", "save")] "Save" []]].

(** One button with a test id. *)
Definition submitPage : Document :=
  frame "HTML" [] "Submit"
    [frame "HEAD" [] EmptyString [];
     frame "BODY" [] "Submit"
       [node "BUTTON" [("data-testid", "submit-1")] "Submit" []]].

(** A button whose test id attribute is there and empty. *)
Definition emptyTestId : Document :=
  frame "HTML" [] "OK"
    [frame "HEAD" [] EmptyString [];
     frame "BODY" [] "OK"
       [node "BUTTON" [("data-testid", EmptyString)] "OK" []]].

(** Two panels, each with a test id of its own and with a save button;
    the two buttons carry the same test id. *)
Definition panels : Document :=
  frame "HTML" [] "Save Save"
    [frame "HEAD" [] EmptyString [];
     frame "BODY" [] "Save Save"
       [node "DIV" [("data-testid", "left")] "Save"
          [node "BUTTON" [("data-testid", "save")] "Save" []];
        node "DIV" [("data-testid", "right")] "Save"
          [node "BUTTON" [("data-testid", "save")] "Save" []]]].

(** Two buttons with the same text, side by side in the body. *)
Definition twoButtonsInBody : Document :=
  frame "HTML" [] "Submit Submit"
    [frame "HEAD" [] EmptyString [];
     frame "BODY" [] "Submit Submit"
       [node "BUTTON" [] "Submit" [];
        node "BUTTON" [] "Submit" []]].

(** An element with two test id attributes. *)
Definition twoTestIds : Document :=
  frame "HTML" [] EmptyString
    [frame "HEAD" [] EmptyString [];
     frame "BODY" [] EmptyString
       [node "DIV" [("data-testid", "a"); ("data-qa", "b")] EmptyString []]].

(** A form field with a placeholder. *)
Definition nameField : Document :=
  frame "HTML" [] EmptyString
    [frame "HEAD" [] EmptyString [];
     frame "BODY" [] EmptyString
       [node "INPUT" [("type", "text"); ("placeholder", "Name")] EmptyString []]].

(** A page without text: neither the root nor the body has an accessible
    name. *)
Definition emptyPage : Document :=
  frame "HTML" [] EmptyString
    [frame "HEAD" [] EmptyString [];
     frame "BODY" [] EmptyString []].

(** One check box, without text. *)
Definition checkboxPage : Document :=
  frame "HTML" [] EmptyString
    [frame "HEAD" [] EmptyString [];
     frame "BODY" [] EmptyString
       [node "INPUT" [("type", "checkbox")] EmptyString []]].

(** Two panels, each with a test id of its own and with a check box
    without text. *)
Definition checkPanels : Document :=
  frame "HTML" [] EmptyString
    [frame "HEAD" [] EmptyString [];
     frame "BODY" [] EmptyString
       [node "DIV" [("data-testid", "left")] EmptyString
          [node "INPUT" [("type", "checkbox")] EmptyString []];
        node "DIV" [("data-testid", "right")] EmptyString
          [node "INPUT" [("type", "checkbox")] EmptyString []]]].

(** A button whose test id holds a double quote. *)
Definition quotedTestId : Document :=
  frame "HTML" [] "OK"
    [frame "HEAD" [] EmptyString [];
     frame "BODY" [] "OK"
       [node "BUTTON" [("data-testid", "a" ++ String dquote "b")] "OK" []]].

(** A button whose test id holds a line feed. *)
Definition brokenTestId : Document :=
  frame "HTML" [] "OK"
    [frame "HEAD" [] EmptyString [];
     frame "BODY" [] "OK"
       [node "BUTTON" [("data-testid", "a" ++ String (ascii_of_nat 10) "b")]
             "OK" []]].

(** A box without text that has a title. *)
Definition titledBox : Document :=
  frame "HTML" [] EmptyString
    [frame "HEAD" [] EmptyString [];
     frame "BODY" [] EmptyString
       [node "DIV" [("title", "Hint")] EmptyString []]].

(** A box whose [role] attribute reads like the name option. *)
Definition nameRole : Document :=
  frame "HTML" [] "OK"
    [frame "HEAD" [] EmptyString [];
     frame "BODY" [] "OK"
       [node "DIV" [("role", "name:")] "OK" []]].

(** A paragraph. *)
Definition helloPage : Document :=
  frame "HTML" [] "Hello"
    [frame "HEAD" [] EmptyString [];
     frame "BODY" [] "Hello"
       [node "P" [] "Hello" []]].

(** An image button. *)
Definition imageButton : Document :=
  frame "HTML" [] EmptyString
    [frame "HEAD" [] EmptyString [];
     frame "BODY" [] EmptyString
       [node "INPUT" [("type", "image"); ("alt", "Go")] EmptyString []]].

(** A box whose [role] attribute reads like a call of [locator], with a
    closing parenthesis for text. *)
Definition locatorRole : Document :=
  frame "HTML" [] ")"
    [frame "HEAD" [] EmptyString [];
     frame "BODY" [] ")"
       [node "DIV" [("role", "locator(")] ")" []]].

(** A paragraph three boxes below the body; the boxes have no attribute
    and no text. *)
Definition deepPage : Document :=
  frame "HTML" [] EmptyString
    [frame "HEAD" [] EmptyString [];
     frame "BODY" [] EmptyString
       [node "DIV" [] EmptyString
          [node "DIV" [] EmptyString
             [node "DIV" [] EmptyString
                [node "P" [] EmptyString []]]]]].

(** A button whose [data-test] attribute is there and empty. *)
Definition emptyDataTest : Document :=
  frame "HTML" [] "OK"
    [frame "HEAD" [] EmptyString [];
     frame "BODY" [] "OK"
       [node "BUTTON" [("data-test", EmptyString)] "OK" []]].

(** A body with a test id; the body is not rendered. *)
Definition bodyTestId : Document :=
  frame "HTML" [] EmptyString
    [frame "HEAD" [] EmptyString [];
     frame "BODY" [("data-testid", "page")] EmptyString []].

(** An engine that raises on no text: what it does not know matches
    nothing. *)
Definition lenientEngine : SelectorEngine :=
  let selects (doc : Document) (sel : string) (n : NodeId) : bool :=
    String.eqb sel "*"
    || (isTypeSelector sel
        && String.eqb (localName (elementAt doc n)) (toLowerCase sel)) in
  mkEngine
    (fun doc n sel => Some (selects doc sel n))
    (fun doc scope sel =>
       Some (filter (selects doc sel)
                    (match scope with
                     | None => allElements doc
                     | Some s => descendants doc s
                     end))).

(** A paragraph without anything to name it, in a division of the body. *)
Definition barePage : Document :=
  frame "HTML" [] EmptyString
    [frame "HEAD" [] EmptyString [];
     frame "BODY" [] EmptyString
       [node "DIV" [] EmptyString
          [node "P" [] EmptyString []]]].

(** An element of a tag that is the name of an inherited property. *)
Definition constructorPage : Document :=
  frame "HTML" [] "Hi"
    [frame "HEAD" [] EmptyString [];
     frame "BODY" [] "Hi"
       [node "CONSTRUCTOR" [] "Hi" []]].

(** A list item below two divisions that have the same selector. *)
Definition nestedItems : Document :=
  frame "HTML" [] EmptyString
    [frame "HEAD" [] EmptyString [];
     frame "BODY" [] EmptyString
       [node "SECTION" [] EmptyString
          [node "DIV" [] EmptyString [node "DIV" [] EmptyString []];
           node "DIV" [] EmptyString []]]].

End Examples.

(** * Properties *)

Module Properties.
Import JsString Regex Dom Script Examples.

(** ** Vocabulary of the statements *)

(** The first non-empty value of a list of attribute reads. *)
Definition firstNonEmpty (l : list (option string)) : option string :=
  match find truthy l with
  | Some v => v
  | None => None
  end.

(** The reads of the test id family, in the order of the script. *)
Definition testIdFamily (el : Element) : list (option string) :=
  [getAttribute el "data-testid"; getAttribute el "data-qa";
   getAttribute el "data-test"].

(** The element has the test id [v]: [v] is the first non-empty value of the
    family or, when no value is non-empty, [v] is empty and so is
    [data-test]. *)
Definition hasTestId (el : Element) (v : string) : Prop :=
  firstNonEmpty (testIdFamily el) = Some v
  \/ (firstNonEmpty (testIdFamily el) = None /\ v = EmptyString
      /\ getAttribute el "data-test" = Some EmptyString).

(** No other element of the document has the [alt] text [alt]. *)
Definition uniqueAlt (doc : Document) (element : NodeId) (alt : string) : Prop :=
  forall other : NodeId,
    inDocument doc other = true ->
    getAttribute (elementAt doc other) "alt" = Some alt -> other = element.

(** The options of the locator by role and name. *)
Definition roleNameOptions (name : string) : option (list (string * OptionValue)) :=
  Some [("name", StringValue name); ("exact", BoolValue true)].

Definition exactOption : option (list (string * OptionValue)) :=
  Some [("exact", BoolValue true)].

(** The element has no name from [aria-label] or from a label. *)
Definition noLabel (doc : Document) (el : Element) : Prop :=
  truthy (getAttribute el "aria-label") = false
  /\ (nonEmpty (id el) = false \/ labelFor doc (id el) = None).

(** The methods and options for which the verifier and the evaluator read a
    candidate in the same way. *)
Definition sameReading (method value : string) (options : Legacy.Options)
    (el : Element) : Prop :=
  method = "getByTestId"
  \/ (Legacy.exactMatch options = true /\ nonEmpty value = true
      /\ (method = "getByPlaceholder" \/ method = "getByTitle"
          \/ (method = "getByAltText" /\ localName el = "img"))).

(** A call of [locator] whose argument is an opening bracket. *)
Definition brokenLocator : string := "locator(" ++ dq "[" ++ ")".

(** The ancestors the loop of the generator can reach: at most [remaining]
    of them, from [parent] upwards, short of an element whose tag is BODY. *)
Fixpoint ancestorsVisited (doc : Document) (remaining : nat)
    (parent : option NodeId) : list NodeId :=
  match remaining with
  | 0 => []
  | S remaining' =>
      match parent with
      | None => []
      | Some p =>
          if String.eqb (tagName (elementAt doc p)) "BODY" then []
          else p :: ancestorsVisited doc remaining' (parentElement p)
      end
  end.

(** [a] is above [el] in the tree, and is not [el]. *)
Definition strictAncestor (a el : NodeId) : Prop :=
  exists rest, rest <> [] /\ el = (a ++ rest)%list.

(** The height of a tree: the length of its longest path. *)
Fixpoint height (e : Element) : nat :=
  list_max (map (fun c => S (height c)) (children e)).

(** Every character of the text satisfies [p]. *)
Fixpoint every (p : ascii -> bool) (s : string) : bool :=
  match s with
  | EmptyString => true
  | String c r => p c && every p r
  end.

(** The number of quote characters of a text. *)
Fixpoint countQuotes (s : string) : nat :=
  match s with
  | EmptyString => 0
  | String c r => (if isQuote c then 1 else 0) + countQuotes r
  end.

(** A character that is no quote character and no line terminator. *)
Definition plainChar (c : ascii) : bool := negb (isQuote c) && isDot c.

(** The paths below the children, as [subtree] lists them. *)
Fixpoint below (i : nat) (l : list Element) : list NodeId :=
  match l with
  | [] => []
  | c :: r => (map (cons i) (subtree c) ++ below (S i) r)%list
  end.

(** What the generator of the content script chooses, apart from its text. *)
Inductive Strategy : Type :=
| TestId (value : string)
| RoleName (role name : string)
| Placeholder (value : string)
| AltText (value : string)
| Text (value : string)
| Role (role : string).

Inductive Child : Type :=
| ChildRole (role : string)
| ChildCss (selector : string).

Inductive Locator : Type :=
| Direct (s : Strategy)
| Chained (parent : Locator) (child : Child).

Inductive Expression : Type :=
| Plain (l : Locator)
| Fallback (selector : string).

Definition renderStrategy (isPytest : bool) (s : Strategy) : string :=
  match s with
  | TestId v => formatLocator isPytest "getByTestId" v None
  | RoleName r n => formatLocator isPytest "getByRole" r (roleNameOptions n)
  | Placeholder v => formatLocator isPytest "getByPlaceholder" v exactOption
  | AltText v => formatLocator isPytest "getByAltText" v exactOption
  | Text v => formatLocator isPytest "getByText" v exactOption
  | Role r => formatLocator isPytest "getByRole" r None
  end.

Definition renderChild (isPytest : bool) (c : Child) : string :=
  match c with
  | ChildRole r => dropPagePrefix (formatLocator isPytest "getByRole" r None)
  | ChildCss css => "locator(" ++ quoted css ++ ")"
  end.

Fixpoint renderLocator (isPytest : bool) (l : Locator) : string :=
  match l with
  | Direct s => renderStrategy isPytest s
  | Chained p c => renderLocator isPytest p ++ "." ++ renderChild isPytest c
  end.

Definition render (comment : bool -> string) (isPytest : bool) (e : Expression)
  : string :=
  match e with
  | Plain l => renderLocator isPytest l
  | Fallback css =>
      ("page.locator(" ++ quoted css ++ ")") ++ " " ++ comment isPytest
  end.

(** The elements the verifier considers for a call. *)
Definition rendered (doc : Document) : list NodeId :=
  filter (Content.isVisible doc) (allElements doc).

(** The strategy of the first tiers of the ladder of the content script,
    which return a locator of one call; [None] when none of them returns a
    text for the element. *)
Definition directStrategy (doc : Document) (element : NodeId) : option Strategy :=
  let el := elementAt doc element in
  let role := getImplicitRole el in
  let accName := Content.getAccessibleName doc element in
  if truthy (testIdOf el) then Some (TestId (orEmpty (testIdOf el)))
  else if truthyRole role && nonEmpty accName
  then match role with
       | Some (RoleText r) => Some (RoleName r accName)
       | _ => None
       end
  else if truthy (getAttribute el "placeholder")
  then Some (Placeholder (orEmpty (getAttribute el "placeholder")))
  else if truthy (getAttribute el "alt")
  then Some (AltText (orEmpty (getAttribute el "alt")))
  else if nonEmpty accName then Some (Text accName)
  else match role with
       | Some (RoleText r) =>
           if isLocatorUniqueInScope doc "getByRole" (RoleText r) element None
           then Some (Role r) else None
       | _ => None
       end.

(** What the verifier asks of an element for the text of a strategy: the
    case of its [switch] for the method, at the value and the name the
    text holds. *)
Definition accepts (doc : Document) (s : Strategy) (n : NodeId) : bool :=
  let e := elementAt doc n in
  let attributeIs (name v : string) :=
    match getAttribute e name with
    | Some x => String.eqb x v
    | None => false
    end in
  match s with
  | TestId v =>
      match testIdOf e with
      | Some x => String.eqb x v
      | None => false
      end
  | RoleName r m =>
      roleIsText (getImplicitRole e) r
      && includes m (Content.getAccessibleName doc n)
  | Placeholder v => attributeIs "placeholder" v
  | AltText v => attributeIs "alt" v
  | Text v =>
      includes v (trim (if nonEmpty (innerText e) then innerText e
                        else textContent e))
  | Role r => roleIsText (getImplicitRole e) r
  end.

(** The values of a strategy are read back as they are: they hold no quote
    character and no line terminator, and a role that comes with a name
    holds neither [locator] nor [name]. *)
Definition readable (s : Strategy) : Prop :=
  match s with
  | RoleName r m =>
      every plainChar r = true /\ every plainChar m = true
      /\ includes "locator" r = false /\ includes "name" r = false
  | TestId v | Placeholder v | AltText v | Text v | Role v =>
      every plainChar v = true
  end.

(** The strategy is the one by text. *)
Definition isText (s : Strategy) : bool :=
  match s with
  | Text _ => true
  | _ => false
  end.

(** The two runs have the same outcome: both run out of fuel, both raise the
    same exception, or they return the two texts of one expression. *)
Definition sameChoice (comment : bool -> string)
    (pytest js : option (Completion string)) : Prop :=
  match pytest, js with
  | None, None => True
  | Some (Throw x), Some (Throw y) => x = y
  | Some (Return p), Some (Return j) =>
      exists e, p = render comment true e /\ j = render comment false e
  | _, _ => False
  end.

(** A text that does not hold the character [c]. *)
Definition without (c : ascii) (s : string) : bool :=
  every (fun x => negb (Ascii.eqb x c)) s.

(** The texts the stability test of the loop looks for. *)
Definition needle (n : string) : Prop := n = "locator(" \/ n = "WARNING".

(** Where a needle can be in the text of a strategy: in its values. *)
Definition occursInStrategy (n : string) (s : Strategy) : bool :=
  match s with
  | TestId v | Placeholder v | AltText v | Text v | Role v =>
      includes n (escapeStr v)
  | RoleName r m => includes n (escapeStr r) || includes n (escapeStr m)
  end.

Definition occursInChild (n : string) (c : Child) : bool :=
  match c with
  | ChildRole r => includes n (escapeStr r)
  | ChildCss css => String.eqb n "locator(" || includes n (escapeStr css)
  end.

Fixpoint occursInLocator (n : string) (l : Locator) : bool :=
  match l with
  | Direct s => occursInStrategy n s
  | Chained p c => occursInLocator n p || occursInChild n c
  end.

(** The same relation for the results of the loop. *)
Definition sameLoop (pytest js : option (Completion (option string))) : Prop :=
  match pytest, js with
  | None, None => True
  | Some (Throw x), Some (Throw y) => x = y
  | Some (Return None), Some (Return None) => True
  | Some (Return (Some p)), Some (Return (Some j)) =>
      exists l, p = renderLocator true l /\ j = renderLocator false l
  | _, _ => False
  end.

(** The element carries the mark of the verifier. *)
Definition marked (doc : Document) (p : NodeId) : bool :=
  hasAttribute (elementAt doc p) Content.highlightAttribute.

(** A change of an element that keeps its children. *)
Definition keepsChildren (f : Element -> Element) : Prop :=
  forall e, children (f e) = children e.

(** What is read of an element apart from its children. *)
Definition ownField {A : Type} (g : Element -> A) : Prop :=
  forall e c, g (withChildren e c) = g e.

(** The first query of the verifier gives nothing for the text: the text
    holds [getBy], or the engine raises a syntax error or finds nothing. *)
Definition firstQueryIdle (engine : SelectorEngine) (doc : Document)
    (text : string) : Prop :=
  includes "getBy" text = true
  \/ querySelectorAll engine doc None text = None
  \/ querySelectorAll engine doc None text = Some [].

(** The engine raises no syntax error. *)
Definition quiet (engine : SelectorEngine) : Prop :=
  (forall d n s, matches engine d n s <> None)
  /\ (forall d scope s, querySelectorAll engine d scope s <> None).

(** The node is at an element with the tag BODY or below one. *)
Definition withinBody (doc : Document) (n : NodeId) : Prop :=
  exists b rest, n = (b ++ rest)%list /\ tagName (elementAt doc b) = "BODY".

(** The node is strictly below an element with the tag BODY. *)
Definition belowBody (doc : Document) (n : NodeId) : Prop :=
  exists b rest, n = (b ++ rest)%list /\ rest <> []
                 /\ tagName (elementAt doc b) = "BODY".

(** The role of every element of the document is a text or null: no tag
    and no input type is a name that the tables inherit. *)
Definition textRoles (doc : Document) : bool :=
  forallb (fun n => match getImplicitRole (elementAt doc n) with
                    | Some (Inherited _) => false
                    | _ => true
                    end) (allElements doc).

(** The element has something to name it: a test id, an accessible name, a
    placeholder or an alt text. *)
Definition named (name : Document -> NodeId -> string) (doc : Document)
    (element : NodeId) : bool :=
  let el := elementAt doc element in
  truthy (testIdOf el) || nonEmpty (name doc element)
  || truthy (getAttribute el "placeholder") || truthy (getAttribute el "alt").

(** The text holds no blank that a hash or two slashes follow. *)
Definition noComment (text : string) : bool :=
  negb (includes " #" text) && negb (includes " //" text).

(** The elements a scope holds: the document's, or the proper descendants of
    the scope. *)
Definition scopeElements (doc : Document) (scope : option NodeId) : list NodeId :=
  match scope with
  | None => allElements doc
  | Some s => descendants doc s
  end.

(** The role of the node is [value]. *)
Definition hasRole (doc : Document) (value : RoleValue) (n : NodeId) : Prop :=
  getImplicitRole (elementAt doc n) = Some value.

(** The selector of [getRelativeCSS] before the index: the tag and the
    stable classes. *)
Definition tagAndStableClasses (el : Element) : string :=
  let stableClasses := filter stableClass (classList el) in
  if (0 <? List.length stableClasses)%nat
  then localName el ++ "." ++ join "." stableClasses
  else localName el.

(** The text starts with white space. *)
Definition startsWithSpace (s : string) : bool :=
  match s with
  | String c _ => isSpace c
  | EmptyString => false
  end.

(** The text ends with white space. *)
Fixpoint endsWithSpace (s : string) : bool :=
  match s with
  | EmptyString => false
  | String c EmptyString => isSpace c
  | String _ r => endsWithSpace r
  end.

(** The value the earlier generator passes to the evaluator for a method:
    what the element itself has for it. *)
Definition ownValue (doc : Document) (target : NodeId) (method : string) : string :=
  let el := elementAt doc target in
  if String.eqb method "getByLabel" || String.eqb method "getByText"
  then Legacy.getAccessibleName doc target
  else if String.eqb method "getByPlaceholder" then Legacy.placeholderOf el
  else if String.eqb method "getByAltText" then orEmpty (getAttribute el "alt")
  else if String.eqb method "getByTitle" then Legacy.titleOf el
  else EmptyString.

(** The id of the element is not empty and its selector finds one element
    in the document. *)
Definition hasUniqueId (quirksMode : bool) (doc : Document) (element : NodeId) : bool :=
  let el := elementAt doc element in
  nonEmpty (id el) && (List.length (Legacy.withId quirksMode doc (id el)) =? 1)%nat.

(** A path that [join] turns into a text that is not empty. *)
Definition solidPath (path : list string) : bool :=
  match path with
  | [] => false
  | [x] => nonEmpty x
  | _ :: _ :: _ => true
  end.

(** The options the earlier generator gives to the child of a chain. *)
Definition childOptions (o : option Legacy.Options) : Prop :=
  o = None \/ o = Some Legacy.exactOnly
  \/ exists n, o = Some (Legacy.nameExact n)
               /\ every isDot (escapeStr n) = true.

(** The tail of the child pattern: the closing parenthesis at the end, with
    or without the options before it. *)
Definition childTail (c : captures) (rest : string) : option captures :=
  match run [Lit ", "; Open 3; Plus isDot; Close 3; Lit ")"; End] c rest with
  | Some (c', _) => Some c'
  | None =>
      match run [Lit ")"; End] c rest with
      | Some (c', _) => Some c'
      | None => None
      end
  end.

(** What follows the value of a child: nothing, or a comma, a blank and
    options on one line. *)
Definition afterValue (post : string) : Prop :=
  post = EmptyString
  \/ exists o, post = ", " ++ o /\ nonEmpty o = true /\ every isDot o = true.

(** The child parts the chain takes in the pytest dialect. *)
Definition chainable (optionsFailure : string -> Exception) (part : string) : Prop :=
  forall parent, exists t,
    Legacy.formatChainedLocator optionsFailure parent part = Return t.

(** ** Texts and patterns *)

Lemma append_assoc (a b c : string) : (a ++ b) ++ c = a ++ (b ++ c).
Proof. induction a as [|x a IH]; simpl; [reflexivity|now rewrite IH]. Qed.

Lemma append_empty (a : string) : a ++ EmptyString = a.
Proof. induction a as [|x a IH]; simpl; [reflexivity|now rewrite IH]. Qed.

Lemma length_append (a b : string) :
  String.length (a ++ b) = String.length a + String.length b.
Proof. induction a as [|x a IH]; simpl; [reflexivity|now rewrite IH]. Qed.

Lemma take_length (a b : string) : take (String.length a) (a ++ b) = a.
Proof. induction a as [|x a IH]; simpl; [now destruct b|now rewrite IH]. Qed.

Lemma take_consumed (a b : string) :
  take (String.length (a ++ b) - String.length b) (a ++ b) = a.
Proof.
  rewrite length_append.
  replace (String.length a + String.length b - String.length b)
    with (String.length a) by lia.
  apply take_length.
Qed.

Lemma closeGroup_text (g : nat) (a b : string) (c : captures) :
  lookup g (opened c) = Some (a ++ b) ->
  closeGroup g b c = mkCaptures (opened c) ((g, a) :: closed c).
Proof. intro H. unfold closeGroup. rewrite H, take_consumed. reflexivity. Qed.

Lemma stripPrefix_Some (l s r : string) : stripPrefix l s = Some r -> s = l ++ r.
Proof.
  revert s. induction l as [|x l IH]; intros s H; simpl in *.
  - now injection H.
  - destruct s as [|y s]; [discriminate|].
    destruct (Ascii.eqb x y) eqn:E; [|discriminate].
    apply Ascii.eqb_eq in E. subst y. f_equal. now apply IH.
Qed.

Lemma stripPrefix_append (l r : string) : stripPrefix l (l ++ r) = Some r.
Proof.
  induction l as [|x l IH]; simpl; [reflexivity|].
  now rewrite Ascii.eqb_refl.
Qed.

Section Stars.

Context {R : Type}.
Variable p : ascii -> bool.
Variable k : string -> option R.

Lemma greedy_Some (s : string) (r : R) :
  greedy p k s = Some r -> exists a b, s = a ++ b /\ k b = Some r.
Proof.
  induction s as [|x s IH]; simpl; intro H.
  - exists EmptyString, EmptyString. now split.
  - destruct (p x).
    + destruct (greedy p k s) as [r'|] eqn:G.
      * injection H as ->. destruct (IH eq_refl) as [a [b [-> K]]].
        exists (String x a), b. now split.
      * exists EmptyString, (String x s). now split.
    + exists EmptyString, (String x s). now split.
Qed.

Lemma lazy_Some (s : string) (r : R) :
  lazy p k s = Some r -> exists a b, s = a ++ b /\ k b = Some r.
Proof.
  induction s as [|x s IH]; simpl; intro H.
  - destruct (k EmptyString) eqn:K; [|discriminate].
    exists EmptyString, EmptyString. split; [reflexivity|]. now rewrite K.
  - destruct (k (String x s)) eqn:K.
    + exists EmptyString, (String x s). split; [reflexivity|]. now rewrite K.
    + destruct (p x); [|discriminate].
      destruct (IH H) as [a [b [-> K']]].
      exists (String x a), b. now split.
Qed.

(** A greedy star over a text all of whose characters it takes gives back
    the last character when what follows needs it. *)
Lemma greedy_gives_back_last (a : string) (x : ascii) (r : R) :
  every p a = true -> p x = true ->
  k EmptyString = None -> k (String x EmptyString) = Some r ->
  greedy p k (a ++ String x EmptyString) = Some r.
Proof.
  intros A X K0 K1. induction a as [|y a IH]; simpl in *.
  - now rewrite X, K0.
  - apply andb_prop in A as [Y A]. now rewrite Y, (IH A).
Qed.

(** A lazy star passes the characters on which what follows fails. *)
Lemma lazy_skips (q : ascii -> bool) (a b : string) :
  every (fun c => p c && negb (q c)) a = true ->
  (forall c t, q c = false -> k (String c t) = None) ->
  lazy p k (a ++ b) = lazy p k b.
Proof.
  intros A K. induction a as [|y a IH]; simpl in *; [reflexivity|].
  apply andb_prop in A as [Y A]. apply andb_prop in Y as [P Q].
  apply negb_true_iff in Q. now rewrite (K y _ Q), P, (IH A).
Qed.

End Stars.

Lemma greedy_stops {R : Type} (p : ascii -> bool) (k : string -> option R)
    (x : ascii) (s : string) :
  p x = false -> greedy p k (String x s) = k (String x s).
Proof. intro H. simpl. now rewrite H. Qed.

Lemma greedy_run {R : Type} (p : ascii -> bool) (k : string -> option R)
    (a b : string) (r : R) :
  every p a = true -> greedy p k b = Some r -> greedy p k (a ++ b) = Some r.
Proof.
  intros A K. induction a as [|y a IH]; simpl in *; [exact K|].
  apply andb_prop in A as [Y A]. now rewrite Y, (IH A).
Qed.

Lemma search_next (items : list item) (x : ascii) (s : string) :
  run items noCaptures (String x s) = None ->
  search items (String x s) = search items s.
Proof. intro H. simpl. now rewrite H. Qed.

Lemma search_here (items : list item) (s rest : string) (c : captures) :
  run items noCaptures s = Some (c, rest) -> search items s = Some c.
Proof. intro H. destruct s; simpl; now rewrite H. Qed.

(** The call pattern at a call of a method whose name is [getBy] and
    letters, with arguments on one line. *)
Lemma run_locatorCall (name args : string) (x : ascii) :
  isAlpha x = true -> every isAlpha name = true -> every isDot args = true ->
  exists c,
    run reLocatorCall noCaptures ("getBy" ++ String x name ++ "(" ++ args ++ ")")
      = Some (c, EmptyString)
    /\ group 1 c = "getBy" ++ String x name /\ group 2 c = args.
Proof.
  intros X N A.
  set (whole := "getBy" ++ String x name ++ "(" ++ args ++ ")").
  set (c1 := openGroup 1 whole noCaptures).
  set (c2 := mkCaptures (opened c1) ((1, "getBy" ++ String x name) :: closed c1)).
  set (c3 := openGroup 2 (args ++ ")") c2).
  set (c4 := mkCaptures (opened c3) ((2, args) :: closed c3)).
  exists c4. split; [|split; reflexivity].
  assert (K4 : run [Close 2; Lit ")"] c3 ")" = Some (c4, EmptyString)).
  { change (run [Lit ")"] (closeGroup 2 ")" c3) ")" = Some (c4, EmptyString)).
    rewrite (closeGroup_text 2 args ")" c3) by reflexivity. reflexivity. }
  assert (K3 : run [Star isSpace; Lit "("; Open 2; Star isDot; Close 2; Lit ")"]
                   c2 ("(" ++ args ++ ")") = Some (c4, EmptyString)).
  { change (greedy isDot (run [Close 2; Lit ")"] c3) (args ++ ")")
            = Some (c4, EmptyString)).
    apply greedy_gives_back_last; [exact A|reflexivity|reflexivity|exact K4]. }
  assert (K2 : run [Close 1; Star isSpace; Lit "("; Open 2; Star isDot; Close 2; Lit ")"]
                   c1 ("(" ++ args ++ ")") = Some (c4, EmptyString)).
  { change (run [Star isSpace; Lit "("; Open 2; Star isDot; Close 2; Lit ")"]
                (closeGroup 1 ("(" ++ args ++ ")") c1) ("(" ++ args ++ ")")
            = Some (c4, EmptyString)).
    rewrite (closeGroup_text 1 ("getBy" ++ String x name) ("(" ++ args ++ ")") c1).
    - exact K3.
    - reflexivity. }
  change (match stripPrefix "getBy" whole with
          | Some s' =>
              run [Plus isAlpha; Close 1; Star isSpace; Lit "("; Open 2;
                   Star isDot; Close 2; Lit ")"] c1 s'
          | None => None
          end = Some (c4, EmptyString)).
  unfold whole. rewrite stripPrefix_append.
  change ((if isAlpha x
           then greedy isAlpha
                  (run [Close 1; Star isSpace; Lit "("; Open 2; Star isDot;
                        Close 2; Lit ")"] c1)
                  (name ++ "(" ++ args ++ ")")
           else None) = Some (c4, EmptyString)).
  rewrite X. apply greedy_run; [exact N|].
  change ("(" ++ args ++ ")") with (String "(" (args ++ ")")).
  rewrite greedy_stops by reflexivity. exact K2.
Qed.

Lemma lazy_here {R : Type} (p : ascii -> bool) (k : string -> option R)
    (s : string) (r : R) :
  k s = Some r -> lazy p k s = Some r.
Proof. intro H. destruct s; simpl; now rewrite H. Qed.

(** The argument pattern at a quoted text without quote characters and on
    one line. *)
Lemma run_quoted (v rest : string) (q1 q2 : ascii) :
  isQuote q1 = true -> isQuote q2 = true -> every plainChar v = true ->
  exists c,
    run reQuoted noCaptures (String q1 (v ++ String q2 rest)) = Some (c, rest)
    /\ group 1 c = v.
Proof.
  intros Q1 Q2 V.
  set (c1 := openGroup 1 (v ++ String q2 rest) noCaptures).
  set (c2 := mkCaptures (opened c1) ((1, v) :: closed c1)).
  exists c2. split; [|reflexivity].
  change ((if isQuote q1
           then lazy isDot (run [Close 1; Class isQuote] c1) (v ++ String q2 rest)
           else None) = Some (c2, rest)).
  rewrite Q1. rewrite (lazy_skips isDot _ isQuote).
  - apply lazy_here.
    change (run [Class isQuote] (closeGroup 1 (String q2 rest) c1) (String q2 rest)
            = Some (c2, rest)).
    rewrite (closeGroup_text 1 v (String q2 rest) c1) by reflexivity.
    unfold run. simpl. now rewrite Q2.
  - clear -V. induction v as [|y v IH]; simpl in *; [reflexivity|].
    apply andb_prop in V as [Y V]. unfold plainChar in Y.
    apply andb_prop in Y as [Y1 Y2]. now rewrite Y1, Y2, (IH V).
  - intros c t H.
    change (run [Class isQuote] (closeGroup 1 (String c t) c1) (String c t) = None).
    unfold run. simpl. now rewrite H.
Qed.

Lemma countQuotes_append (a b : string) :
  countQuotes (a ++ b) = countQuotes a + countQuotes b.
Proof. induction a as [|x a IH]; simpl; [reflexivity|rewrite IH; lia]. Qed.

Lemma countQuotes_plain (v : string) : every plainChar v = true -> countQuotes v = 0.
Proof.
  induction v as [|y v IH]; simpl; [reflexivity|]. intro V.
  apply andb_prop in V as [Y V]. unfold plainChar in Y.
  apply andb_prop in Y as [Y _]. apply negb_true_iff in Y.
  now rewrite Y, (IH V).
Qed.

Lemma succ_minus (n : nat) : S n - n = 1.
Proof. lia. Qed.

(** The CSS pattern matches only where two quote characters follow. *)
Lemma run_locatorCss_quotes (c : captures) (s : string) (r : captures * string) :
  run reLocatorCss c s = Some r -> 2 <= countQuotes s.
Proof.
  unfold reLocatorCss. intro H.
  change (match stripPrefix "locator" s with
          | Some s' => greedy isSpace
                         (run [Lit "("; Star isSpace; Open 1; Class isQuote; Close 1;
                               Open 2; LazyStar isDot; Close 2; Backref 1;
                               Star isSpace; Lit ")"] c) s'
          | None => None
          end = Some r) in H.
  destruct (stripPrefix "locator" s) as [s1|] eqn:E1; [|discriminate].
  apply stripPrefix_Some in E1. subst s.
  apply greedy_Some in H as [a1 [s2 [-> H]]].
  change (match stripPrefix "(" s2 with
          | Some s' => greedy isSpace
                         (run [Open 1; Class isQuote; Close 1;
                               Open 2; LazyStar isDot; Close 2; Backref 1;
                               Star isSpace; Lit ")"] c) s'
          | None => None
          end = Some r) in H.
  destruct (stripPrefix "(" s2) as [s3|] eqn:E2; [|discriminate].
  apply stripPrefix_Some in E2. subst s2.
  apply greedy_Some in H as [a2 [s4 [-> H]]].
  destruct s4 as [|q s5]; [discriminate|].
  set (c1 := openGroup 1 (String q s5) c) in *.
  change ((if isQuote q
           then run [Close 1; Open 2; LazyStar isDot; Close 2; Backref 1;
                     Star isSpace; Lit ")"] c1 s5
           else None) = Some r) in H.
  destruct (isQuote q) eqn:Q; [|discriminate].
  set (c2 := closeGroup 1 s5 c1) in *.
  set (c3 := openGroup 2 s5 c2) in *.
  change (lazy isDot (run [Close 2; Backref 1; Star isSpace; Lit ")"] c3) s5 = Some r)
    in H.
  apply lazy_Some in H as [a3 [s6 [-> H]]].
  change (match stripPrefix (group 1 (closeGroup 2 s6 c3)) s6 with
          | Some s' => run [Star isSpace; Lit ")"] (closeGroup 2 s6 c3) s'
          | None => None
          end = Some r) in H.
  assert (G : group 1 (closeGroup 2 s6 c3) = String q EmptyString).
  { assert (C2 : c2 = mkCaptures (opened c1) ((1, String q EmptyString) :: closed c1))
      by (apply (closeGroup_text 1 (String q EmptyString) (a3 ++ s6) c1); reflexivity).
    rewrite (closeGroup_text 2 a3 s6 c3) by reflexivity.
    unfold c3. rewrite C2. reflexivity. }
  rewrite G in H.
  destruct s6 as [|q' s7]; [discriminate|].
  simpl stripPrefix in H.
  destruct (Ascii.eqb q q') eqn:E; [|discriminate].
  apply Ascii.eqb_eq in E. subst q'.
  rewrite !countQuotes_append. simpl. rewrite countQuotes_append. simpl.
  rewrite Q. lia.
Qed.

Lemma search_locatorCss_one_quote (s : string) :
  countQuotes s <= 1 -> search reLocatorCss s = None.
Proof.
  induction s as [|x s IH]; intro H.
  - reflexivity.
  - destruct (run reLocatorCss noCaptures (String x s)) as [r|] eqn:E.
    + apply run_locatorCss_quotes in E. lia.
    + rewrite (search_next _ _ _ E). apply IH. simpl in H. lia.
Qed.

Lemma startsWith_before (c : ascii) (n a b : string) :
  without c n = true ->
  startsWith n (a ++ String c b) = startsWith n a.
Proof.
  revert a. induction n as [|x n IH]; intros a W; [reflexivity|].
  simpl in W. apply andb_prop in W as [X W].
  destruct a as [|y a]; simpl.
  - apply negb_true_iff in X. now rewrite X.
  - now rewrite (IH a W).
Qed.

(** A text that lacks a character occurs in a text around that character
    before it or after it. *)
Lemma includes_around (c : ascii) (n a b : string) :
  without c n = true -> nonEmpty n = true ->
  includes n (a ++ String c b) = includes n a || includes n b.
Proof.
  intros W N. induction a as [|y a IH].
  - destruct n as [|x n]; [discriminate|]. simpl in *.
    apply andb_prop in W as [X _]. apply negb_true_iff in X. now rewrite X.
  - change (includes n (String y a ++ String c b))
      with (startsWith n (String y a ++ String c b) || includes n (a ++ String c b)).
    rewrite (startsWith_before c n (String y a) b W), IH.
    change (includes n (String y a)) with (startsWith n (String y a) || includes n a).
    now rewrite orb_assoc.
Qed.

Lemma includes_quoted (n pre v post : string) :
  without dquote n = true -> nonEmpty n = true ->
  includes n (pre ++ String dquote (v ++ String dquote post))
  = includes n pre || includes n v || includes n post.
Proof.
  intros W N. rewrite !(includes_around dquote) by assumption.
  now rewrite orb_assoc.
Qed.

(** ** The nodes of a tree *)

Lemma list_max_In (l : list nat) (x : nat) : In x l -> x <= list_max l.
Proof.
  induction l as [|y r IH]; [contradiction|].
  intros [->|H]; simpl; [lia|]. specialize (IH H). lia.
Qed.

Lemma child_height (e c : Element) : In c (children e) -> height c < height e.
Proof.
  intro H. destruct e; simpl in *.
  pose proof (list_max_In _ _ (in_map (fun c => S (height c)) _ _ H)). lia.
Qed.

(** Induction on the tree: a property that holds of an element when it
    holds of its children holds of every element. *)
Lemma Element_children_ind (P : Element -> Prop) :
  (forall e, (forall c, In c (children e) -> P c) -> P e) -> forall e, P e.
Proof.
  intros step e.
  assert (H : forall n e, height e < n -> P e).
  { induction n as [|n IH]; intros e' L; [lia|].
    apply step. intros c C. apply IH.
    pose proof (child_height e' c C). lia. }
  apply (H (S (height e))). lia.
Qed.

Lemma subtree_unfold (e : Element) : subtree e = [] :: below 0 (children e).
Proof. destruct e. reflexivity. Qed.

Lemma below_In (l : list Element) :
  forall (i : nat) (p : NodeId),
    In p (below i l) <->
    exists j q c, p = (i + j) :: q /\ nth_error l j = Some c /\ In q (subtree c).
Proof.
  induction l as [|c r IH]; intros i p; simpl.
  - split; [contradiction|]. intros [j [q [c [_ [N _]]]]]. destruct j; discriminate.
  - rewrite in_app_iff, in_map_iff, IH. split.
    + intros [[q [<- Q]]|[j [q [c' [-> [N Q]]]]]].
      * exists 0, q, c. rewrite Nat.add_0_r. auto.
      * exists (S j), q, c'. split; [f_equal; lia|auto].
    + intros [[|j] [q [c' [-> [N Q]]]]].
      * left. injection N as <-. exists q. rewrite Nat.add_0_r. auto.
      * right. exists j, q, c'. split; [f_equal; lia|auto].
Qed.

Lemma subtree_In (p : NodeId) :
  forall e : Element, In p (subtree e) <-> inDocument e p = true.
Proof.
  induction p as [|i q IH]; intro e; rewrite subtree_unfold.
  - simpl. tauto.
  - simpl. rewrite below_In. split.
    + intros [H|[j [q' [c [E [N Q]]]]]]; [discriminate|].
      injection E as -> ->. simpl. rewrite N. now apply IH.
    + destruct (nth_error (children e) i) as [c|] eqn:N; [|discriminate].
      intro H. right. exists i, q, c. rewrite <- IH in H. auto.
Qed.

Lemma NoDup_map_cons (i : nat) (l : list NodeId) :
  NoDup l -> NoDup (map (cons i) l).
Proof.
  induction 1 as [|x l X N IH]; simpl; constructor; [|exact IH].
  intro H. apply in_map_iff in H as [y [E Y]]. injection E as ->. contradiction.
Qed.

Lemma below_NoDup (l : list Element) :
  (forall c, In c l -> NoDup (subtree c)) ->
  forall i, NoDup (below i l).
Proof.
  induction l as [|c r IH]; intros H i; simpl; [constructor|].
  apply NoDup_app.
  - apply NoDup_map_cons, H. now left.
  - apply IH. intros c' C. apply H. now right.
  - intros p P1 P2. apply in_map_iff in P1 as [q [<- _]].
    apply below_In in P2 as [j [q' [c' [E _]]]]. injection E as E _. lia.
Qed.

Lemma subtree_NoDup (e : Element) : NoDup (subtree e).
Proof.
  induction e as [e IH] using Element_children_ind.
  rewrite subtree_unfold. constructor.
  - intro H. apply below_In in H as [j [q [c [E _]]]]. discriminate.
  - apply below_NoDup. exact IH.
Qed.

Lemma filter_none {A : Type} (f : A -> bool) (l : list A) :
  (forall y, In y l -> f y = false) -> filter f l = [].
Proof.
  induction l as [|y l IH]; intro H; [reflexivity|]. simpl.
  rewrite (H y (or_introl eq_refl)). apply IH. intros z Z. apply H. now right.
Qed.

Lemma filter_single {A : Type} (f : A -> bool) (l : list A) (x : A) :
  NoDup l -> In x l -> (forall y, In y l -> f y = true -> y = x) -> f x = true ->
  filter f l = [x].
Proof.
  induction l as [|y l IH]; intros N I U F; [contradiction|].
  inversion N as [|? ? N1 N2]; subst. simpl.
  destruct I as [->|I].
  - rewrite F. f_equal. apply filter_none. intros z Z.
    destruct (f z) eqn:E; [|reflexivity].
    exfalso. apply N1. rewrite <- (U z (or_intror Z) E). exact Z.
  - destruct (f y) eqn:E.
    + exfalso. apply N1. rewrite (U y (or_introl eq_refl) E). exact I.
    + apply IH; auto. intros z Z. apply U. now right.
Qed.

(** ** Test ids *)

Lemma truthy_Some (v : option string) :
  truthy v = true -> exists s, v = Some s /\ nonEmpty s = true.
Proof.
  destruct v as [[|c r]|]; simpl; intro H; try discriminate.
  exists (String c r); split; reflexivity.
Qed.

Lemma firstNonEmpty_truthy (l : list (option string)) (v : string) :
  firstNonEmpty l = Some v -> nonEmpty v = true.
Proof.
  unfold firstNonEmpty.
  destruct (find truthy l) as [o|] eqn:F; [|discriminate].
  intros ->. apply find_some in F as [_ T].
  destruct v; [discriminate T|reflexivity].
Qed.

(** The disjunction of the script gives the first non-empty value when
    there is one, and the last read otherwise. *)
Lemma testIdOf_firstNonEmpty (el : Element) :
  testIdOf el =
  match firstNonEmpty (testIdFamily el) with
  | Some v => Some v
  | None => getAttribute el "data-test"
  end.
Proof.
  unfold testIdOf, firstNonEmpty, testIdFamily, orElse; simpl.
  destruct (getAttribute el "data-testid") as [[|c r]|]; simpl;
    destruct (getAttribute el "data-qa") as [[|c' r']|]; simpl;
    destruct (getAttribute el "data-test") as [[|c'' r'']|]; reflexivity.
Qed.

Lemma firstNonEmpty_testIdOf (el : Element) (v : string) :
  firstNonEmpty (testIdFamily el) = Some v ->
  testIdOf el = Some v /\ truthy (testIdOf el) = true.
Proof.
  intro H. rewrite testIdOf_firstNonEmpty, H. split; [reflexivity|].
  apply firstNonEmpty_truthy in H. destruct v; [discriminate|reflexivity].
Qed.

Lemma eqb_Some (o : option string) (v : string) :
  match o with Some t => String.eqb t v | None => false end = true <-> o = Some v.
Proof.
  destruct o as [t|]; split; intro H; try discriminate.
  - apply String.eqb_eq in H. now subst.
  - injection H as ->. apply String.eqb_refl.
Qed.

Lemma testIdOf_hasTestId (el : Element) (v : string) :
  testIdOf el = Some v <-> hasTestId el v.
Proof.
  rewrite testIdOf_firstNonEmpty. unfold hasTestId.
  destruct (firstNonEmpty (testIdFamily el)) as [w|] eqn:F.
  - split; [intros [= ->]; now left|].
    intros [H|[H _]]; [exact H|discriminate].
  - split.
    + intro H. right.
      assert (V : v = EmptyString).
      { unfold firstNonEmpty, testIdFamily in F; simpl in F.
        rewrite H in F.
        destruct (truthy (getAttribute el "data-testid")) eqn:A; [|
        destruct (truthy (getAttribute el "data-qa")) eqn:B].
        - rewrite F in A. discriminate.
        - rewrite F in B. discriminate.
        - destruct v; [reflexivity|discriminate]. }
      subst v. repeat split. exact H.
    + intros [H|[_ [-> H]]]; [discriminate|exact H].
Qed.

Lemma nonEmpty_trim_truthy (s : string) :
  nonEmpty (trim s) = true -> truthy (Some s) = true.
Proof. destruct s; [discriminate|reflexivity]. Qed.

Lemma tableLookup_truthy (k : string) (l : list (string * string))
    (r : RoleValue) :
  forallb (fun kv => nonEmpty (snd kv)) l = true ->
  tableLookup k l = Some r -> truthyRole (Some r) = true.
Proof.
  unfold tableLookup. intro A.
  destruct (assoc k l) as [m|] eqn:M.
  - intros [= <-]. simpl. revert A M.
    induction l as [|[k' v] l IH]; simpl; [discriminate|].
    intro A. apply andb_prop in A as [V A].
    destruct (String.eqb k k'); [now intros [= <-]|now apply IH].
  - destruct (existsb _ _); [now intros [= <-]|discriminate].
Qed.

(** What [getImplicitRole] returns counts as true in a condition: a text
    that is not empty, or an object. *)
Lemma getImplicitRole_truthy (el : Element) (r : RoleValue) :
  getImplicitRole el = Some r -> truthyRole (Some r) = true.
Proof.
  unfold getImplicitRole.
  destruct (truthy (getAttribute el "role")) eqn:E.
  - destruct (getAttribute el "role") as [[|c t]|]; try discriminate E.
    now intros [= <-].
  - destruct (tableLookup (localName el) roleMappings) as [m|] eqn:M.
    + intros [= <-]. exact (tableLookup_truthy _ roleMappings _ eq_refl M).
    + destruct (String.eqb (localName el) "input"); [|discriminate].
      destruct (tableLookup _ inputTypeRoles) as [m|] eqn:I; intros [= <-];
        [exact (tableLookup_truthy _ inputTypeRoles _ eq_refl I)|reflexivity].
Qed.

Section Ladder.

Variable engine : SelectorEngine.
Variable getAccessibleName : Document -> NodeId -> string.
Variable fallbackComment : bool -> string.

Let generate := Generator.generateBestLocator engine getAccessibleName fallbackComment.

(** A node with a non-empty test id gets the test id locator at once. *)
Lemma generate_testId (doc : Document) (framework : string) (fuel : nat)
    (element : NodeId) (v : string) :
  firstNonEmpty (testIdFamily (elementAt doc element)) = Some v ->
  generate doc framework (S fuel) element =
  Some (Return (formatLocator (Generator.isPytest framework) "getByTestId" v None)).
Proof.
  intro H. apply firstNonEmpty_testIdOf in H as [E T].
  unfold generate; simpl. unfold Generator.generateBestLocatorBody.
  rewrite T, E. reflexivity.
Qed.

(** Without a test id, a role and a name give the locator by role and name
    at once. *)
Lemma generate_roleName (doc : Document) (framework : string) (fuel : nat)
    (element : NodeId) (role : string) :
  truthy (testIdOf (elementAt doc element)) = false ->
  getImplicitRole (elementAt doc element) = Some (RoleText role) ->
  nonEmpty role = true ->
  nonEmpty (getAccessibleName doc element) = true ->
  generate doc framework (S fuel) element =
  Some (Return (formatLocator (Generator.isPytest framework) "getByRole" role
                  (roleNameOptions (getAccessibleName doc element)))).
Proof.
  intros T R NR A. unfold generate; simpl.
  unfold Generator.generateBestLocatorBody. rewrite T, R, A.
  destruct role; [discriminate|]. reflexivity.
Qed.

End Ladder.

Section LegacyLadder.

Variable engine : SelectorEngine.
Variable optionsFailure : string -> Exception.
Variable quirksMode : bool.
Variable doc : Document.
Variable framework : string.

Let generate := Legacy.generateBestLocator engine optionsFailure quirksMode doc framework.

Lemma legacy_formatLocator_plain (method value : string) :
  Legacy.formatLocator framework method value None
  = formatLocator (String.eqb framework "pytest") method value None.
Proof. reflexivity. Qed.

Lemma legacy_testId (element : NodeId) (v : string) :
  firstNonEmpty (testIdFamily (elementAt doc element)) = Some v ->
  Legacy.validatePlaywrightLocatorUniqueness doc element "getByTestId" v
    Legacy.noOptions = true ->
  generate element
  = Return (formatLocator (String.eqb framework "pytest") "getByTestId" v None).
Proof.
  intros H U. apply firstNonEmpty_testIdOf in H as [E T].
  unfold generate, Legacy.generateBestLocator, Legacy.uniqueLocator, Legacy.validate.
  rewrite T, E. simpl orEmpty. rewrite U. reflexivity.
Qed.

Lemma legacy_img_role (el : Element) :
  localName el = "img" -> truthy (getAttribute el "role") = false ->
  orElse (getAttribute el "role") (Legacy.getImplicitRole el) = Some "img".
Proof.
  intros L R. unfold orElse, Legacy.getImplicitRole. rewrite R, L. reflexivity.
Qed.

Lemma legacy_img_name (n : NodeId) (alt : string) :
  localName (elementAt doc n) = "img" ->
  noLabel doc (elementAt doc n) ->
  truthy (getAttribute (elementAt doc n) "aria-labelledby") = false ->
  getAttribute (elementAt doc n) "alt" = Some alt ->
  nonEmpty (trim alt) = true ->
  Legacy.getAccessibleName doc n = trim alt.
Proof.
  intros L [A I] B G T. pose proof (nonEmpty_trim_truthy _ T) as TA.
  unfold Legacy.getAccessibleName.
  rewrite A, B, L, G, TA. simpl.
  destruct I as [I|I]; rewrite I; [|destruct (nonEmpty (id _))]; reflexivity.
Qed.

Lemma legacy_roleName (element : NodeId) (role name : string) :
  truthy (testIdOf (elementAt doc element)) = false ->
  Legacy.roleOf doc element = Some role ->
  nonEmpty role = true ->
  Legacy.getAccessibleName doc element = name ->
  nonEmpty name = true ->
  Legacy.validatePlaywrightLocatorUniqueness doc element "getByRole" role
    (Legacy.nameExact name) = true ->
  generate element
  = Return (Legacy.formatLocator framework "getByRole" role
              (Some (Legacy.nameExact name))).
Proof.
  intros T R NR A NA U.
  unfold generate, Legacy.generateBestLocator, Legacy.uniqueLocator, Legacy.validate.
  rewrite T, R, A. simpl andb. cbv iota.
  destruct role; [discriminate|]. simpl truthy. simpl orEmpty.
  rewrite NA, U. reflexivity.
Qed.

End LegacyLadder.


(** C1, as amended.  A node that has a non-empty test id attribute gets the
    test id locator whose value is the first non-empty one of [data-testid],
    [data-qa] and [data-test], whatever its other attributes and whatever
    the rest of the document: no uniqueness is checked.  This holds for
    both copies of the content script and for every framework.  The earlier
    content script returns the same locator when its evaluator finds the
    test id unique. *)
Theorem C1_test_id_first :
  forall (engine : SelectorEngine) (optionsFailure : string -> Exception)
         (quirksMode : bool) (doc : Document) (framework : string)
         (fuel : nat) (element : NodeId) (v : string),
    firstNonEmpty (testIdFamily (elementAt doc element)) = Some v ->
    let locator :=
      formatLocator (String.eqb framework "pytest") "getByTestId" v None in
    Content.generateBestLocator engine doc framework (S fuel) element =
      Some (Return locator)
    /\ PopupContent.generateBestLocator engine doc framework (S fuel) element =
      Some (Return locator)
    /\ (Legacy.validatePlaywrightLocatorUniqueness doc element "getByTestId" v
          Legacy.noOptions = true ->
        Legacy.generateBestLocator engine optionsFailure quirksMode doc framework element =
          Return locator).
Proof.
  intros engine optionsFailure quirksMode doc framework fuel element v H locator.
  split; [|split].
  - apply (generate_testId engine Content.getAccessibleName
             Content.fallbackComment doc framework fuel element v H).
  - apply (generate_testId engine PopupContent.getAccessibleName
             PopupContent.fallbackComment doc framework fuel element v H).
  - apply legacy_testId. exact H.
Qed.

(** The theorem at the button of [submitPage]. *)
Lemma C1_test_id_first_witness :
  firstNonEmpty (testIdFamily (elementAt submitPage [1; 0])) = Some "submit-1"
  /\ Content.generateBestLocator typeSelectorEngine submitPage "js" 1 [1; 0] =
       Some (Return ("page.getByTestId(" ++ dq "submit-1" ++ ")"))
  /\ Legacy.generateBestLocator typeSelectorEngine (fun _ => SyntaxError) false
                                submitPage "js" [1; 0] =
       Return ("page.getByTestId(" ++ dq "submit-1" ++ ")").
Proof.
  split; [reflexivity|].
  destruct (C1_test_id_first typeSelectorEngine (fun _ => SyntaxError) false submitPage
              "js" 0 [1; 0] "submit-1" eq_refl) as [C [_ L]].
  split; [exact C|]. apply L. reflexivity.
Defined.

(** C1 as it is written fails on a test id attribute that is empty: the
    button of [emptyTestId] carries [data-testid], and its locator is the
    locator by role and name. *)
Lemma C1_empty_test_id_counterexample :
  getAttribute (elementAt emptyTestId [1; 0]) "data-testid" = Some EmptyString
  /\ Content.generateBestLocator typeSelectorEngine emptyTestId "js" 1 [1; 0] =
       Some (Return ("page.getByRole(" ++ dq "button" ++ ", { name: " ++ dq "OK"
                     ++ ", exact: true })"))
  /\ Content.generateBestLocator typeSelectorEngine emptyTestId "js" 1 [1; 0] <>
       Some (Return (formatLocator false "getByTestId" EmptyString None))
  /\ Legacy.generateBestLocator typeSelectorEngine (fun _ => SyntaxError) false
                                emptyTestId "js" [1; 0] <>
       Return (formatLocator false "getByTestId" EmptyString None).
Proof.
  split; [reflexivity|]. split; [reflexivity|].
  split; vm_compute; discriminate.
Qed.

(** C8, as amended.  The test id predicate of the evaluator holds for a node
    exactly when the node is among those the evaluator considers (it is
    rendered, not hidden, and no script or style element) and has the
    candidate value for test id: either the first non-empty value of
    [data-testid], [data-qa] and [data-test] is the candidate value, or none
    of the three has a non-empty value, the candidate value is empty and
    [data-test] is there and empty.  The predicate of the verifier is the
    second condition alone. *)
Theorem C8_test_id_predicate :
  forall (doc : Document) (el : NodeId) (value rawArgs : string)
         (options : Legacy.Options),
    (Legacy.isCandidate doc "getByTestId" value options el = true
       <-> Legacy.ignored (elementAt doc el) = false
           /\ hasTestId (elementAt doc el) value)
    /\ (Content.matchesLocator doc "getByTestId" rawArgs value el = true
       <-> hasTestId (elementAt doc el) value).
Proof.
  intros doc el value rawArgs options. split.
  - unfold Legacy.isCandidate.
    destruct (Legacy.ignored (elementAt doc el)); simpl.
    + split; [discriminate|intros [H _]; discriminate].
    + rewrite eqb_Some, testIdOf_hasTestId. tauto.
  - unfold Content.matchesLocator; simpl.
    rewrite eqb_Some, testIdOf_hasTestId. tauto.
Qed.

(** C8 as it is written fails on an element with two test id attributes:
    [data-qa] of the element of [twoTestIds] is the candidate value, and
    the predicate is false, because [data-testid] comes first.  It fails
    for the evaluator on an element that is not rendered: [data-testid] of
    the body of [bodyTestId] is the candidate value, and the predicate is
    false.  And the predicate holds for the empty candidate value on an
    element that has an attribute equal to it: [data-testid] of the button
    of [emptyTestId] is empty, [data-test] is absent, and the predicate is
    false, while it is true for the button of [emptyDataTest], whose
    [data-test] is there and empty. *)
Lemma C8_any_attribute_counterexample :
  let el := elementAt twoTestIds [1; 0] in
  (Legacy.ignored el = false
   /\ getAttribute el "data-qa" = Some "b"
   /\ Legacy.isCandidate twoTestIds "getByTestId" "b" Legacy.noOptions [1; 0] = false
   /\ Content.matchesLocator twoTestIds "getByTestId" (dq "b") "b" [1; 0] = false)
  /\ (getAttribute (elementAt bodyTestId [1]) "data-testid" = Some "page"
     /\ Legacy.isCandidate bodyTestId "getByTestId" "page" Legacy.noOptions [1]
        = false)
  /\ (getAttribute (elementAt emptyTestId [1; 0]) "data-testid" = Some EmptyString
     /\ Legacy.ignored (elementAt emptyTestId [1; 0]) = false
     /\ Legacy.isCandidate emptyTestId "getByTestId" EmptyString Legacy.noOptions
                           [1; 0] = false
     /\ Legacy.isCandidate emptyDataTest "getByTestId" EmptyString
                           Legacy.noOptions [1; 0] = true).
Proof. repeat split. Qed.

(** ** The ladder *)

(** C2, at the failing input.  The two buttons of [twoButtons] have no
    test id and the same role and name; each of them gets the bare locator
    by role and name, the same text for both, in either framework, and the
    verifier finds both buttons for it.  The earlier content script, which
    checks uniqueness, falls back for the two buttons of [twoButtonsInBody]
    to the text locator with a warning. *)
Theorem C2_sibling_buttons_same_bare_locator :
  forall (fuel : nat) (optionsFailure : string -> Exception) (quirksMode : bool),
    let pytest := "page.get_by_role(" ++ dq "button" ++ ", name=" ++ dq "Submit"
                  ++ ", exact=True)" in
    let js := "page.getByRole(" ++ dq "button" ++ ", { name: " ++ dq "Submit"
              ++ ", exact: true })" in
    let warned := "page.get_by_text(" ++ dq "Submit" ++ ") "
                  ++ Legacy.textWarning "pytest" in
    Content.generateBestLocator typeSelectorEngine twoButtons "pytest" (S fuel) [1; 0; 0]
      = Some (Return pytest)
    /\ Content.generateBestLocator typeSelectorEngine twoButtons "pytest" (S fuel) [1; 0; 1]
      = Some (Return pytest)
    /\ Content.generateBestLocator typeSelectorEngine twoButtons "js" (S fuel) [1; 0; 0]
      = Some (Return js)
    /\ Content.generateBestLocator typeSelectorEngine twoButtons "js" (S fuel) [1; 0; 1]
      = Some (Return js)
    /\ Content.findElements typeSelectorEngine twoButtons js
      = Return [[1; 0; 0]; [1; 0; 1]]
    /\ Legacy.generateBestLocator typeSelectorEngine optionsFailure quirksMode
                                  twoButtonsInBody "pytest" [1; 0]
      = Return warned
    /\ Legacy.generateBestLocator typeSelectorEngine optionsFailure quirksMode
                                  twoButtonsInBody "pytest" [1; 1]
      = Return warned.
Proof.
  intros fuel optionsFailure quirksMode. repeat split; vm_compute; reflexivity.
Qed.

Lemma img_role (el : Element) :
  localName el = "img" -> truthy (getAttribute el "role") = false ->
  getImplicitRole el = Some (RoleText "img").
Proof.
  intros L R. unfold getImplicitRole. rewrite R, L. reflexivity.
Qed.

Lemma img_name_content (doc : Document) (n : NodeId) (alt : string) :
  localName (elementAt doc n) = "img" ->
  noLabel doc (elementAt doc n) ->
  getAttribute (elementAt doc n) "alt" = Some alt ->
  nonEmpty (trim alt) = true ->
  Content.getAccessibleName doc n = trim alt.
Proof.
  intros L [A I] G T. pose proof (nonEmpty_trim_truthy _ T) as TA.
  unfold Content.getAccessibleName.
  rewrite A, L, G, TA.
  destruct I as [I|I]; rewrite I; [|destruct (nonEmpty (id _))]; reflexivity.
Qed.

Lemma img_name_popup (doc : Document) (n : NodeId) (alt : string) :
  localName (elementAt doc n) = "img" ->
  noLabel doc (elementAt doc n) ->
  getAttribute (elementAt doc n) "alt" = Some alt ->
  nonEmpty (trim alt) = true ->
  PopupContent.getAccessibleName doc n = trim alt.
Proof.
  intros L [A I] G T. pose proof (nonEmpty_trim_truthy _ T) as TA.
  unfold PopupContent.getAccessibleName.
  rewrite A, L, G, TA.
  destruct I as [I|I]; rewrite I; [|destruct (nonEmpty (id _))]; reflexivity.
Qed.




(** C4, at the failing input.  On a page whose root has no accessible name
    the generator raises a type error for the root, which has no parent to
    read the children of, and for the body, whose loop calls the generator
    on the root; so it does in both copies, for every framework and every
    engine.  The earlier content script raises a reference error for the
    first button of [panels] in the JavaScript dialect: the text of the
    chained locator reads a name that is not defined. *)
Theorem C4_generator_throws_without_parent :
  forall (engine : SelectorEngine) (optionsFailure : string -> Exception)
         (quirksMode : bool) (framework : string) (fuel : nat),
    Content.generateBestLocator engine emptyPage framework (S fuel) []
      = Some (Throw TypeError)
    /\ Content.generateBestLocator engine emptyPage framework (S (S fuel)) [1]
      = Some (Throw TypeError)
    /\ PopupContent.generateBestLocator engine emptyPage framework (S fuel) []
      = Some (Throw TypeError)
    /\ PopupContent.generateBestLocator engine emptyPage framework (S (S fuel)) [1]
      = Some (Throw TypeError)
    /\ Legacy.generateBestLocator engine optionsFailure quirksMode panels "js" [1; 0; 0]
      = Throw ReferenceError.
Proof.
  intros engine optionsFailure quirksMode framework fuel. repeat split.
Qed.

(** ** The verifier *)

(** C5, at the failing input.  When the engine takes neither the whole text
    nor the bracket for a selector, the verifier raises the syntax error of
    the second query: the marks are cleared and no count is returned. *)
Theorem C5_verifier_throws_on_bad_selector :
  forall (engine : SelectorEngine) (doc : Document),
    (forall d, querySelectorAll engine d None "[" = None) ->
    (forall d, querySelectorAll engine d None brokenLocator = None) ->
    Content.findAndHighlight engine doc brokenLocator
      = (Content.clearHighlights doc, Throw SyntaxError).
Proof.
  intros engine doc H1 H2. unfold Content.findAndHighlight, Content.findElements.
  rewrite H2. simpl. rewrite H1. reflexivity.
Qed.

(** The theorem with the engine of the examples. *)
Lemma C5_verifier_throws_on_bad_selector_witness :
  Content.findAndHighlight typeSelectorEngine twoButtons brokenLocator
    = (Content.clearHighlights twoButtons, Throw SyntaxError).
Proof.
  apply (C5_verifier_throws_on_bad_selector typeSelectorEngine twoButtons);
    intro d; reflexivity.
Defined.

Lemma attribute_equal (o : option string) (v : string) :
  nonEmpty v = true ->
  truthy o && String.eqb (orEmpty o) v =
  match o with Some t => String.eqb t v | None => false end.
Proof.
  intro N. destruct o as [[|c r]|]; simpl; try reflexivity.
  destruct v; [discriminate|reflexivity].
Qed.

(** C6, as amended.  On the nodes the evaluator considers, the predicate of
    the verifier is the predicate of the evaluator for the test id method,
    and, when the options ask for an exact match of a non-empty value, for
    the placeholder and title methods, and for the alt text method on
    images.  Nothing is said of the other methods and options. *)
Theorem C6_predicates_that_agree :
  forall (doc : Document) (el : NodeId) (method value rawArgs : string)
         (options : Legacy.Options),
    Legacy.ignored (elementAt doc el) = false ->
    sameReading method value options (elementAt doc el) ->
    Legacy.isCandidate doc method value options el
      = Content.matchesLocator doc method rawArgs value el.
Proof.
  intros doc el method value rawArgs options I S.
  unfold Legacy.isCandidate, Content.matchesLocator, Legacy.textMatches.
  rewrite I.
  destruct S as [->|[X [N [->|[->|[-> L]]]]]]; simpl; try reflexivity;
    rewrite X, ?L; simpl; apply attribute_equal, N.
Qed.

(** The theorem at the field of [nameField], for its whole placeholder. *)
Lemma C6_predicates_that_agree_witness :
  Legacy.isCandidate nameField "getByPlaceholder" "Name"
                     (Legacy.mkOptions None (Some true)) [1; 0]
    = Content.matchesLocator nameField "getByPlaceholder" (dq "Name") "Name" [1; 0].
Proof.
  apply (C6_predicates_that_agree nameField [1; 0] "getByPlaceholder" "Name"
           (dq "Name") (Legacy.mkOptions None (Some true))).
  - reflexivity.
  - right. split; [reflexivity|]. split; [reflexivity|]. left. reflexivity.
Defined.

(** C6 as it is written fails on a part of a placeholder: without [exact]
    the evaluator takes the field of [nameField] for a candidate of the
    value Na, and the verifier, which compares the whole placeholder, does
    not match it. *)
Lemma C6_substring_counterexample :
  let el := elementAt nameField [1; 0] in
  Content.isVisible nameField [1; 0] = true
  /\ Legacy.ignored el = false
  /\ Legacy.isCandidate nameField "getByPlaceholder" "Na" Legacy.noOptions [1; 0] = true
  /\ Content.matchesLocator nameField "getByPlaceholder" (dq "Na") "Na" [1; 0] = false.
Proof. repeat split. Qed.

(** ** Termination *)

Section Termination.

Variable engine : SelectorEngine.
Variable getAccessibleName : Document -> NodeId -> string.
Variable fallbackComment : bool -> string.
Variable doc : Document.
Variable framework : string.

Let body := Generator.generateBestLocatorBody engine getAccessibleName
              fallbackComment doc framework.
Let generate := Generator.generateBestLocator engine getAccessibleName
                  fallbackComment doc framework.
Let loop := Generator.ancestorLoop engine doc framework.

Lemma loop_calls (self1 self2 : NodeId -> option (Completion string))
    (element : NodeId) (role : option RoleValue) (remaining : nat) :
  forall parent : option NodeId,
    (forall a, In a (ancestorsVisited doc remaining parent) -> self1 a = self2 a) ->
    loop self1 element role remaining parent = loop self2 element role remaining parent.
Proof.
  induction remaining as [|n IH]; intros parent H; [reflexivity|].
  destruct parent as [p|]; [|reflexivity].
  unfold loop in *. cbn [Generator.ancestorLoop ancestorsVisited] in *.
  destruct (String.eqb (tagName (elementAt doc p)) "BODY"); [reflexivity|].
  rewrite <- (H p (or_introl eq_refl)).
  rewrite (IH (parentElement p)); [reflexivity|].
  intros a Ha. apply H. right. exact Ha.
Qed.

Lemma body_calls (self1 self2 : NodeId -> option (Completion string))
    (element : NodeId) :
  (forall a, In a (ancestorsVisited doc 4 (parentElement element)) ->
             self1 a = self2 a) ->
  body self1 element = body self2 element.
Proof.
  intro H. unfold body, Generator.generateBestLocatorBody.
  fold loop. rewrite (loop_calls self1 self2 _ _ 4 _ H). reflexivity.
Qed.

Lemma loop_returns (self : NodeId -> option (Completion string))
    (element : NodeId) (role : option RoleValue) (remaining : nat) :
  forall parent : option NodeId,
    (forall a, In a (ancestorsVisited doc remaining parent) -> self a <> None) ->
    loop self element role remaining parent <> None.
Proof.
  induction remaining as [|n IH]; intros parent H; [discriminate|].
  destruct parent as [p|]; [|discriminate].
  unfold loop in *. cbn [Generator.ancestorLoop ancestorsVisited] in *.
  destruct (String.eqb (tagName (elementAt doc p)) "BODY"); [discriminate|].
  pose proof (H p (or_introl eq_refl)) as Hp.
  assert (N : Generator.ancestorLoop engine doc framework self element role n
                (parentElement p) <> None).
  { apply IH. intros a Ha. apply H. right. exact Ha. }
  destruct (self p) as [[parentLocator|e]|]; [|discriminate|contradiction].
  destruct (Generator.stableLocator parentLocator); [|exact N].
  destruct (match role with Some r => _ | None => false end);
    [destruct (formatRoleLocator _ _ _); discriminate|].
  destruct (getRelativeCSS engine doc element (Some p)) as [css|e]; [|discriminate].
  destruct (querySelectorAll engine doc (Some p) css) as [found|]; [|discriminate].
  destruct (List.length found =? 1)%nat; [discriminate|exact N].
Qed.

Lemma body_returns (self : NodeId -> option (Completion string))
    (element : NodeId) :
  (forall a, In a (ancestorsVisited doc 4 (parentElement element)) ->
             self a <> None) ->
  body self element <> None.
Proof.
  intro H. unfold body, Generator.generateBestLocatorBody.
  repeat match goal with
         | |- (if ?c then _ else _) <> None => destruct c; [discriminate|]
         end.
  pose proof (loop_returns self element
                (getImplicitRole (elementAt doc element)) 4 _ H) as N.
  fold loop.
  destruct (loop self element _ 4 _) as [[[chained|]|e]|];
    [discriminate| |discriminate|contradiction].
  destruct (getRelativeCSS engine doc element (parentElement element)); discriminate.
Qed.

Lemma parentElement_length (p q : NodeId) :
  parentElement p = Some q -> S (List.length q) = List.length p.
Proof.
  destruct p as [|i r]; [discriminate|]. intros [= <-].
  assert (E : (i :: r) = (removelast (i :: r) ++ [last (i :: r) 0])%list)
    by (apply app_removelast_last; discriminate).
  apply (f_equal (@List.length nat)) in E. rewrite length_app in E.
  simpl in E. simpl. lia.
Qed.

Lemma parentElement_prefix (p q : NodeId) :
  parentElement p = Some q -> exists i, p = (q ++ [i])%list.
Proof.
  destruct p as [|i r]; [discriminate|]. intros [= <-].
  exists (last (i :: r) 0). apply app_removelast_last. discriminate.
Qed.

Lemma visited_above (remaining : nat) :
  forall (p : NodeId) (a : NodeId),
    In a (ancestorsVisited doc remaining (Some p)) ->
    (exists rest, p = (a ++ rest)%list)
    /\ tagName (elementAt doc a) <> "BODY".
Proof.
  induction remaining as [|n IH]; intros p a H; [contradiction|].
  simpl in H.
  destruct (String.eqb (tagName (elementAt doc p)) "BODY") eqn:B; [contradiction|].
  destruct H as [<-|H].
  - split; [exists []; now rewrite app_nil_r|].
    intro E. rewrite E in B. discriminate.
  - destruct (parentElement p) as [q|] eqn:Q.
    + destruct (IH q a H) as [[rest ->] T]. split; [|exact T].
      apply parentElement_prefix in Q as [i ->].
      exists (rest ++ [i])%list. now rewrite app_assoc.
    + destruct n; contradiction.
Qed.

Lemma visited_count (remaining : nat) :
  forall parent : option NodeId,
    List.length (ancestorsVisited doc remaining parent) <= remaining.
Proof.
  induction remaining as [|n IH]; intro parent; simpl; [lia|].
  destruct parent as [p|]; simpl; [|lia].
  destruct (String.eqb _ _); simpl; [lia|].
  specialize (IH (parentElement p)). lia.
Qed.

Lemma visited_strict (element a : NodeId) :
  In a (ancestorsVisited doc 4 (parentElement element)) ->
  strictAncestor a element /\ tagName (elementAt doc a) <> "BODY".
Proof.
  intro H. destruct (parentElement element) as [p|] eqn:P; [|contradiction].
  destruct (visited_above 4 p a H) as [[rest ->] T]. split; [|exact T].
  apply parentElement_prefix in P as [i ->].
  exists (rest ++ [i])%list. split; [|now rewrite app_assoc].
  destruct rest; discriminate.
Qed.

Lemma strictAncestor_shorter (a el : NodeId) :
  strictAncestor a el -> List.length a < List.length el.
Proof.
  intros [rest [N ->]]. rewrite length_app.
  destruct rest; [contradiction|simpl; lia].
Qed.

Lemma generate_enough_fuel (fuel : nat) :
  forall element : NodeId,
    List.length element < fuel -> generate fuel element <> None.
Proof.
  induction fuel as [|f IH]; intros element L; [lia|].
  change (body (generate f) element <> None).
  apply body_returns. intros a Ha. apply IH.
  apply visited_strict in Ha as [S _]. apply strictAncestor_shorter in S. lia.
Qed.

Lemma generate_fuel_irrelevant (fuel1 : nat) :
  forall (fuel2 : nat) (element : NodeId),
    List.length element < fuel1 -> List.length element < fuel2 ->
    generate fuel1 element = generate fuel2 element.
Proof.
  induction fuel1 as [|f1 IH]; intros fuel2 element L1 L2; [lia|].
  destruct fuel2 as [|f2]; [lia|].
  change (body (generate f1) element = body (generate f2) element).
  apply body_calls. intros a Ha.
  apply visited_strict in Ha as [S _]. apply strictAncestor_shorter in S.
  apply IH; lia.
Qed.

End Termination.

Lemma depth_height (p : NodeId) :
  forall e : Element, inDocument e p = true -> List.length p <= height e.
Proof.
  induction p as [|i q IH]; intros e H; [simpl; lia|].
  simpl in H. destruct (nth_error (children e) i) as [c|] eqn:N; [|discriminate].
  specialize (IH c H). destruct e. simpl in *.
  apply nth_error_In in N.
  pose proof (list_max_In (map (fun c => S (height c)) children0) (S (height c))
                (in_map _ _ _ N)). lia.
Qed.

(** C10.  The generator is its body applied to itself with one unit of
    fuel less.  The body asks for the locators of the ancestors that the
    loop visits and of no other node: any two functions that agree on them
    give the same result.  These are at most four, each is strictly above
    the element, and none has the tag BODY.  Hence with more fuel than the
    depth of the element the generator gives a result, the same for every
    such fuel, and more fuel than the height of the tree is enough for every
    node of the document.  This holds for both copies of the content
    script, which are the generator at their own accessible name and
    comment. *)
Theorem C10_generator_terminates :
  forall (engine : SelectorEngine) (getAccessibleName : Document -> NodeId -> string)
         (fallbackComment : bool -> string) (doc : Document) (framework : string)
         (element : NodeId),
    let body := Generator.generateBestLocatorBody engine getAccessibleName
                  fallbackComment doc framework in
    let generate := Generator.generateBestLocator engine getAccessibleName
                      fallbackComment doc framework in
    let visited := ancestorsVisited doc 4 (parentElement element) in
    (forall fuel, generate (S fuel) element = body (generate fuel) element)
    /\ (forall self1 self2 : NodeId -> option (Completion string),
          (forall a, In a visited -> self1 a = self2 a) ->
          body self1 element = body self2 element)
    /\ List.length visited <= 4
    /\ (forall a, In a visited ->
          strictAncestor a element /\ tagName (elementAt doc a) <> "BODY")
    /\ (forall fuel, List.length element < fuel ->
          exists result, generate fuel element = Some result
                         /\ generate (S (List.length element)) element = Some result)
    /\ (inDocument doc element = true ->
        forall fuel, height doc < fuel -> exists result, generate fuel element = Some result).
Proof.
  intros engine getAccessibleName fallbackComment doc framework element
         body generate visited.
  split; [reflexivity|].
  split; [intros self1 self2; apply body_calls|].
  split; [apply visited_count|].
  split; [intro a; apply visited_strict|].
  assert (T : forall fuel, List.length element < fuel ->
                exists result, generate fuel element = Some result
                  /\ generate (S (List.length element)) element = Some result).
  { intros fuel L.
    pose proof (generate_enough_fuel engine getAccessibleName fallbackComment
                  doc framework fuel element L) as N.
    fold generate in N.
    destruct (generate fuel element) as [result|] eqn:E; [|contradiction].
    exists result. split; [reflexivity|].
    rewrite <- E. apply generate_fuel_irrelevant; lia. }
  split; [exact T|].
  intros D fuel H. apply depth_height in D.
  destruct (T fuel) as [result [E _]]; [lia|]. exists result. exact E.
Qed.

(** The theorem at the paragraph of [deepPage], three boxes below the
    body.  The loop visits the three boxes, and the generator calls itself
    on each of them: with fuel 3 it runs out of fuel, and with more fuel
    than the depth of the paragraph, which is 5, it gives a result that
    does not depend on the fuel. *)
Lemma C10_generator_terminates_witness :
  let element := [1; 0; 0; 0; 0] in
  let generate := Content.generateBestLocator typeSelectorEngine deepPage "js" in
  let visited := ancestorsVisited deepPage 4 (parentElement element) in
  visited = [[1; 0; 0; 0]; [1; 0; 0]; [1; 0]]
  /\ generate 3 element = None
  /\ generate 6 element = generate 5 element
  /\ List.length visited <= 4
  /\ (forall a, In a visited -> strictAncestor a element)
  /\ (exists result, generate 7 element = Some result
                     /\ generate 6 element = Some result)
  /\ (exists result, generate 6 element = Some result).
Proof.
  intros element generate visited.
  destruct (C10_generator_terminates typeSelectorEngine Content.getAccessibleName
              Content.fallbackComment deepPage "js" element)
    as [B [C [N [A [T H]]]]].
  split; [reflexivity|]. split; [reflexivity|].
  split; [|split; [exact N|split; [|split]]].
  - unfold generate, Content.generateBestLocator. rewrite (B 5), (B 4).
    apply C. intros a V. simpl in V.
    destruct V as [<-|[<-|[<-|[]]]]; reflexivity.
  - intros a V. apply (A a V).
  - apply (T 7). simpl. lia.
  - apply (H eq_refl 6). simpl. lia.
Defined.

(** ** The round trip *)

Lemma children_mapElements (f : Element -> Element) (e : Element) :
  children (mapElements f e) = map (mapElements f) (children e).
Proof. destruct e. reflexivity. Qed.

Lemma below_map (g : Element -> Element) (l : list Element) :
  (forall c, In c l -> subtree (g c) = subtree c) ->
  forall i, below i (map g l) = below i l.
Proof.
  induction l as [|c r IH]; intros H i; simpl; [reflexivity|].
  rewrite (H c (or_introl eq_refl)), IH; [reflexivity|].
  intros c' C. apply H. now right.
Qed.

Lemma subtree_mapElements (f : Element -> Element) (e : Element) :
  subtree (mapElements f e) = subtree e.
Proof.
  induction e as [e IH] using Element_children_ind.
  rewrite !subtree_unfold, children_mapElements, (below_map _ _ IH). reflexivity.
Qed.

Lemma elementAt_mapElements (f : Element -> Element) (p : NodeId) :
  withChildren (f noElement) [] = noElement ->
  forall e : Element,
    elementAt (mapElements f e) p =
    withChildren (f (elementAt e p)) (map (mapElements f) (children (elementAt e p))).
Proof.
  intro N. induction p as [|i q IH]; intro e.
  - destruct e. reflexivity.
  - simpl. rewrite children_mapElements, nth_error_map.
    destruct (nth_error (children e) i) as [c|]; simpl; [apply IH|].
    symmetry. exact N.
Qed.

Lemma elementAt_cleared (doc : Document) (p : NodeId) :
  elementAt (Content.clearHighlights doc) p =
  withChildren (Content.unmark (elementAt doc p))
    (map (mapElements Content.unmark) (children (elementAt doc p))).
Proof. apply elementAt_mapElements. reflexivity. Qed.

Lemma assoc_filter (h k : string) (l : list (string * string)) :
  String.eqb k h = false ->
  assoc k (filter (fun kv => negb (String.eqb (fst kv) h)) l) = assoc k l.
Proof.
  intro N. induction l as [|[k' v] l IH]; simpl; [reflexivity|].
  destruct (String.eqb k' h) eqn:E; simpl.
  - apply String.eqb_eq in E. subst k'. now rewrite N.
  - now rewrite IH.
Qed.

Lemma getAttribute_cleared (doc : Document) (p : NodeId) (k : string) :
  String.eqb k Content.highlightAttribute = false ->
  getAttribute (elementAt (Content.clearHighlights doc) p) k
  = getAttribute (elementAt doc p) k.
Proof.
  intro N. rewrite elementAt_cleared.
  unfold getAttribute, Content.unmark.
  destruct (hasAttribute (elementAt doc p) Content.highlightAttribute);
    [|reflexivity].
  simpl. now apply assoc_filter.
Qed.

Lemma testIdOf_cleared (doc : Document) (p : NodeId) :
  testIdOf (elementAt (Content.clearHighlights doc) p) = testIdOf (elementAt doc p).
Proof.
  unfold testIdOf. now rewrite !getAttribute_cleared by reflexivity.
Qed.

Lemma isVisible_cleared (doc : Document) (p : NodeId) :
  Content.isVisible (Content.clearHighlights doc) p = Content.isVisible doc p.
Proof.
  unfold Content.isVisible, Content.unmark. rewrite elementAt_cleared.
  unfold Content.unmark.
  now destruct (hasAttribute (elementAt doc p) Content.highlightAttribute).
Qed.

Lemma allElements_cleared (doc : Document) :
  allElements (Content.clearHighlights doc) = allElements doc.
Proof. apply subtree_mapElements. Qed.

Lemma escapeStr_plain (v : string) : every plainChar v = true -> escapeStr v = v.
Proof.
  induction v as [|y v IH]; simpl; [reflexivity|]. intro V.
  apply andb_prop in V as [Y V]. rewrite (IH V).
  destruct (Ascii.eqb y dquote) eqn:E; [|reflexivity].
  apply Ascii.eqb_eq in E. subst y. discriminate.
Qed.

Lemma every_append (p : ascii -> bool) (a b : string) :
  every p (a ++ b) = every p a && every p b.
Proof. induction a as [|y a IH]; simpl; [reflexivity|]. now rewrite IH, andb_assoc. Qed.

Lemma every_weaken (p q : ascii -> bool) (a : string) :
  (forall c, p c = true -> q c = true) -> every p a = true -> every q a = true.
Proof.
  intro H. induction a as [|y a IH]; simpl; [reflexivity|]. intro A.
  apply andb_prop in A as [Y A]. now rewrite (H y Y), (IH A).
Qed.

Lemma trimEnd_keeps (a : string) (x : ascii) :
  isSpace x = false -> trimEnd (a ++ String x EmptyString) = a ++ String x EmptyString.
Proof.
  intro X. induction a as [|y a IH]; simpl.
  - now rewrite X.
  - rewrite IH. destruct a; reflexivity.
Qed.

Lemma trim_quoted (v : string) : trim (dq v) = dq v.
Proof.
  unfold trim, dq. simpl trimStart.
  change (String dquote (v ++ String dquote EmptyString))
    with ((String dquote v) ++ String dquote EmptyString).
  now apply trimEnd_keeps.
Qed.

Lemma stripPrefix_startsWith (l s r : string) :
  stripPrefix l s = Some r -> startsWith l s = true.
Proof.
  revert s. induction l as [|x l IH]; intros s H; [reflexivity|].
  destruct s as [|y s]; [discriminate|]. simpl in *.
  destruct (Ascii.eqb x y); [|discriminate]. simpl. now apply IH.
Qed.

Lemma startsWith_stripPrefix (l s : string) :
  startsWith l s = false -> stripPrefix l s = None.
Proof.
  revert s. induction l as [|x l IH]; intros s H; [discriminate|].
  destruct s as [|y s]; [reflexivity|]. simpl in *.
  destruct (Ascii.eqb x y); [now apply IH|reflexivity].
Qed.

Lemma includes_startsWith (n s : string) :
  includes n s = false -> startsWith n s = false.
Proof. destruct s; simpl; intro H; now apply orb_false_elim in H as [H _]. Qed.

Lemma includes_rest (n : string) (x : ascii) (s : string) :
  includes n (String x s) = false -> includes n s = false.
Proof. simpl. intro H. now apply orb_false_elim in H as [_ H]. Qed.

(** A pattern that starts with a literal is not found in a text that lacks
    the literal; the search goes on behind a character the literal lacks. *)
Lemma search_literal_skip (l : string) (items : list item) (a : string)
    (c : ascii) (b : string) :
  without c l = true -> includes l a = false ->
  search (Lit l :: items) (a ++ String c b) = search (Lit l :: items) (String c b).
Proof.
  intros W. induction a as [|y a IH]; intro H; [reflexivity|].
  cbn [append]. rewrite search_next.
  - apply IH. now apply includes_rest in H.
  - unfold run. cbn [runThen].
    rewrite startsWith_stripPrefix; [reflexivity|].
    change (String y (a ++ String c b)) with (String y a ++ String c b).
    rewrite (startsWith_before c l _ _ W). now apply includes_startsWith.
Qed.

(** [trimEnd] stops at the last character that is no white space. *)
Lemma trimEnd_after (a : string) (x : ascii) (b : string) :
  isSpace x = false ->
  trimEnd (a ++ String x b) = a ++ String x (trimEnd b).
Proof.
  intro X. induction a as [|y a IH]; cbn [append trimEnd].
  - destruct (trimEnd b); [now rewrite X|reflexivity].
  - rewrite IH. destruct a; reflexivity.
Qed.

Lemma trim_quoted_then (v tail : string) :
  trim (dq v ++ tail) = String dquote (v ++ String dquote (trimEnd tail)).
Proof.
  unfold trim, dq. cbn [append trimStart].
  change (isSpace dquote) with false. cbv iota.
  rewrite append_assoc. cbn [append].
  change (String dquote (v ++ String dquote tail))
    with (String dquote v ++ String dquote tail).
  now rewrite trimEnd_after.
Qed.

Lemma plain_isDot (v : string) : every plainChar v = true -> every isDot v = true.
Proof.
  apply every_weaken. intros c C. unfold plainChar in C.
  now apply andb_prop in C as [_ C].
Qed.

(** The verifier reads of a call the method and the first quoted text. *)
Lemma findElements_call (engine : SelectorEngine) (doc : Document)
    (x : ascii) (name v tail : string) :
  isAlpha x = true -> every isAlpha name = true ->
  every plainChar v = true -> every isDot tail = true ->
  let method := "getBy" ++ String x name in
  let text := "page." ++ method ++ "(" ++ dq v ++ tail ++ ")" in
  search reLocatorCss text = None ->
  Content.findElements engine doc text
  = Return (filter (Content.matchesLocator doc method (trim (dq v ++ tail)) v)
                   (rendered doc)).
Proof.
  intros X N V T method text L. unfold Content.findElements.
  assert (G : includes "getBy" text = true) by reflexivity.
  assert (F : match querySelectorAll engine doc None text with
              | Some cssElements =>
                  if (0 <? List.length cssElements)%nat
                     && negb (includes "getBy" text)
                  then cssElements else []
              | None => []
              end = []).
  { rewrite G. destruct (querySelectorAll engine doc None text) as [l|];
      [|reflexivity].
    now rewrite andb_false_r. }
  rewrite F. cbn [List.length Nat.eqb].
  rewrite L.
  assert (D : every isDot (dq v ++ tail) = true).
  { rewrite every_append, T, andb_true_r. unfold dq. simpl.
    rewrite every_append. simpl. rewrite andb_true_r. now apply plain_isDot. }
  destruct (run_locatorCall name (dq v ++ tail) x X N D) as [c [R [G1 G2]]].
  assert (CALL : search reLocatorCall text = Some c).
  { unfold text, method. cbn [append].
    do 5 (rewrite search_next by reflexivity).
    apply (search_here _ _ EmptyString).
    rewrite <- R. f_equal. cbn [append]. do 6 f_equal.
    now rewrite !append_assoc. }
  rewrite CALL, G1, G2. fold method.
  rewrite trim_quoted_then at 1.
  destruct (run_quoted v (trimEnd tail) dquote dquote eq_refl eq_refl V)
    as [c' [R' G']].
  rewrite (search_here _ _ _ _ R'), G'. reflexivity.
Qed.

(** Clearing the marks leaves what the scripts read of an element. *)
Lemma cleared_fields (doc : Document) (p : NodeId) :
  let e' := elementAt (Content.clearHighlights doc) p in
  let e := elementAt doc p in
  tagName e' = tagName e /\ value e' = value e /\ innerText e' = innerText e
  /\ textContent e' = textContent e /\ cleanText e' = cleanText e
  /\ hasOffsetParent e' = hasOffsetParent e /\ hidden e' = hidden e.
Proof.
  cbv zeta. rewrite elementAt_cleared. unfold Content.unmark.
  destruct (hasAttribute (elementAt doc p) Content.highlightAttribute);
    destruct (elementAt doc p); repeat split.
Qed.

Lemma localName_cleared (doc : Document) (p : NodeId) :
  localName (elementAt (Content.clearHighlights doc) p) = localName (elementAt doc p).
Proof.
  unfold localName. now destruct (cleared_fields doc p) as [-> _].
Qed.

Lemma getImplicitRole_cleared (doc : Document) (p : NodeId) :
  getImplicitRole (elementAt (Content.clearHighlights doc) p)
  = getImplicitRole (elementAt doc p).
Proof.
  unfold getImplicitRole.
  now rewrite localName_cleared, !getAttribute_cleared by reflexivity.
Qed.

Lemma find_ext {A : Type} (f g : A -> bool) (l : list A) :
  (forall x, f x = g x) -> find f l = find g l.
Proof.
  intro H. induction l as [|x l IH]; simpl; [reflexivity|]. now rewrite H, IH.
Qed.

Lemma labelFor_cleared (doc : Document) (ident : string) :
  labelFor (Content.clearHighlights doc) ident = labelFor doc ident.
Proof.
  unfold labelFor. rewrite allElements_cleared. apply find_ext. intro n.
  now rewrite localName_cleared, getAttribute_cleared by reflexivity.
Qed.

Lemma id_cleared (doc : Document) (p : NodeId) :
  id (elementAt (Content.clearHighlights doc) p) = id (elementAt doc p).
Proof. unfold id. now rewrite getAttribute_cleared by reflexivity. Qed.

Lemma getAccessibleName_cleared (doc : Document) (p : NodeId) :
  Content.getAccessibleName (Content.clearHighlights doc) p
  = Content.getAccessibleName doc p.
Proof.
  unfold Content.getAccessibleName.
  rewrite id_cleared, labelFor_cleared, localName_cleared.
  rewrite !getAttribute_cleared by reflexivity.
  destruct (cleared_fields doc p) as [_ [-> [-> _]]].
  destruct (if nonEmpty (id (elementAt doc p))
            then labelFor doc (id (elementAt doc p)) else None) as [label|];
    [|reflexivity].
  now destruct (cleared_fields doc label) as [_ [_ [-> [-> _]]]].
Qed.

Lemma rendered_cleared (doc : Document) :
  rendered (Content.clearHighlights doc) = rendered doc.
Proof.
  unfold rendered. rewrite allElements_cleared.
  apply filter_ext. apply isVisible_cleared.
Qed.

Lemma accepts_cleared (doc : Document) (s : Strategy) (p : NodeId) :
  accepts (Content.clearHighlights doc) s p = accepts doc s p.
Proof.
  unfold accepts.
  rewrite getImplicitRole_cleared, getAccessibleName_cleared, testIdOf_cleared.
  rewrite !getAttribute_cleared by reflexivity.
  now destruct (cleared_fields doc p) as [_ [_ [-> [-> _]]]].
Qed.

(** The name option needs two quote characters. *)
Lemma run_nameOption_quotes (c : captures) (s : string) (r : captures * string) :
  run reNameOption c s = Some r -> 2 <= countQuotes s.
Proof.
  unfold reNameOption. intro H.
  change (match stripPrefix "name" s with
          | Some s' => greedy isSpace
                         (run [Lit ":"; Star isSpace; Class isQuote; Open 1;
                               LazyStar isDot; Close 1; Class isQuote] c) s'
          | None => None
          end = Some r) in H.
  destruct (stripPrefix "name" s) as [s1|] eqn:E1; [|discriminate].
  apply stripPrefix_Some in E1. subst s.
  apply greedy_Some in H as [a1 [s2 [-> H]]].
  change (match stripPrefix ":" s2 with
          | Some s' => greedy isSpace
                         (run [Class isQuote; Open 1;
                               LazyStar isDot; Close 1; Class isQuote] c) s'
          | None => None
          end = Some r) in H.
  destruct (stripPrefix ":" s2) as [s3|] eqn:E2; [|discriminate].
  apply stripPrefix_Some in E2. subst s2.
  apply greedy_Some in H as [a2 [s4 [-> H]]].
  destruct s4 as [|q s5]; [discriminate|].
  change ((if isQuote q
           then lazy isDot (run [Close 1; Class isQuote] (openGroup 1 s5 c)) s5
           else None) = Some r) in H.
  destruct (isQuote q) eqn:Q; [|discriminate].
  apply lazy_Some in H as [a3 [s6 [-> H]]].
  destruct s6 as [|q' s7]; [discriminate|].
  change ((if isQuote q'
           then Some (closeGroup 1 (String q' s7) (openGroup 1 (a3 ++ String q' s7) c), s7)
           else None) = Some r) in H.
  destruct (isQuote q') eqn:Q'; [|discriminate].
  rewrite !countQuotes_append. simpl. rewrite countQuotes_append. simpl.
  rewrite Q, Q'. lia.
Qed.

Lemma search_nameOption_one_quote (s : string) :
  countQuotes s <= 1 -> search reNameOption s = None.
Proof.
  induction s as [|x s IH]; intro H.
  - reflexivity.
  - destruct (run reNameOption noCaptures (String x s)) as [r|] eqn:E.
    + apply run_nameOption_quotes in E. lia.
    + rewrite (search_next _ _ _ E). apply IH. simpl in H. lia.
Qed.

Lemma search_nameOption_quoted (r : string) :
  every plainChar r = true -> search reNameOption (dq r) = None.
Proof.
  intro V. unfold dq. rewrite search_next by reflexivity.
  apply search_nameOption_one_quote.
  rewrite countQuotes_append, (countQuotes_plain r V). reflexivity.
Qed.

Lemma startsWith_refl (s : string) : startsWith s s = true.
Proof. induction s as [|x s IH]; simpl; [reflexivity|]. now rewrite Ascii.eqb_refl. Qed.

Lemma includes_refl (s : string) : includes s s = true.
Proof. destruct s; simpl; [reflexivity|]. now rewrite Ascii.eqb_refl, startsWith_refl. Qed.

(** The name option at the options the generator writes. *)
Lemma run_nameOption_name (n rest : string) :
  every plainChar n = true ->
  exists c,
    run reNameOption noCaptures ("name: " ++ String dquote (n ++ String dquote rest))
      = Some (c, rest)
    /\ group 1 c = n.
Proof.
  intro V.
  destruct (run_quoted n rest dquote dquote eq_refl eq_refl V) as [c [R G]].
  exists c. split; [|exact G].
  change (greedy isSpace
            (run [Lit ":"; Star isSpace; Class isQuote; Open 1; LazyStar isDot;
                  Close 1; Class isQuote] noCaptures)
            (String ":" (String " " (String dquote (n ++ String dquote rest))))
          = Some (c, rest)).
  rewrite greedy_stops by reflexivity.
  change (greedy isSpace (run reQuoted noCaptures)
            (" " ++ String dquote (n ++ String dquote rest)) = Some (c, rest)).
  apply greedy_run; [reflexivity|].
  rewrite greedy_stops by reflexivity. exact R.
Qed.

Lemma search_nameOption_generated (r n : string) :
  every plainChar n = true -> includes "name" r = false ->
  exists c,
    search reNameOption
      (String dquote (r ++ String dquote (", { name: " ++ dq n ++ ", exact: true }")))
      = Some c
    /\ group 1 c = n.
Proof.
  intros V R.
  destruct (run_nameOption_name n ", exact: true }" V) as [c [H G]].
  exists c. split; [|exact G].
  rewrite search_next by reflexivity.
  unfold reNameOption. rewrite search_literal_skip by (reflexivity || exact R).
  unfold dq. cbn [append].
  do 5 (rewrite search_next by reflexivity).
  apply (search_here _ _ ", exact: true }").
  rewrite <- H. unfold reNameOption. f_equal. cbn [append]. do 7 f_equal.
  now rewrite append_assoc.
Qed.

Lemma formatLocator_plain (method v : string) :
  every plainChar v = true ->
  formatLocator false method v None
  = "page." ++ method ++ "(" ++ dq v ++ EmptyString ++ ")".
Proof. intro V. unfold formatLocator, quoted, dq. now rewrite (escapeStr_plain v V). Qed.

Lemma formatLocator_exact (method v : string) :
  every plainChar v = true ->
  formatLocator false method v exactOption
  = "page." ++ method ++ "(" ++ dq v ++ ", { exact: true }" ++ ")".
Proof. intro V. unfold formatLocator, quoted, dq. now rewrite (escapeStr_plain v V). Qed.

Lemma formatLocator_named (r n : string) :
  every plainChar r = true -> every plainChar n = true ->
  formatLocator false "getByRole" r (roleNameOptions n)
  = "page." ++ "getByRole" ++ "(" ++ dq r
    ++ (", { name: " ++ dq n ++ ", exact: true }") ++ ")".
Proof.
  intros Vr Vn. unfold formatLocator, roleNameOptions, quoted, dq.
  cbn [map join jsOption]. unfold quoted.
  rewrite (escapeStr_plain r Vr), (escapeStr_plain n Vn).
  cbn [append]. rewrite !append_assoc. cbn [append].
  rewrite ?append_assoc. reflexivity.
Qed.

(** A call with two quote characters is no call of [locator] for the
    verifier. *)
Lemma search_locatorCss_call (method v tail : string) :
  includes "locator" ("page." ++ method ++ "(") = false ->
  every plainChar v = true -> countQuotes tail = 0 ->
  search reLocatorCss ("page." ++ method ++ "(" ++ dq v ++ tail ++ ")") = None.
Proof.
  intros M V T.
  assert (E : "page." ++ method ++ "(" ++ dq v ++ tail ++ ")"
              = ("page." ++ method ++ "(") ++ String dquote
                  (v ++ String dquote (tail ++ ")"))).
  { unfold dq. rewrite !append_assoc. cbn [append]. rewrite !append_assoc.
    cbn [append]. now rewrite ?append_assoc. }
  rewrite E. unfold reLocatorCss.
  rewrite search_literal_skip by (reflexivity || exact M).
  rewrite search_next by reflexivity.
  apply search_locatorCss_one_quote.
  rewrite countQuotes_append, (countQuotes_plain v V). cbn [countQuotes isQuote].
  rewrite countQuotes_append, T. reflexivity.
Qed.

(** The verifier reads the text of a strategy back: the method, the value
    and the name. *)
Lemma findElements_strategy (engine : SelectorEngine) (doc : Document)
    (s : Strategy) :
  readable s ->
  Content.findElements engine doc (renderStrategy false s)
  = Return (filter (accepts doc s) (rendered doc)).
Proof.
  destruct s as [v|r n|v|v|v|r]; cbn [readable renderStrategy].
  - intro V. rewrite (formatLocator_plain _ v V).
    apply (findElements_call engine doc "T" "estId" v EmptyString
             eq_refl eq_refl V eq_refl).
    now apply (search_locatorCss_call "getByTestId" v EmptyString).
  - intros [Vr [Vn [Lr Nr]]]. rewrite (formatLocator_named r n Vr Vn).
    set (tail := ", { name: " ++ dq n ++ ", exact: true }").
    assert (D : every isDot tail = true).
    { unfold tail, dq. cbn [append every]. rewrite !every_append. cbn [every].
      rewrite (plain_isDot n Vn). reflexivity. }
    transitivity (Return (filter (Content.matchesLocator doc "getByRole"
                                    (trim (dq r ++ tail)) r) (rendered doc)));
      [apply (findElements_call engine doc "R" "ole" r tail eq_refl eq_refl Vr D)|].
    2: { f_equal. apply filter_ext. intro p.
      unfold Content.matchesLocator, accepts.
      cbn [String.eqb Ascii.eqb Bool.eqb andb].
      rewrite trim_quoted_then.
      replace (trimEnd tail) with tail.
      * destruct (search_nameOption_generated r n Vn Nr) as [c [S G]].
        fold tail in S. now rewrite S, G.
      * assert (T : tail = (", { name: " ++ dq n ++ ", exact: true ")
                             ++ String "}" EmptyString).
        { unfold tail, dq. cbn [append]. rewrite !append_assoc. reflexivity. }
        rewrite T. now rewrite trimEnd_keeps. }
    { assert (E : "page." ++ ("getBy" ++ String "R" "ole") ++ "(" ++ dq r ++ tail ++ ")"
                  = ("page.getByRole(" ++ String dquote
                       (r ++ String dquote ", { name: "))
                    ++ String dquote (n ++ String dquote ", exact: true })")).
      { unfold tail, dq. cbn [append]. rewrite !append_assoc. cbn [append].
        rewrite ?append_assoc. reflexivity. }
      rewrite E. unfold reLocatorCss.
      rewrite search_literal_skip.
      * rewrite search_next by reflexivity.
        apply search_locatorCss_one_quote.
        rewrite countQuotes_append, (countQuotes_plain n Vn). reflexivity.
      * reflexivity.
      * rewrite !(includes_around dquote) by reflexivity. now rewrite Lr. }
  - intro V. rewrite (formatLocator_exact _ v V).
    apply (findElements_call engine doc "P" "laceholder" v ", { exact: true }"
             eq_refl eq_refl V eq_refl).
    now apply (search_locatorCss_call "getByPlaceholder" v ", { exact: true }").
  - intro V. rewrite (formatLocator_exact _ v V).
    apply (findElements_call engine doc "A" "ltText" v ", { exact: true }"
             eq_refl eq_refl V eq_refl).
    now apply (search_locatorCss_call "getByAltText" v ", { exact: true }").
  - intro V. rewrite (formatLocator_exact _ v V).
    apply (findElements_call engine doc "T" "ext" v ", { exact: true }"
             eq_refl eq_refl V eq_refl).
    now apply (search_locatorCss_call "getByText" v ", { exact: true }").
  - intro V. rewrite (formatLocator_plain _ r V).
    transitivity (Return (filter (Content.matchesLocator doc "getByRole"
                                    (trim (dq r ++ EmptyString)) r) (rendered doc)));
      [apply (findElements_call engine doc "R" "ole" r EmptyString
                eq_refl eq_refl V eq_refl);
       now apply (search_locatorCss_call "getByRole" r EmptyString)|].
    f_equal. apply filter_ext. intro p.
    unfold Content.matchesLocator, accepts.
    cbn [String.eqb Ascii.eqb Bool.eqb andb].
    replace (trim (dq r ++ EmptyString)) with (dq r)
      by (now rewrite append_empty, trim_quoted).
    now rewrite (search_nameOption_quoted r V).
Qed.

(** The generator returns the text of the strategy of the first tiers. *)
Lemma generate_direct (engine : SelectorEngine) (doc : Document)
    (framework : string) (fuel : nat) (element : NodeId) (s : Strategy) :
  directStrategy doc element = Some s ->
  Content.generateBestLocator engine doc framework (S fuel) element
  = Some (Return (renderStrategy (Generator.isPytest framework) s)).
Proof.
  unfold directStrategy, Content.generateBestLocator.
  cbn [Generator.generateBestLocator]. unfold Generator.generateBestLocatorBody.
  set (el := elementAt doc element).
  destruct (truthy (testIdOf el)); [now intros [= <-]|].
  destruct (truthyRole (getImplicitRole el)
            && nonEmpty (Content.getAccessibleName doc element)).
  { destruct (getImplicitRole el) as [[r|k]|]; [|discriminate|discriminate].
    now intros [= <-]. }
  destruct (truthy (getAttribute el "placeholder")); [now intros [= <-]|].
  destruct (truthy (getAttribute el "alt")); [now intros [= <-]|].
  destruct (nonEmpty (Content.getAccessibleName doc element)); [now intros [= <-]|].
  destruct (getImplicitRole el) as [[r|k]|]; [|discriminate|discriminate].
  destruct (isLocatorUniqueInScope doc "getByRole" (RoleText r) element None);
    [|discriminate].
  now intros [= <-].
Qed.

Lemma truthy_orEmpty (o : option string) : truthy o = true -> o = Some (orEmpty o).
Proof. destruct o as [[|c r]|]; simpl; intro H; try discriminate. reflexivity. Qed.

(** The verifier accepts the element for its own strategy, unless this is
    the strategy by text. *)
Lemma direct_accepted (doc : Document) (element : NodeId) (s : Strategy) :
  directStrategy doc element = Some s -> isText s = false ->
  accepts doc s element = true.
Proof.
  unfold directStrategy, accepts.
  set (el := elementAt doc element).
  destruct (truthy (testIdOf el)) eqn:T.
  { intros [= <-] _. rewrite (truthy_orEmpty _ T) at 1. apply String.eqb_refl. }
  destruct (truthyRole (getImplicitRole el)
            && nonEmpty (Content.getAccessibleName doc element)).
  { destruct (getImplicitRole el) as [[r|k]|]; [|discriminate|discriminate].
    intros [= <-] _. cbn [roleIsText]. now rewrite String.eqb_refl, includes_refl. }
  destruct (truthy (getAttribute el "placeholder")) eqn:P.
  { intros [= <-] _. rewrite (truthy_orEmpty _ P) at 1. apply String.eqb_refl. }
  destruct (truthy (getAttribute el "alt")) eqn:A.
  { intros [= <-] _. rewrite (truthy_orEmpty _ A) at 1. apply String.eqb_refl. }
  destruct (nonEmpty (Content.getAccessibleName doc element));
    [intros [= <-]; discriminate|].
  destruct (getImplicitRole el) as [[r|k]|]; [|discriminate|discriminate].
  destruct (isLocatorUniqueInScope doc "getByRole" (RoleText r) element None);
    [|discriminate].
  intros [= <-] _. cbn [roleIsText]. apply String.eqb_refl.
Qed.

(** The strategy by role alone is chosen for the one element of the
    document that has the role. *)
Lemma direct_role_alone (doc : Document) (element : NodeId) (r : string) :
  directStrategy doc element = Some (Role r) ->
  filter (accepts doc (Role r)) (allElements doc) = [element].
Proof.
  unfold directStrategy.
  set (el := elementAt doc element).
  destruct (truthy (testIdOf el)); [discriminate|].
  destruct (truthyRole (getImplicitRole el)
            && nonEmpty (Content.getAccessibleName doc element)).
  { destruct (getImplicitRole el) as [[x|k]|]; discriminate. }
  destruct (truthy (getAttribute el "placeholder")); [discriminate|].
  destruct (truthy (getAttribute el "alt")); [discriminate|].
  destruct (nonEmpty (Content.getAccessibleName doc element)); [discriminate|].
  destruct (getImplicitRole el) as [[x|k]|]; [|discriminate|discriminate].
  destruct (isLocatorUniqueInScope doc "getByRole" (RoleText x) element None)
    eqn:U; [|discriminate].
  intros [= <-]. revert U. unfold isLocatorUniqueInScope. cbn [String.eqb Ascii.eqb Bool.eqb].
  cbv iota.
  assert (E : filter (accepts doc (Role x)) (allElements doc)
              = filter (fun n => match getImplicitRole (elementAt doc n) with
                                 | Some y => roleEqb y (RoleText x)
                                 | None => false
                                 end) (allElements doc)).
  { apply filter_ext. intro n. unfold accepts.
    destruct (getImplicitRole (elementAt doc n)) as [[y|k]|]; reflexivity. }
  rewrite E.
  destruct (filter _ (allElements doc)) as [|e [|e' l]]; try discriminate.
  unfold nodeEqb. destruct (list_eq_dec Nat.eq_dec e element); [now subst|discriminate].
Qed.

Lemma filter_comm {A : Type} (f g : A -> bool) (l : list A) :
  filter f (filter g l) = filter g (filter f l).
Proof.
  induction l as [|x l IH]; simpl; [reflexivity|].
  destruct (f x) eqn:F, (g x) eqn:G; simpl; rewrite ?F, ?G, IH; reflexivity.
Qed.

(** What the verifier finds for a text it reads back, and what it leaves. *)
Lemma findAndHighlight_strategy (engine : SelectorEngine) (doc : Document)
    (s : Strategy) :
  readable s ->
  Content.findAndHighlight engine doc (renderStrategy false s)
  = (Content.highlight (Content.clearHighlights doc)
       (filter (accepts doc s) (rendered doc)),
     Return (List.length (filter (accepts doc s) (rendered doc)))).
Proof.
  intro R. unfold Content.findAndHighlight.
  rewrite (findElements_strategy _ _ s R), rendered_cleared.
  now rewrite (filter_ext _ _ (accepts_cleared doc s)).
Qed.

(** C3, as amended.  For the JavaScript dialect and an element for which
    one of the first tiers of the ladder returns a locator of one call, by
    test id, by role and name, by placeholder, by alt text, by text or by
    role alone, whose values hold no quote character and no line terminator
    (and whose role, when it comes with a name, holds neither [locator] nor
    [name]): the generator returns the text of that strategy, without
    comment, and the verifier finds for this text the rendered elements
    that its predicate accepts for the strategy, marks them and returns
    their number.  The element is among them when it is rendered and the
    strategy is not the one by text.  The verifier finds the element and
    nothing else when the element is rendered, is accepted, and is the only
    rendered element that is accepted; for the strategy by role alone this
    is so whenever the element is rendered. *)
Theorem C3_round_trip :
  forall (engine : SelectorEngine) (doc : Document) (fuel : nat)
         (element : NodeId) (s : Strategy),
    directStrategy doc element = Some s ->
    readable s ->
    let locator := renderStrategy false s in
    let found := filter (accepts doc s) (rendered doc) in
    let isRendered :=
      inDocument doc element = true /\ Content.isVisible doc element = true in
    Content.generateBestLocator engine doc "js" (S fuel) element
      = Some (Return locator)
    /\ Content.findAndHighlight engine doc locator
      = (Content.highlight (Content.clearHighlights doc) found,
         Return (List.length found))
    /\ (isText s = false -> isRendered -> In element found)
    /\ (isRendered -> accepts doc s element = true ->
        (forall other : NodeId,
           In other (rendered doc) -> accepts doc s other = true ->
           other = element) ->
        found = [element])
    /\ (forall r : string, s = Role r -> isRendered -> found = [element]).
Proof.
  intros engine doc fuel element s D R locator found isRendered.
  assert (I : isRendered -> In element (rendered doc)).
  { intros [E V]. apply filter_In. split; [now apply subtree_In|exact V]. }
  split; [exact (generate_direct engine doc "js" fuel element s D)|].
  split; [exact (findAndHighlight_strategy engine doc s R)|].
  split; [|split].
  - intros T V. apply filter_In. split; [now apply I|].
    now apply direct_accepted.
  - intros V A U. apply filter_single; auto.
    apply NoDup_filter, subtree_NoDup.
  - intros r -> V. unfold found, rendered. rewrite filter_comm.
    rewrite (direct_role_alone doc element r D). simpl.
    destruct V as [_ V]. now rewrite V.
Qed.

(** The theorem at one element for each strategy: the button of
    [submitPage], the image of [logoPage], the field of [nameField], the
    image button of [imageButton], the paragraph of [helloPage] and the
    check box of [checkboxPage].  The generator returns the locator, and
    the verifier finds for it the element and nothing else. *)
Lemma C3_round_trip_witness :
  let roundTrip (doc : Document) (locator : string) :=
    Content.generateBestLocator typeSelectorEngine doc "js" 1 [1; 0]
      = Some (Return locator)
    /\ Content.findAndHighlight typeSelectorEngine doc locator
       = (Content.highlight (Content.clearHighlights doc) [[1; 0]], Return 1) in
  roundTrip submitPage ("page.getByTestId(" ++ dq "submit-1" ++ ")")
  /\ roundTrip logoPage ("page.getByRole(" ++ dq "img" ++ ", { name: "
                         ++ dq "Logo" ++ ", exact: true })")
  /\ roundTrip nameField ("page.getByPlaceholder(" ++ dq "Name"
                          ++ ", { exact: true })")
  /\ roundTrip imageButton ("page.getByAltText(" ++ dq "Go"
                            ++ ", { exact: true })")
  /\ roundTrip helloPage ("page.getByText(" ++ dq "Hello" ++ ", { exact: true })")
  /\ roundTrip checkboxPage ("page.getByRole(" ++ dq "checkbox" ++ ")").
Proof.
  assert (only : forall (doc : Document) (s : Strategy),
            rendered doc = [[1; 0]] ->
            forall other : NodeId,
              In other (rendered doc) -> accepts doc s other = true ->
              other = [1; 0]).
  { intros doc s E other O _. rewrite E in O. destruct O as [<-|[]]. reflexivity. }
  intro roundTrip. unfold roundTrip.
  split; [|split; [|split; [|split; [|split]]]].
  - destruct (C3_round_trip typeSelectorEngine submitPage 0 [1; 0]
                (TestId "submit-1") eq_refl eq_refl) as [G [F [_ [U _]]]].
    split; [exact G|].
    rewrite U in F; [exact F|split; reflexivity|reflexivity|].
    apply only. reflexivity.
  - destruct (C3_round_trip typeSelectorEngine logoPage 0 [1; 0]
                (RoleName "img" "Logo") eq_refl) as [G [F [_ [U _]]]];
      [repeat split|].
    split; [exact G|].
    rewrite U in F; [exact F|split; reflexivity|reflexivity|].
    apply only. reflexivity.
  - destruct (C3_round_trip typeSelectorEngine nameField 0 [1; 0]
                (Placeholder "Name") eq_refl eq_refl) as [G [F [_ [U _]]]].
    split; [exact G|].
    rewrite U in F; [exact F|split; reflexivity|reflexivity|].
    apply only. reflexivity.
  - destruct (C3_round_trip typeSelectorEngine imageButton 0 [1; 0]
                (AltText "Go") eq_refl eq_refl) as [G [F [_ [U _]]]].
    split; [exact G|].
    rewrite U in F; [exact F|split; reflexivity|reflexivity|].
    apply only. reflexivity.
  - destruct (C3_round_trip typeSelectorEngine helloPage 0 [1; 0]
                (Text "Hello") eq_refl eq_refl) as [G [F [_ [U _]]]].
    split; [exact G|].
    rewrite U in F; [exact F|split; reflexivity|reflexivity|].
    apply only. reflexivity.
  - destruct (C3_round_trip typeSelectorEngine checkboxPage 0 [1; 0]
                (Role "checkbox") eq_refl eq_refl) as [G [F [_ [_ U]]]].
    split; [exact G|].
    rewrite (U "checkbox") in F; [exact F|reflexivity|split; reflexivity].
Defined.

(** C3 as it is written fails on a test id that two nodes carry: the first
    button of [sameTestId] gets the test id locator, which has no comment,
    and the verifier finds both buttons for it.  It fails for the pytest
    dialect: the verifier does not know the spelling of the locator of the
    one button of [submitPage], and finds nothing.  It fails for a locator
    of two calls: for the first check box of [checkPanels] the verifier
    finds the panel.  It fails for a value with a quote character, which
    the verifier reads up to the backslash, for a value with a line feed,
    which the call pattern does not pass, for a name that comes from a
    title, which is no text of the element, for a role that reads like the
    name option, and for an element that is not rendered, here the body of
    [bodyTestId]: the verifier finds nothing.  For a role that reads like a
    call of [locator] the verifier raises a syntax error. *)
Lemma C3_round_trip_counterexample :
  let verify (doc : Document) (locator : string) :=
    snd (Content.findAndHighlight typeSelectorEngine doc locator) in
  let generate (doc : Document) (framework : string) (element : NodeId) :=
    Content.generateBestLocator typeSelectorEngine doc framework 2 element in
  let byTestId (v : string) := "page.getByTestId(" ++ dq v ++ ")" in
  let chained := "page.getByTestId(" ++ dq "left" ++ ").getByRole("
                 ++ dq "checkbox" ++ ")" in
  let escaped := "page.getByTestId(" ++ dq ("a\" ++ String dquote "b") ++ ")" in
  let broken := byTestId ("a" ++ String (ascii_of_nat 10) "b") in
  let byTitle := "page.getByText(" ++ dq "Hint" ++ ", { exact: true })" in
  let byRole (r n : string) :=
    "page.getByRole(" ++ dq r ++ ", { name: " ++ dq n ++ ", exact: true })" in
  (generate sameTestId "js" [1; 0] = Some (Return (byTestId "save"))
   /\ includes "WARNING" (byTestId "save") = false
   /\ Content.findElements typeSelectorEngine (Content.clearHighlights sameTestId)
                           (byTestId "save")
      = Return [[1; 0]; [1; 1]]
   /\ verify sameTestId (byTestId "save") = Return 2)
  /\ (generate submitPage "pytest" [1; 0]
      = Some (Return ("page.get_by_test_id(" ++ dq "submit-1" ++ ")"))
     /\ verify submitPage ("page.get_by_test_id(" ++ dq "submit-1" ++ ")")
        = Return 0)
  /\ (generate checkPanels "js" [1; 0; 0] = Some (Return chained)
     /\ Content.findElements typeSelectorEngine (Content.clearHighlights checkPanels)
                             chained
        = Return [[1; 0]])
  /\ (generate quotedTestId "js" [1; 0] = Some (Return escaped)
     /\ verify quotedTestId escaped = Return 0)
  /\ (generate brokenTestId "js" [1; 0] = Some (Return broken)
     /\ verify brokenTestId broken = Return 0)
  /\ (generate bodyTestId "js" [1] = Some (Return (byTestId "page"))
     /\ verify bodyTestId (byTestId "page") = Return 0)
  /\ (generate titledBox "js" [1; 0] = Some (Return byTitle)
     /\ verify titledBox byTitle = Return 0)
  /\ (generate nameRole "js" [1; 0] = Some (Return (byRole "name:" "OK"))
     /\ verify nameRole (byRole "name:" "OK") = Return 0)
  /\ (generate locatorRole "js" [1; 0] = Some (Return (byRole "locator(" ")"))
     /\ verify locatorRole (byRole "locator(" ")") = Throw SyntaxError).
Proof. repeat split. Qed.

(** ** The dialects *)

Lemma needle_plain (n : string) :
  needle n ->
  without dquote n = true /\ without ")" n = true /\ nonEmpty n = true.
Proof. intros [->| ->]; repeat split. Qed.

Lemma formatLocator_shape (b : bool) (method value : string)
    (options : option (list (string * OptionValue))) :
  exists pre post,
    formatLocator b method value options
    = pre ++ String dquote (escapeStr value ++ String dquote (post ++ ")"))
    /\ pre = "page." ++ (if b then snakeCase method else method) ++ "("
    /\ post = match options with
              | None => EmptyString
              | Some o =>
                  ", " ++ (if b then join ", " (map pytestOption o)
                           else "{ " ++ join ", " (map jsOption o) ++ " }")
              end.
Proof.
  eexists. eexists. split; [|split; reflexivity].
  unfold formatLocator, quoted. destruct options as [o|].
  - rewrite !append_assoc. simpl. rewrite !append_assoc. reflexivity.
  - rewrite !append_assoc. simpl. rewrite !append_assoc. reflexivity.
Qed.

Lemma renderStrategy_occurs (n : string) (b : bool) (s : Strategy) :
  needle n -> includes n (renderStrategy b s) = occursInStrategy n s.
Proof.
  intro H. destruct (needle_plain n H) as [W [_ N]].
  destruct s as [v|r m|v|v|v|v]; unfold renderStrategy, occursInStrategy;
    match goal with
    | |- includes n (formatLocator b ?m ?v ?o) = _ =>
        destruct (formatLocator_shape b m v o) as [pre [post [E [P Q]]]];
        rewrite E, (includes_quoted n pre _ _ W N); subst pre post
    end.
  - destruct H as [->| ->], b; simpl; now rewrite orb_false_r.
  - assert (R : exists q, (if b then join ", " (map pytestOption
                                      [("name", StringValue m); ("exact", BoolValue true)])
                           else "{ " ++ join ", " (map jsOption
                                      [("name", StringValue m); ("exact", BoolValue true)])
                                ++ " }")
                          = (if b then "name=" else "{ name: ")
                            ++ String dquote (escapeStr m ++ String dquote q)
                          /\ q = if b then ", exact=True" else ", exact: true }").
    { eexists. split; [|reflexivity]. destruct b; unfold quoted; simpl;
        rewrite !append_assoc; reflexivity. }
    destruct R as [q [R Q]]. unfold roleNameOptions. rewrite R.
    change ((", " ++ (if b then "name=" else "{ name: ")
                  ++ String dquote (escapeStr m ++ String dquote q)) ++ ")")
      with (", " ++ ((if b then "name=" else "{ name: ")
                     ++ String dquote (escapeStr m ++ String dquote q)) ++ ")").
    rewrite (append_assoc (if b then "name=" else "{ name: ")).
    change (", " ++ (if b then "name=" else "{ name: ")
                 ++ String dquote (escapeStr m ++ String dquote q) ++ ")")
      with ((", " ++ (if b then "name=" else "{ name: "))
            ++ String dquote ((escapeStr m ++ String dquote q) ++ ")")).
    rewrite (append_assoc (escapeStr m)).
    change (String dquote q ++ ")") with (String dquote (q ++ ")")).
    rewrite (includes_quoted n _ _ _ W N). subst q.
    destruct H as [->| ->], b; simpl; now rewrite !orb_false_r.
  - destruct H as [->| ->], b; simpl; now rewrite orb_false_r.
  - destruct H as [->| ->], b; simpl; now rewrite orb_false_r.
  - destruct H as [->| ->], b; simpl; now rewrite orb_false_r.
  - destruct H as [->| ->], b; simpl; now rewrite orb_false_r.
Qed.

Lemma renderChild_shape (b : bool) (c : Child) :
  exists pre v,
    "." ++ renderChild b c = pre ++ String dquote (v ++ String dquote ")")
    /\ pre = match c with
             | ChildRole _ => if b then ".get_by_role(" else ".getByRole("
             | ChildCss _ => ".locator("
             end
    /\ v = match c with
           | ChildRole r => escapeStr r
           | ChildCss css => escapeStr css
           end.
Proof.
  eexists. eexists. split; [|split; reflexivity].
  destruct c as [r|css]; [destruct b|]; unfold renderChild, formatLocator, quoted;
    simpl; rewrite !append_assoc; reflexivity.
Qed.

Lemma renderChild_occurs (n : string) (b : bool) (c : Child) :
  needle n -> includes n ("." ++ renderChild b c) = occursInChild n c.
Proof.
  intro H. destruct (needle_plain n H) as [W [_ N]].
  destruct (renderChild_shape b c) as [pre [v [E [P V]]]].
  rewrite E, (includes_quoted n pre v _ W N). subst pre v.
  destruct H as [->| ->], c, b; simpl; rewrite ?orb_false_r; try reflexivity.
Qed.

(** The text of a locator ends with a closing parenthesis. *)
Lemma renderLocator_closed (b : bool) (l : Locator) :
  exists x, renderLocator b l = x ++ ")".
Proof.
  destruct l as [s|p c].
  - assert (F : forall m v o, exists x, formatLocator b m v o = x ++ ")").
    { intros m v o. destruct (formatLocator_shape b m v o) as [pre [post [E _]]].
      exists (pre ++ String dquote (escapeStr v ++ String dquote post)).
      rewrite E, !append_assoc. simpl. now rewrite !append_assoc. }
    destruct s; apply F.
  - destruct (renderChild_shape b c) as [pre [v [E _]]].
    exists (renderLocator b p ++ pre ++ String dquote (v ++ String dquote EmptyString)).
    change (renderLocator b (Chained p c))
      with (renderLocator b p ++ "." ++ renderChild b c).
    rewrite E, !append_assoc. simpl. now rewrite !append_assoc.
Qed.

Lemma renderLocator_occurs (n : string) (b : bool) (l : Locator) :
  needle n -> includes n (renderLocator b l) = occursInLocator n l.
Proof.
  intro H. destruct (needle_plain n H) as [_ [W N]].
  induction l as [s|p IH c]; simpl.
  - now apply renderStrategy_occurs.
  - destruct (renderLocator_closed b p) as [x X].
    rewrite <- IH, <- (renderChild_occurs n b c H), X.
    rewrite append_assoc.
    change (x ++ ")" ++ String "." (renderChild b c))
      with (x ++ String ")" ("." ++ renderChild b c)).
    assert (Z : includes n EmptyString = false)
      by (destruct n; [discriminate|reflexivity]).
    rewrite !(includes_around ")" n) by assumption.
    now rewrite Z, orb_false_r.
Qed.

Lemma renderLocator_nonEmpty (b : bool) (l : Locator) :
  nonEmpty (renderLocator b l) = true.
Proof.
  destruct (renderLocator_closed b l) as [x ->]. destruct x; reflexivity.
Qed.

Lemma stable_plain (l : Locator) :
  Generator.stableLocator (renderLocator true l)
  = Generator.stableLocator (renderLocator false l).
Proof.
  unfold Generator.stableLocator.
  rewrite !renderLocator_nonEmpty.
  rewrite !(renderLocator_occurs "locator(") by (left; reflexivity).
  rewrite !(renderLocator_occurs "WARNING") by (right; reflexivity).
  reflexivity.
Qed.

Lemma stable_fallback (comment : bool -> string) (b : bool) (css : string) :
  Generator.stableLocator (render comment b (Fallback css)) = false.
Proof.
  unfold Generator.stableLocator, render.
  assert (I : includes "locator("
                (("page.locator(" ++ quoted css ++ ")") ++ " " ++ comment b) = true)
    by reflexivity.
  rewrite I. simpl negb. now rewrite andb_false_r.
Qed.

Section Dialects.

Variable engine : SelectorEngine.
Variable getAccessibleName : Document -> NodeId -> string.
Variable fallbackComment : bool -> string.
Variable doc : Document.

Let generate := Generator.generateBestLocator engine getAccessibleName
                  fallbackComment doc.
Let body := Generator.generateBestLocatorBody engine getAccessibleName
              fallbackComment doc.
Let loop := Generator.ancestorLoop engine doc.

Lemma loop_same (self1 self2 : NodeId -> option (Completion string))
    (element : NodeId) (role : option RoleValue) (remaining : nat) :
  (forall a, sameChoice fallbackComment (self1 a) (self2 a)) ->
  forall parent : option NodeId,
    sameLoop (loop "pytest" self1 element role remaining parent)
             (loop "js" self2 element role remaining parent).
Proof.
  intro H. induction remaining as [|n IH]; intro parent; [exact I|].
  destruct parent as [p|]; [|exact I].
  unfold loop in *. cbn [Generator.ancestorLoop].
  destruct (String.eqb (tagName (elementAt doc p)) "BODY"); [exact I|].
  specialize (H p). specialize (IH (parentElement p)).
  destruct (self1 p) as [[pl|x]|], (self2 p) as [[jl|y]|]; simpl in H;
    try contradiction; try exact H.
  destruct H as [e [-> ->]].
  destruct e as [l|css].
  - simpl render. rewrite <- (stable_plain l).
    destruct (Generator.stableLocator (renderLocator true l)); [|exact IH].
    assert (CSS : sameLoop
      match getRelativeCSS engine doc element (Some p) with
      | Throw e => Some (Throw e)
      | Return relativeCSS =>
          match querySelectorAll engine doc (Some p) relativeCSS with
          | None => Some (Throw SyntaxError)
          | Some found =>
              if (List.length found =? 1)%nat
              then Some (Return (Some (renderLocator true l ++ "."
                                       ++ "locator(" ++ quoted relativeCSS ++ ")")))
              else Generator.ancestorLoop engine doc "pytest" self1 element role n
                     (parentElement p)
          end
      end
      match getRelativeCSS engine doc element (Some p) with
      | Throw e => Some (Throw e)
      | Return relativeCSS =>
          match querySelectorAll engine doc (Some p) relativeCSS with
          | None => Some (Throw SyntaxError)
          | Some found =>
              if (List.length found =? 1)%nat
              then Some (Return (Some (renderLocator false l ++ "."
                                       ++ "locator(" ++ quoted relativeCSS ++ ")")))
              else Generator.ancestorLoop engine doc "js" self2 element role n
                     (parentElement p)
          end
      end).
    { destruct (getRelativeCSS engine doc element (Some p)) as [css|x];
        [|reflexivity].
      destruct (querySelectorAll engine doc (Some p) css) as [found|];
        [|reflexivity].
      destruct (List.length found =? 1)%nat; [|exact IH].
      exists (Chained l (ChildCss css)). split; reflexivity. }
    destruct role as [[r|k]|]; [| |exact CSS].
    + destruct (isLocatorUniqueInScope doc "getByRole" (RoleText r) element
                  (Some p)); [|exact CSS].
      exists (Chained l (ChildRole r)). split; reflexivity.
    + destruct (isLocatorUniqueInScope doc "getByRole" (Inherited k) element
                  (Some p)); [reflexivity|exact CSS].
  - rewrite !stable_fallback. exact IH.
Qed.

Lemma body_same (self1 self2 : NodeId -> option (Completion string))
    (element : NodeId) :
  (forall a, sameChoice fallbackComment (self1 a) (self2 a)) ->
  sameChoice fallbackComment (body "pytest" self1 element) (body "js" self2 element).
Proof.
  intro H. unfold body, Generator.generateBestLocatorBody.
  change (Generator.isPytest "pytest") with true.
  change (Generator.isPytest "js") with false.
  set (el := elementAt doc element).
  destruct (truthy (testIdOf el));
    [exists (Plain (Direct (TestId (orEmpty (testIdOf el))))); now split|].
  pose proof (loop_same self1 self2 element (getImplicitRole el) 4 H
                (parentElement element)) as L.
  unfold loop in L.
  assert (named : forall r : option RoleValue,
            sameChoice fallbackComment
              (Some (formatRoleLocator true r
                       (roleNameOptions (getAccessibleName doc element))))
              (Some (formatRoleLocator false r
                       (roleNameOptions (getAccessibleName doc element))))).
  { intros [[r|k]|]; try reflexivity.
    exists (Plain (Direct (RoleName r (getAccessibleName doc element)))).
    now split. }
  assert (alone : forall r : option RoleValue,
            sameChoice fallbackComment (Some (formatRoleLocator true r None))
                                       (Some (formatRoleLocator false r None))).
  { intros [[r|k]|]; try reflexivity.
    exists (Plain (Direct (Role r))). now split. }
  destruct (truthyRole (getImplicitRole el)
            && nonEmpty (getAccessibleName doc element)); [apply named|].
  destruct (truthy (getAttribute el "placeholder"));
    [exists (Plain (Direct (Placeholder (orEmpty (getAttribute el "placeholder")))));
     now split|].
  destruct (truthy (getAttribute el "alt"));
    [exists (Plain (Direct (AltText (orEmpty (getAttribute el "alt"))))); now split|].
  destruct (nonEmpty (getAccessibleName doc element));
    [exists (Plain (Direct (Text (getAccessibleName doc element)))); now split|].
  destruct (match getImplicitRole el with
            | Some r => isLocatorUniqueInScope doc "getByRole" r element None
            | None => false
            end); [apply alone|].
  destruct (Generator.ancestorLoop engine doc "pytest" self1 element
              (getImplicitRole el) 4 (parentElement element))
    as [[[p|]|x]|],
    (Generator.ancestorLoop engine doc "js" self2 element
              (getImplicitRole el) 4 (parentElement element))
    as [[[j|]|y]|]; simpl in L; try contradiction; try exact L.
  - destruct L as [l [-> ->]]. exists (Plain l). now split.
  - destruct (getRelativeCSS engine doc element (parentElement element)) as [css|x];
      [|reflexivity].
    exists (Fallback css). now split.
Qed.

Lemma generate_same (fuel : nat) :
  forall element : NodeId,
    sameChoice fallbackComment (generate "pytest" fuel element)
                               (generate "js" fuel element).
Proof.
  induction fuel as [|f IH]; intro element; [exact I|].
  apply (body_same (generate "pytest" f) (generate "js" f) element IH).
Qed.

End Dialects.


(** C9, at the failing input.  In the earlier content script the dialect
    decides the outcome: for the first button of [panels] the run for pytest
    returns the chained locator of the panel and the button, and the run for
    JavaScript raises a reference error.  In the content script the two
    runs always have the same outcome, the two texts of one expression or
    the same exception, and for the body of [emptyPage] it is the type
    error. *)
Theorem C9_dialects_compared :
  forall (engine : SelectorEngine) (optionsFailure : string -> Exception)
         (quirksMode : bool) (fuel : nat),
    Legacy.generateBestLocator engine optionsFailure quirksMode panels "pytest" [1; 0; 0]
      = Return ("page.get_by_test_id(" ++ dq "left" ++ ").get_by_test_id("
                ++ dq "save" ++ ")")
    /\ Legacy.generateBestLocator engine optionsFailure quirksMode panels "js" [1; 0; 0]
      = Throw ReferenceError
    /\ Content.generateBestLocator engine emptyPage "pytest" (S (S fuel)) [1]
      = Some (Throw TypeError)
    /\ Content.generateBestLocator engine emptyPage "js" (S (S fuel)) [1]
      = Some (Throw TypeError)
    /\ (forall (doc : Document) (element : NodeId),
          sameChoice Content.fallbackComment
            (Content.generateBestLocator engine doc "pytest" fuel element)
            (Content.generateBestLocator engine doc "js" fuel element)).
Proof.
  intros engine optionsFailure quirksMode fuel. repeat split.
  intros doc element. apply generate_same.
Qed.

(** ** What the verifier writes *)

Lemma withChildren_same (e : Element) : withChildren e (children e) = e.
Proof. destruct e. reflexivity. Qed.

Lemma updateNth_same {A : Type} (F : A -> A) (l : list A) :
  forall i, (forall x, nth_error l i = Some x -> F x = x) -> updateNth i F l = l.
Proof.
  induction l as [|x l IH]; intros i H; [now destruct i|].
  destruct i as [|i]; simpl.
  - now rewrite (H x eq_refl).
  - now rewrite IH.
Qed.

Lemma nth_error_updateNth {A : Type} (F : A -> A) (l : list A) :
  forall i j,
    nth_error (updateNth i F l) j
    = if Nat.eqb j i then option_map F (nth_error l j) else nth_error l j.
Proof.
  induction l as [|x l IH]; intros i j.
  - destruct i, j; simpl; try reflexivity; now destruct (Nat.eqb j i).
  - destruct i as [|i], j as [|j]; simpl; try reflexivity. apply IH.
Qed.

Lemma updateAt_absent (f : Element -> Element) (q : NodeId) :
  forall e : Element, inDocument e q = false -> updateAt f e q = e.
Proof.
  induction q as [|i q IH]; intros e H; [discriminate|].
  cbn [updateAt]. simpl in H.
  rewrite updateNth_same; [apply withChildren_same|].
  intros c C. rewrite C in H. now apply IH.
Qed.

Lemma children_withChildren (e : Element) (c : list Element) :
  children (withChildren e c) = c.
Proof. reflexivity. Qed.

Lemma elementAt_root_children (e e' : Element) (i : nat) (p : NodeId) :
  children e' = children e -> elementAt e' (i :: p) = elementAt e (i :: p).
Proof. intro H. simpl. now rewrite H. Qed.

(** A change at one node leaves the other nodes as they are, apart from
    their children. *)
Lemma field_updateAt_other {A : Type} (g : Element -> A) (f : Element -> Element)
    (q : NodeId) :
  ownField g -> keepsChildren f ->
  forall (e : Element) (p : NodeId),
    p <> q -> g (elementAt (updateAt f e q) p) = g (elementAt e p).
Proof.
  intros G K. induction q as [|i q IH]; intros e p N.
  - destruct p as [|j p]; [contradiction|].
    cbn [updateAt]. now rewrite (elementAt_root_children e (f e) j p (K e)).
  - destruct p as [|j p]; [cbn [updateAt elementAt]; apply G|].
    cbn [updateAt elementAt]. rewrite children_withChildren, nth_error_updateNth.
    destruct (Nat.eqb j i) eqn:E; [|reflexivity].
    apply Nat.eqb_eq in E. subst j.
    destruct (nth_error (children e) i) as [c|]; [|reflexivity].
    simpl. apply IH. intro H. apply N. now subst.
Qed.

Lemma elementAt_updateAt_here (f : Element -> Element) (q : NodeId) :
  forall e : Element,
    inDocument e q = true ->
    elementAt (updateAt f e q) q = f (elementAt e q).
Proof.
  induction q as [|i q IH]; intros e H; [reflexivity|].
  cbn [updateAt elementAt]. rewrite children_withChildren, nth_error_updateNth.
  rewrite Nat.eqb_refl. simpl in H.
  destruct (nth_error (children e) i) as [c|]; [|discriminate].
  simpl. now apply IH.
Qed.

Lemma inDocument_updateAt (f : Element -> Element) (q : NodeId) :
  keepsChildren f ->
  forall (e : Element) (p : NodeId),
    inDocument (updateAt f e q) p = inDocument e p.
Proof.
  intro K. induction q as [|i q IH]; intros e p.
  - cbn [updateAt]. destruct p as [|j p]; [reflexivity|]. simpl. now rewrite K.
  - destruct p as [|j p]; [reflexivity|].
    cbn [updateAt inDocument]. rewrite children_withChildren, nth_error_updateNth.
    destruct (Nat.eqb j i) eqn:E; [|reflexivity].
    destruct (nth_error (children e) j) as [c|]; [|reflexivity].
    simpl. apply IH.
Qed.

Lemma mark_keepsChildren : keepsChildren Content.mark.
Proof. intro e. reflexivity. Qed.

Lemma assoc_putAttribute (h v k : string) (l : list (string * string)) :
  assoc k (putAttribute h v l)
  = if String.eqb k h then Some v else assoc k l.
Proof.
  induction l as [|[k' w] l IH]; simpl.
  - reflexivity.
  - destruct (String.eqb k' h) eqn:E; simpl.
    + apply String.eqb_eq in E. subst k'.
      destruct (String.eqb k h); reflexivity.
    + rewrite IH. destruct (String.eqb k k') eqn:E'; [|reflexivity].
      apply String.eqb_eq in E'. subst k'. now rewrite E.
Qed.

Lemma nodeEqb_eq (a b : NodeId) : nodeEqb a b = true <-> a = b.
Proof.
  unfold nodeEqb. destruct (list_eq_dec Nat.eq_dec a b); split; auto; discriminate.
Qed.

Lemma putAttribute_twice (h v : string) (l : list (string * string)) :
  putAttribute h v (putAttribute h v l) = putAttribute h v l.
Proof.
  induction l as [|[k w] l IH]; simpl.
  - now rewrite String.eqb_refl.
  - destruct (String.eqb k h) eqn:E; simpl; rewrite E; [reflexivity|].
    now rewrite IH.
Qed.

Lemma mark_twice (e : Element) : Content.mark (Content.mark e) = Content.mark e.
Proof.
  destruct e. unfold Content.mark, setAttribute, setOutline, withAttributes. simpl.
  now rewrite putAttribute_twice.
Qed.

(** What is read of an element after the found elements are marked. *)
Lemma field_highlight {A : Type} (g : Element -> A) (found : list NodeId) :
  ownField g ->
  forall (d : Document) (p : NodeId),
    g (elementAt (Content.highlight d found) p)
    = if existsb (nodeEqb p) found && inDocument d p
      then g (Content.mark (elementAt d p))
      else g (elementAt d p).
Proof.
  intro G. unfold Content.highlight.
  induction found as [|q found IH]; intros d p.
  - reflexivity.
  - cbn [fold_left]. rewrite IH.
    rewrite (inDocument_updateAt _ _ mark_keepsChildren).
    cbn [existsb]. unfold nodeEqb at 2.
    destruct (list_eq_dec Nat.eq_dec p q) as [->|N]; simpl orb.
    + destruct (inDocument d q) eqn:I.
      * rewrite (elementAt_updateAt_here _ _ _ I), mark_twice.
        now destruct (existsb (nodeEqb q) found).
      * now rewrite (updateAt_absent _ _ _ I), !andb_false_r.
    + assert (GM : ownField (fun e => g (Content.mark e))).
      { intros e c.
        change (g (withChildren (Content.mark e) c) = g (Content.mark e)).
        apply G. }
      rewrite (field_updateAt_other g _ _ G mark_keepsChildren _ _ N).
      now rewrite (field_updateAt_other _ _ _ GM mark_keepsChildren _ _ N).
Qed.

Lemma ownField_attribute (k : string) : ownField (fun e => getAttribute e k).
Proof. intros e c. reflexivity. Qed.

Lemma ownField_outline : ownField outline.
Proof. intros e c. reflexivity. Qed.

Lemma ownField_marked : ownField (fun e => hasAttribute e Content.highlightAttribute).
Proof. intros e c. reflexivity. Qed.

Lemma getAttribute_mark (e : Element) (k : string) :
  getAttribute (Content.mark e) k
  = if String.eqb k Content.highlightAttribute then Some "true" else getAttribute e k.
Proof.
  unfold getAttribute, Content.mark, setAttribute. simpl. apply assoc_putAttribute.
Qed.

Lemma hasAttribute_mark (e : Element) :
  hasAttribute (Content.mark e) Content.highlightAttribute = true.
Proof.
  unfold hasAttribute.
  pose proof (getAttribute_mark e Content.highlightAttribute) as H.
  unfold getAttribute in H. now rewrite H.
Qed.

Lemma assoc_removed (h : string) (l : list (string * string)) :
  assoc h (filter (fun kv => negb (String.eqb (fst kv) h)) l) = None.
Proof.
  induction l as [|[k v] l IH]; simpl; [reflexivity|].
  destruct (String.eqb k h) eqn:E; simpl; [exact IH|].
  rewrite String.eqb_sym, E. exact IH.
Qed.

Lemma cleared_unmarked (doc : Document) (p : NodeId) :
  marked (Content.clearHighlights doc) p = false.
Proof.
  unfold marked. rewrite elementAt_cleared. unfold Content.unmark, hasAttribute.
  destruct (assoc Content.highlightAttribute (attributes (elementAt doc p))) eqn:E.
  - simpl. now rewrite assoc_removed.
  - simpl. now rewrite E.
Qed.

Lemma outline_cleared (doc : Document) (p : NodeId) :
  outline (elementAt (Content.clearHighlights doc) p)
  = if marked doc p then EmptyString else outline (elementAt doc p).
Proof.
  unfold marked. rewrite elementAt_cleared. unfold Content.unmark.
  now destruct (hasAttribute (elementAt doc p) Content.highlightAttribute).
Qed.

Lemma inDocument_cleared (doc : Document) (p : NodeId) :
  inDocument (Content.clearHighlights doc) p = inDocument doc p.
Proof.
  destruct (inDocument doc p) eqn:E.
  - apply subtree_In. fold (allElements (Content.clearHighlights doc)).
    rewrite allElements_cleared. now apply subtree_In.
  - destruct (inDocument (Content.clearHighlights doc) p) eqn:F; [|reflexivity].
    apply subtree_In in F. fold (allElements (Content.clearHighlights doc)) in F.
    rewrite allElements_cleared in F. apply subtree_In in F. congruence.
Qed.



(** ** What the verifier reads *)

Lemma startsWith_includes (n s : string) : startsWith n s = true -> includes n s = true.
Proof. intro H. destruct s; simpl; now rewrite H. Qed.

Lemma includes_tail (n : string) (x : ascii) (s : string) :
  includes n s = true -> includes n (String x s) = true.
Proof. intro H. simpl. rewrite H. apply orb_true_r. Qed.

(** A pattern that starts with a literal matches only where the literal is. *)
Lemma search_literal (l : string) (items : list item) (s : string) (c : captures) :
  search (Lit l :: items) s = Some c -> includes l s = true.
Proof.
  induction s as [|x s IH]; simpl.
  - unfold run. simpl.
    destruct (stripPrefix l EmptyString) as [r|] eqn:E; [|discriminate].
    intros _. apply stripPrefix_startsWith in E. now rewrite E.
  - unfold run. cbn [runThen].
    destruct (stripPrefix l (String x s)) as [r|] eqn:E.
    + intros _. apply stripPrefix_startsWith in E. rewrite E. reflexivity.
    + intro H. rewrite (IH H). apply orb_true_r.
Qed.

Lemma without_append (c : ascii) (a b : string) :
  without c (a ++ b) = without c a && without c b.
Proof. apply every_append. Qed.

Lemma without_tail (c x : ascii) (s : string) :
  without c (String x s) = true -> without c s = true.
Proof. unfold without. simpl. intro H. now apply andb_prop in H as [_ H]. Qed.

Lemma without_after (c : ascii) (a b : string) :
  without c b = false -> without c (a ++ b) = false.
Proof. intro H. now rewrite without_append, H, andb_false_r. Qed.

(** The CSS pattern needs an opening parenthesis. *)
Lemma run_locatorCss_parenthesis (c : captures) (s : string) (r : captures * string) :
  run reLocatorCss c s = Some r -> without "(" s = false.
Proof.
  unfold reLocatorCss. intro H.
  change (match stripPrefix "locator" s with
          | Some s' => greedy isSpace
                         (run [Lit "("; Star isSpace; Open 1; Class isQuote; Close 1;
                               Open 2; LazyStar isDot; Close 2; Backref 1;
                               Star isSpace; Lit ")"] c) s'
          | None => None
          end = Some r) in H.
  destruct (stripPrefix "locator" s) as [s1|] eqn:E1; [|discriminate].
  apply stripPrefix_Some in E1. subst s.
  apply greedy_Some in H as [a1 [s2 [-> H]]].
  unfold run in H. cbn [runThen] in H.
  destruct (stripPrefix "(" s2) as [s3|] eqn:E2; [|discriminate].
  apply stripPrefix_Some in E2. subst s2.
  apply (without_after _ "locator"), (without_after _ a1). reflexivity.
Qed.

(** So does the call pattern. *)
Lemma run_locatorCall_parenthesis (c : captures) (s : string) (r : captures * string) :
  run reLocatorCall c s = Some r -> without "(" s = false.
Proof.
  unfold reLocatorCall. intro H.
  unfold run in H. cbn [runThen] in H.
  destruct (stripPrefix "getBy" s) as [s1|] eqn:E1; [|discriminate].
  apply stripPrefix_Some in E1. subst s.
  destruct s1 as [|x s1]; [discriminate|].
  destruct (isAlpha x); [|discriminate].
  apply greedy_Some in H as [a1 [s2 [-> H]]].
  cbn [runThen] in H.
  apply greedy_Some in H as [a2 [s3 [-> H]]].
  cbn [runThen] in H.
  destruct (stripPrefix "(" s3) as [s4|] eqn:E2; [|discriminate].
  apply stripPrefix_Some in E2. subst s3.
  apply (without_after _ "getBy"), (without_after _ (String x a1)),
    (without_after _ a2). reflexivity.
Qed.

Lemma search_needs (items : list item) (P : string -> bool) :
  (forall x s, P (String x s) = true -> P s = true) ->
  (forall c s r, run items c s = Some r -> P s = false) ->
  forall s, P s = true -> search items s = None.
Proof.
  intros T R. induction s as [|x s IH]; intro H.
  - simpl. destruct (run items noCaptures EmptyString) as [[c r]|] eqn:E; [|reflexivity].
    apply R in E. congruence.
  - simpl. destruct (run items noCaptures (String x s)) as [[c r]|] eqn:E.
    + apply R in E. congruence.
    + apply IH. now apply (T x).
Qed.

Lemma search_without_parenthesis (s : string) :
  without "(" s = true ->
  search reLocatorCall s = None /\ search reLocatorCss s = None.
Proof.
  intro H. split.
  - apply (search_needs _ (without "("));
      [intros x s'; apply without_tail
      |intros c s' r; apply run_locatorCall_parenthesis|exact H].
  - apply (search_needs _ (without "("));
      [intros x s'; apply without_tail
      |intros c s' r; apply run_locatorCss_parenthesis|exact H].
Qed.

(** A text without opening parenthesis is no call for the verifier: it
    finds what the engine finds for the text as a selector, and nothing when
    the engine raises a syntax error or the text holds [getBy]. *)
Theorem X_verifier_without_parenthesis :
  forall (engine : SelectorEngine) (doc : Document) (locatorString : string),
    without "(" locatorString = true ->
    Content.findElements engine doc locatorString
    = Return (if includes "getBy" locatorString then []
              else match querySelectorAll engine doc None locatorString with
                   | Some cssElements => cssElements
                   | None => []
                   end).
Proof.
  intros engine doc text W.
  destruct (search_without_parenthesis text W) as [C1 C2].
  unfold Content.findElements. rewrite C1, C2.
  destruct (querySelectorAll engine doc None text) as [l|];
    destruct (includes "getBy" text); simpl; try reflexivity.
  - now rewrite andb_false_r.
  - rewrite andb_true_r. destruct l; reflexivity.
Qed.

(** The theorem at a type selector. *)
Lemma X_verifier_without_parenthesis_witness :
  Content.findElements typeSelectorEngine twoButtons "button"
  = Return [[1; 0; 0]; [1; 0; 1]].
Proof.
  apply (X_verifier_without_parenthesis typeSelectorEngine twoButtons "button").
  reflexivity.
Defined.

(** The verifier raises no exception for a text that does not hold
    [locator]: it returns a count, and marks what it found. *)
Theorem X_verifier_raises_only_for_locator :
  forall (engine : SelectorEngine) (doc : Document) (locatorString : string),
    includes "locator" locatorString = false ->
    exists found,
      Content.findElements engine (Content.clearHighlights doc) locatorString
        = Return found
      /\ Content.findAndHighlight engine doc locatorString
         = (Content.highlight (Content.clearHighlights doc) found,
            Return (List.length found)).
Proof.
  intros engine doc text H.
  assert (C : search reLocatorCss text = None).
  { destruct (search reLocatorCss text) as [c|] eqn:E; [|reflexivity].
    apply search_literal in E. congruence. }
  unfold Content.findAndHighlight, Content.findElements. rewrite C.
  set (first := match querySelectorAll engine (Content.clearHighlights doc) None text with
                | Some cssElements => _
                | None => []
                end).
  destruct (List.length first =? 0)%nat;
    [destruct (search reLocatorCall text) as [m|];
     [destruct (search reQuoted (trim (group 2 m))) as [a|]|]|];
    eexists; split; reflexivity.
Qed.

(** The theorem at a call the verifier cannot read. *)
Lemma X_verifier_raises_only_for_locator_witness :
  exists found,
    Content.findElements typeSelectorEngine (Content.clearHighlights twoButtons)
                         "getByRole([" = Return found
    /\ Content.findAndHighlight typeSelectorEngine twoButtons "getByRole(["
       = (Content.highlight (Content.clearHighlights twoButtons) found,
          Return (List.length found)).
Proof.
  apply (X_verifier_raises_only_for_locator typeSelectorEngine twoButtons "getByRole([").
  reflexivity.
Defined.

Lemma search_locatorCss_none (s : string) :
  includes "locator" s = false -> search reLocatorCss s = None.
Proof.
  intro H. destruct (search reLocatorCss s) as [c|] eqn:E; [|reflexivity].
  apply search_literal in E. congruence.
Qed.



(** The CSS pattern at a call of [locator] with a double-quoted argument. *)
Lemma run_locatorCss_call (css rest : string) :
  every plainChar css = true ->
  exists c,
    run reLocatorCss noCaptures ("locator(" ++ dq css ++ ")" ++ rest) = Some (c, rest)
    /\ group 2 c = css.
Proof.
  intro V.
  set (whole := css ++ String dquote (")" ++ rest)).
  set (c1 := openGroup 1 (String dquote whole) noCaptures).
  set (c2 := mkCaptures (opened c1) ((1, String dquote EmptyString) :: closed c1)).
  set (c3 := openGroup 2 whole c2).
  set (c4 := mkCaptures (opened c3) ((2, css) :: closed c3)).
  exists c4. split; [|reflexivity].
  assert (E : "locator(" ++ dq css ++ ")" ++ rest
              = "locator(" ++ String dquote whole).
  { unfold dq, whole. cbn [append]. do 9 f_equal. now rewrite append_assoc. }
  rewrite E. clear E.
  assert (K4 : run [Close 2; Backref 1; Star isSpace; Lit ")"] c3
                   (String dquote (")" ++ rest)) = Some (c4, rest)).
  { change (run [Backref 1; Star isSpace; Lit ")"]
                (closeGroup 2 (String dquote (")" ++ rest)) c3)
                (String dquote (")" ++ rest)) = Some (c4, rest)).
    rewrite (closeGroup_text 2 css (String dquote (")" ++ rest)) c3) by reflexivity.
    fold c4. unfold run. cbn [runThen]. change (group 1 c4) with (String dquote EmptyString).
    cbn [stripPrefix append]. rewrite Ascii.eqb_refl.
    cbn [greedy runThen stripPrefix]. reflexivity. }
  assert (K3 : lazy isDot (run [Close 2; Backref 1; Star isSpace; Lit ")"] c3) whole
               = Some (c4, rest)).
  { unfold whole. rewrite (lazy_skips isDot _ (Ascii.eqb dquote)).
    - apply lazy_here. exact K4.
    - apply (every_weaken plainChar); [|exact V].
      intros y Y. unfold plainChar in Y. apply andb_prop in Y as [Y1 Y2].
      rewrite Y2. destruct (Ascii.eqb dquote y) eqn:E; [|reflexivity].
      apply Ascii.eqb_eq in E. subst y. discriminate.
    - intros x t X.
      change (run [Backref 1; Star isSpace; Lit ")"]
                  (closeGroup 2 (String x t) c3) (String x t) = None).
      unfold run. cbn [runThen].
      assert (G : group 1 (closeGroup 2 (String x t) c3) = String dquote EmptyString).
      { unfold closeGroup. simpl. reflexivity. }
      rewrite G. cbn [stripPrefix]. now rewrite X. }
  change (greedy isSpace
            (run [Lit "("; Star isSpace; Open 1; Class isQuote; Close 1;
                  Open 2; LazyStar isDot; Close 2; Backref 1; Star isSpace; Lit ")"]
                 noCaptures)
            (String "(" (String dquote whole)) = Some (c4, rest)).
  rewrite greedy_stops by reflexivity.
  change (greedy isSpace
            (run [Open 1; Class isQuote; Close 1;
                  Open 2; LazyStar isDot; Close 2; Backref 1; Star isSpace; Lit ")"]
                 noCaptures)
            (String dquote whole) = Some (c4, rest)).
  rewrite greedy_stops by reflexivity.
  change (lazy isDot (run [Close 2; Backref 1; Star isSpace; Lit ")"]
                          (openGroup 2 whole (closeGroup 1 whole c1))) whole
          = Some (c4, rest)).
  rewrite (closeGroup_text 1 (String dquote EmptyString) whole c1) by reflexivity.
  exact K3.
Qed.

Lemma firstQuery_idle (engine : SelectorEngine) (doc : Document) (text : string) :
  firstQueryIdle engine doc text ->
  match querySelectorAll engine doc None text with
  | Some cssElements =>
      if (0 <? List.length cssElements)%nat && negb (includes "getBy" text)
      then cssElements else []
  | None => []
  end = [].
Proof.
  intros [G|[N|E]].
  - rewrite G. destruct (querySelectorAll engine doc None text); [|reflexivity].
    now rewrite andb_false_r.
  - now rewrite N.
  - now rewrite E.
Qed.

(** Of a text with a call of [locator] the verifier reads the first such
    call whose argument is between double quotes: it finds what the engine
    finds in the whole document for that argument, whatever stands before
    and behind the call, and raises the syntax error of the engine. *)
Theorem X_verifier_reads_locator :
  forall (engine : SelectorEngine) (doc : Document) (owner css rest : string),
    includes "locator" owner = false -> every plainChar css = true ->
    let text := owner ++ ".locator(" ++ dq css ++ ")" ++ rest in
    firstQueryIdle engine doc text ->
    Content.findElements engine doc text
    = engineResult (querySelectorAll engine doc None css).
Proof.
  intros engine doc owner css rest O V text I.
  unfold Content.findElements. rewrite (firstQuery_idle _ _ _ I).
  cbn [List.length Nat.eqb].
  destruct (run_locatorCss_call css rest V) as [c [R G]].
  assert (S : search reLocatorCss text = Some c).
  { unfold text, reLocatorCss.
    change (".locator(" ++ dq css ++ ")" ++ rest)
      with (String "." ("locator(" ++ dq css ++ ")" ++ rest)).
    rewrite search_literal_skip by (reflexivity || exact O).
    rewrite search_next by reflexivity.
    apply (search_here _ _ rest). exact R. }
  rewrite S, G. reflexivity.
Qed.

(** The theorem at a chained call of [locator]: the verifier finds the buttons
    of the whole document. *)
Lemma X_verifier_reads_locator_witness :
  Content.findElements typeSelectorEngine twoButtons
    ("page.getByRole(" ++ dq "form" ++ ").locator(" ++ dq "button" ++ ")")
  = Return [[1; 0; 0]; [1; 0; 1]].
Proof.
  apply (X_verifier_reads_locator typeSelectorEngine twoButtons
           ("page.getByRole(" ++ dq "form" ++ ")") "button" EmptyString).
  - reflexivity.
  - reflexivity.
  - left. reflexivity.
Defined.

Lemma search_locatorCall_none (s : string) :
  includes "getBy" s = false -> search reLocatorCall s = None.
Proof.
  induction s as [|x s IH]; intro H.
  - reflexivity.
  - rewrite search_next.
    + apply IH. now apply includes_rest in H.
    + unfold run, reLocatorCall. cbn [runThen].
      now rewrite (startsWith_stripPrefix _ _ (includes_startsWith _ _ H)).
Qed.

(** A text that holds neither [getBy] nor [locator] is a selector for the
    verifier, and nothing else. *)
Lemma findElements_css_only (engine : SelectorEngine) (doc : Document) (text : string) :
  includes "getBy" text = false -> includes "locator" text = false ->
  Content.findElements engine doc text
  = Return (match querySelectorAll engine doc None text with
            | Some cssElements => cssElements
            | None => []
            end).
Proof.
  intros G L. unfold Content.findElements.
  rewrite (search_locatorCall_none text G), (search_locatorCss_none text L), G.
  destruct (querySelectorAll engine doc None text) as [[|x l]|]; reflexivity.
Qed.

Lemma renderStrategy_pytest_occurs (n : string) (s : Strategy) :
  n = "getBy" \/ n = "locator" ->
  includes n (renderStrategy true s) = occursInStrategy n s.
Proof.
  intro H.
  assert (W : without dquote n = true) by (destruct H as [->| ->]; reflexivity).
  assert (N : nonEmpty n = true) by (destruct H as [->| ->]; reflexivity).
  destruct s as [v|r m|v|v|v|v]; unfold renderStrategy, occursInStrategy;
    try match goal with
    | |- includes n (formatLocator true ?m ?v None) = _ =>
        destruct (formatLocator_shape true m v None) as [pre [post [E [P Q]]]];
        rewrite E, (includes_quoted n pre _ _ W N); subst pre post
    | |- includes n (formatLocator true ?m ?v exactOption) = _ =>
        destruct (formatLocator_shape true m v exactOption) as [pre [post [E [P Q]]]];
        rewrite E, (includes_quoted n pre _ _ W N); subst pre post
    end;
    try (destruct H as [->| ->]; simpl; now rewrite orb_false_r).
  assert (E : formatLocator true "getByRole" r (roleNameOptions m)
              = "page.get_by_role(" ++ String dquote
                  (escapeStr r ++ String dquote
                     (", name=" ++ String dquote
                        (escapeStr m ++ String dquote ", exact=True)")))).
  { unfold formatLocator, roleNameOptions, quoted. cbn [map join pytestOption].
    unfold quoted. cbn [append snakeCase isUpper]. rewrite !append_assoc.
    cbn [append]. rewrite ?append_assoc. reflexivity. }
  rewrite E, !(includes_around dquote) by assumption.
  destruct H as [->| ->]; simpl; now rewrite !orb_false_r.
Qed.

(** The verifier does not read the spelling of the pytest dialect: a text
    the generator writes for pytest, whose values hold neither [getBy] nor
    [locator], is a selector for it, so that it finds what the engine finds
    for the whole text, and nothing when the engine raises a syntax error. *)
Theorem X_pytest_locator_not_verified :
  forall (engine : SelectorEngine) (doc : Document) (s : Strategy),
    occursInStrategy "getBy" s = false ->
    occursInStrategy "locator" s = false ->
    let text := renderStrategy true s in
    let cleared := Content.clearHighlights doc in
    let found := match querySelectorAll engine cleared None text with
                 | Some cssElements => cssElements
                 | None => []
                 end in
    Content.findAndHighlight engine doc text
    = (Content.highlight cleared found, Return (List.length found)).
Proof.
  intros engine doc s G L text cleared found.
  unfold Content.findAndHighlight. fold cleared.
  rewrite findElements_css_only; [reflexivity| |].
  - unfold text. rewrite renderStrategy_pytest_occurs; [exact G|now left].
  - unfold text. rewrite renderStrategy_pytest_occurs; [exact L|now right].
Qed.

(** The theorem at the locator of a button of [twoButtons] for pytest. *)
Lemma X_pytest_locator_not_verified_witness :
  Content.generateBestLocator typeSelectorEngine twoButtons "pytest" 1 [1; 0; 0]
    = Some (Return (renderStrategy true (RoleName "button" "Submit")))
  /\ Content.findAndHighlight typeSelectorEngine twoButtons
       (renderStrategy true (RoleName "button" "Submit"))
     = (Content.clearHighlights twoButtons, Return 0).
Proof.
  split; [reflexivity|].
  apply (X_pytest_locator_not_verified typeSelectorEngine twoButtons
           (RoleName "button" "Submit")); reflexivity.
Defined.

(** ** The results of the generator *)

Lemma elementAt_absent (p : NodeId) :
  forall e : Element, inDocument e p = false -> elementAt e p = noElement.
Proof.
  induction p as [|i q IH]; intros e H; [discriminate|]. simpl in *.
  destruct (nth_error (children e) i) as [c|]; [now apply IH|reflexivity].
Qed.

Lemma textRoles_all (doc : Document) :
  textRoles doc = true ->
  forall (n : NodeId) (k : string),
    getImplicitRole (elementAt doc n) <> Some (Inherited k).
Proof.
  intros T n k. destruct (inDocument doc n) eqn:D.
  - unfold textRoles in T. rewrite forallb_forall in T.
    apply subtree_In in D. specialize (T n D).
    destruct (getImplicitRole (elementAt doc n)) as [[r|x]|]; discriminate.
  - now rewrite (elementAt_absent _ _ D).
Qed.

Section Safe.

Variable engine : SelectorEngine.
Variable getAccessibleName : Document -> NodeId -> string.
Variable fallbackComment : bool -> string.
Variable doc : Document.
Variable framework : string.

Let body := Generator.generateBestLocatorBody engine getAccessibleName
              fallbackComment doc framework.
Let generate := Generator.generateBestLocator engine getAccessibleName
                  fallbackComment doc framework.
Let loop := Generator.ancestorLoop engine doc framework.

Lemma filterM_returns {A : Type} (f : A -> Completion bool) (l : list A) :
  (forall x, exists b, f x = Return b) -> exists r, filterM f l = Return r.
Proof.
  intro H. induction l as [|x l [r IH]]; simpl; [now exists []|].
  destruct (H x) as [b ->]. rewrite IH. simpl. eexists. reflexivity.
Qed.

Lemma getRelativeCSS_returns (element parent : NodeId) :
  quiet engine -> exists css, getRelativeCSS engine doc element (Some parent) = Return css.
Proof.
  intros [Q _]. unfold getRelativeCSS.
  match goal with
  | |- context [filterM ?f ?l] => destruct (filterM_returns f l) as [r R]
  end.
  - intro x.
    destruct (matches engine doc x _) as [b|] eqn:E; [now exists b|].
    now apply Q in E.
  - rewrite R. simpl. destruct (1 <? List.length r)%nat; eexists; reflexivity.
Qed.

Lemma loop_returns_text (self : NodeId -> option (Completion string))
    (element : NodeId) (role : option RoleValue) (remaining : nat) :
  quiet engine -> (forall k, role <> Some (Inherited k)) ->
  forall parent : option NodeId,
    (forall a, In a (ancestorsVisited doc remaining parent) ->
               exists t, self a = Some (Return t)) ->
    exists r, loop self element role remaining parent = Some (Return r).
Proof.
  intros Q T. induction remaining as [|n IH]; intros parent H; [now exists None|].
  destruct parent as [p|]; [|now exists None].
  unfold loop in *. cbn [Generator.ancestorLoop ancestorsVisited] in *.
  destruct (String.eqb (tagName (elementAt doc p)) "BODY"); [now exists None|].
  destruct (H p (or_introl eq_refl)) as [t ->].
  destruct (IH (parentElement p)) as [next N].
  { intros a Ha. apply H. right. exact Ha. }
  rewrite N.
  destruct (Generator.stableLocator t); [|now exists next].
  destruct (match role with Some r => _ | None => false end) eqn:U.
  { destruct role as [[r|k]|]; [eexists; reflexivity| |discriminate].
    now destruct (T k). }
  destruct (getRelativeCSS_returns element p Q) as [css ->].
  destruct Q as [_ Q].
  destruct (querySelectorAll engine doc (Some p) css) as [found|] eqn:E;
    [|now apply Q in E].
  destruct (List.length found =? 1)%nat; [eexists; reflexivity|now exists next].
Qed.

Lemma body_returns_text (self : NodeId -> option (Completion string))
    (element parent : NodeId) :
  quiet engine -> textRoles doc = true -> parentElement element = Some parent ->
  (forall a, In a (ancestorsVisited doc 4 (parentElement element)) ->
             exists t, self a = Some (Return t)) ->
  exists t, body self element = Some (Return t).
Proof.
  intros Q T P H. unfold body, Generator.generateBestLocatorBody.
  pose proof (textRoles_all doc T element) as TE.
  assert (F : forall o,
            truthyRole (getImplicitRole (elementAt doc element)) = true ->
            exists t, Some (formatRoleLocator (Generator.isPytest framework)
                              (getImplicitRole (elementAt doc element)) o)
                      = Some (Return t)).
  { intros o. destruct (getImplicitRole (elementAt doc element)) as [[r|k]|];
      [eexists; reflexivity|now destruct (TE k)|discriminate]. }
  destruct (truthy (testIdOf (elementAt doc element))); [eexists; reflexivity|].
  destruct (truthyRole (getImplicitRole (elementAt doc element))
            && nonEmpty (getAccessibleName doc element)) eqn:RN.
  { apply andb_prop in RN as [RN _]. now apply F. }
  destruct (truthy (getAttribute (elementAt doc element) "placeholder"));
    [eexists; reflexivity|].
  destruct (truthy (getAttribute (elementAt doc element) "alt"));
    [eexists; reflexivity|].
  destruct (nonEmpty (getAccessibleName doc element)); [eexists; reflexivity|].
  destruct (match getImplicitRole (elementAt doc element) with
            | Some r => isLocatorUniqueInScope doc "getByRole" r element None
            | None => false
            end) eqn:U.
  { apply F. destruct (getImplicitRole (elementAt doc element)) as [r|] eqn:R;
      [|discriminate].
    now apply (getImplicitRole_truthy (elementAt doc element)). }
  destruct (loop_returns_text self element
              (getImplicitRole (elementAt doc element)) 4 Q TE _ H) as [r R].
  unfold loop in R. rewrite R. destruct r as [chained|]; [eexists; reflexivity|].
  rewrite P. destruct (getRelativeCSS_returns element parent Q) as [css ->].
  eexists. reflexivity.
Qed.

Lemma visited_withinBody (remaining : nat) :
  forall (p a : NodeId),
    withinBody doc p ->
    In a (ancestorsVisited doc remaining (Some p)) -> belowBody doc a.
Proof.
  induction remaining as [|n IH]; intros p a W H; [contradiction|].
  cbn [ancestorsVisited] in H.
  destruct (String.eqb (tagName (elementAt doc p)) "BODY") eqn:B; [contradiction|].
  destruct W as [b [rest [E T]]].
  assert (R : rest <> []).
  { intros ->. rewrite app_nil_r in E. subst p. rewrite T in B. discriminate. }
  destruct H as [<-|H].
  - exists b, rest. auto.
  - assert (P : parentElement p = Some (b ++ removelast rest)%list).
    { subst p. destruct (b ++ rest)%list eqn:X.
      - now apply app_eq_nil in X as [_ X].
      - rewrite <- X. unfold parentElement. rewrite X, <- X.
        now rewrite removelast_app. }
    rewrite P in H. apply (IH (b ++ removelast rest)%list a); [|exact H].
    exists b, (removelast rest). auto.
Qed.

Lemma belowBody_parent (element : NodeId) :
  belowBody doc element ->
  exists parent, parentElement element = Some parent /\ withinBody doc parent.
Proof.
  intros [b [rest [E [R T]]]].
  exists (b ++ removelast rest)%list. split.
  - subst element. destruct (b ++ rest)%list eqn:X.
    + now apply app_eq_nil in X as [_ X].
    + rewrite <- X. unfold parentElement. rewrite X, <- X.
      now rewrite removelast_app.
  - exists b, (removelast rest). auto.
Qed.

Lemma generate_returns_text (fuel : nat) :
  quiet engine -> textRoles doc = true ->
  forall element : NodeId,
    belowBody doc element -> List.length element < fuel ->
    exists t, generate fuel element = Some (Return t).
Proof.
  intros Q T. induction fuel as [|f IH]; intros element B L; [lia|].
  change (exists t, body (generate f) element = Some (Return t)).
  destruct (belowBody_parent element B) as [parent [P W]].
  apply (body_returns_text _ _ parent Q T P).
  intros a Ha.
  pose proof (visited_strict doc element a Ha) as [S _].
  apply strictAncestor_shorter in S.
  rewrite P in Ha. apply IH; [|lia].
  now apply (visited_withinBody 4 parent).
Qed.

Lemma startsWith_append (p a b : string) :
  startsWith p a = true -> startsWith p (a ++ b) = true.
Proof.
  revert a. induction p as [|x p IH]; intros a H; [reflexivity|].
  destruct a as [|y a]; [discriminate|]. simpl in *.
  apply andb_prop in H as [E H]. now rewrite E, IH.
Qed.

Lemma formatLocator_page (b : bool) (method value : string)
    (options : option (list (string * OptionValue))) :
  startsWith "page." (formatLocator b method value options) = true.
Proof. destruct options; reflexivity. Qed.

Lemma returned_text (a b : string) : Some (Return a) = Some (Return b) -> a = b.
Proof. now intros [= ->]. Qed.

Lemma loop_page (self : NodeId -> option (Completion string))
    (element : NodeId) (role : option RoleValue) (remaining : nat) :
  (forall a t, self a = Some (Return t) -> startsWith "page." t = true) ->
  forall (parent : option NodeId) (t : string),
    loop self element role remaining parent = Some (Return (Some t)) ->
    startsWith "page." t = true.
Proof.
  intro S. induction remaining as [|n IH]; intros parent t H; [discriminate|].
  destruct parent as [p|]; [|discriminate].
  unfold loop in *. cbn [Generator.ancestorLoop] in H.
  destruct (String.eqb (tagName (elementAt doc p)) "BODY"); [discriminate|].
  destruct (self p) as [[parentLocator|e]|] eqn:SP; try discriminate.
  pose proof (S p parentLocator SP) as PL.
  destruct (Generator.stableLocator parentLocator); [|now apply (IH _ _ H)].
  destruct (match role with Some r => _ | None => false end).
  - destruct (formatRoleLocator _ role None); [|discriminate].
    injection H as E. subst t. now apply startsWith_append.
  - destruct (getRelativeCSS engine doc element (Some p)) as [css|e]; [|discriminate].
    destruct (querySelectorAll engine doc (Some p) css) as [found|]; [|discriminate].
    destruct (List.length found =? 1)%nat; [|now apply (IH _ _ H)].
    injection H as E. subst t. now apply startsWith_append.
Qed.

Lemma body_page (self : NodeId -> option (Completion string))
    (element : NodeId) (t : string) :
  (forall a t, self a = Some (Return t) -> startsWith "page." t = true) ->
  body self element = Some (Return t) -> startsWith "page." t = true.
Proof.
  intros S. unfold body, Generator.generateBestLocatorBody.
  assert (F : forall r o,
            Some (formatRoleLocator (Generator.isPytest framework) r o)
            = Some (Return t) -> startsWith "page." t = true).
  { intros [[r|k]|] o E; try discriminate.
    apply returned_text in E. subst t. apply formatLocator_page. }
  repeat match goal with
         | |- (if ?c then Some (formatRoleLocator _ _ _) else _) = _ -> _ =>
             destruct c; [apply F|]
         | |- (if ?c then _ else _) = _ -> _ =>
             destruct c;
             [intro E; apply returned_text in E; subst t; apply formatLocator_page|]
         end.
  destruct (Generator.ancestorLoop engine doc framework self element
              (getImplicitRole (elementAt doc element)) 4 (parentElement element))
    as [[[chained|]|e]|] eqn:L; try discriminate.
  - intro E. apply returned_text in E. subst t.
    now apply (loop_page self element _ 4 S _ _ L).
  - destruct (getRelativeCSS engine doc element (parentElement element));
      [|discriminate].
    intro E. apply returned_text in E. subst t. reflexivity.
Qed.

Lemma generate_page (fuel : nat) :
  forall (element : NodeId) (t : string),
    generate fuel element = Some (Return t) -> startsWith "page." t = true.
Proof.
  induction fuel as [|f IH]; intros element t H; [discriminate|].
  apply (body_page (generate f) element t IH H).
Qed.

End Safe.



Lemma named_returns (engine1 engine2 : SelectorEngine)
    (name : Document -> NodeId -> string) (comment : bool -> string)
    (doc : Document) (framework : string)
    (self1 self2 : NodeId -> option (Completion string)) (element : NodeId) :
  named name doc element = true ->
  exists result,
    Generator.generateBestLocatorBody engine1 name comment doc framework self1 element
      = Some result
    /\ Generator.generateBestLocatorBody engine2 name comment doc framework self2 element
      = Some result.
Proof.
  unfold named, Generator.generateBestLocatorBody. intro H.
  destruct (truthy (testIdOf (elementAt doc element)));
    [eexists; split; reflexivity|].
  destruct (truthyRole (getImplicitRole (elementAt doc element))
            && nonEmpty (name doc element));
    [eexists; split; reflexivity|].
  destruct (truthy (getAttribute (elementAt doc element) "placeholder"));
    [eexists; split; reflexivity|].
  destruct (truthy (getAttribute (elementAt doc element) "alt"));
    [eexists; split; reflexivity|].
  destruct (nonEmpty (name doc element));
    [eexists; split; reflexivity|discriminate].
Qed.



(** Every text the generator returns starts with [page.], and so is not
    empty: the test of the click handler for an empty result never fails. *)
Theorem X_generator_text_starts_with_page :
  forall (engine : SelectorEngine) (getAccessibleName : Document -> NodeId -> string)
         (fallbackComment : bool -> string) (doc : Document) (framework : string)
         (fuel : nat) (element : NodeId) (text : string),
    Generator.generateBestLocator engine getAccessibleName fallbackComment
                                  doc framework fuel element
    = Some (Return text) ->
    startsWith "page." text = true /\ nonEmpty text = true.
Proof.
  intros engine name comment doc framework fuel element text H.
  pose proof (generate_page engine name comment doc framework fuel element text H) as P.
  split; [exact P|]. destruct text; [discriminate|reflexivity].
Qed.

(** The theorem at a button of [twoButtons]. *)
Lemma X_generator_text_starts_with_page_witness :
  startsWith "page." ("page.getByRole(" ++ dq "button" ++ ", { name: " ++ dq "Submit"
                      ++ ", exact: true })") = true.
Proof.
  apply (X_generator_text_starts_with_page typeSelectorEngine Content.getAccessibleName
           Content.fallbackComment twoButtons "js" 1 [1; 0; 0]).
  reflexivity.
Defined.

Lemma inherited_not_mapped (k : string) (table : list (string * string)) :
  table = roleMappings \/ table = inputTypeRoles ->
  existsb (String.eqb k) inheritedKeys = true -> assoc k table = None.
Proof.
  intros T H. apply existsb_exists in H as [x [I E]].
  apply String.eqb_eq in E. subst x.
  unfold inheritedKeys in I.
  repeat (destruct I as [<-|I]; [destruct T as [->| ->]; reflexivity|]).
  contradiction.
Qed.

Lemma tableLookup_inherited (key k : string) (table : list (string * string)) :
  table = roleMappings \/ table = inputTypeRoles ->
  (tableLookup key table = Some (Inherited k)
   <-> key = k /\ existsb (String.eqb k) inheritedKeys = true).
Proof.
  intro T. unfold tableLookup. split.
  - destruct (assoc key table); [discriminate|].
    destruct (existsb (String.eqb key) inheritedKeys) eqn:E; [|discriminate].
    intros [= <-]. now split.
  - intros [-> E]. now rewrite (inherited_not_mapped k table T E), E.
Qed.

(** The role of an element is an inherited value exactly when the element
    has no [role] attribute and its lower-case tag, or the type of an
    input, is the name of an inherited property.  Then the verifier matches
    the element for no role, and the generator, when the element has no
    test id, raises a type error as soon as it writes the role: for an
    element with an accessible name, in both copies of the content script
    and for every framework. *)
Theorem X_inherited_role_raises :
  forall (engine : SelectorEngine) (doc : Document) (framework : string)
         (fuel : nat) (element : NodeId) (k : string),
    let el := elementAt doc element in
    (getImplicitRole el = Some (Inherited k)
     <-> truthy (getAttribute el "role") = false
         /\ existsb (String.eqb k) inheritedKeys = true
         /\ (localName el = k
             \/ (localName el = "input" /\ getAttribute el "type" = Some k)))
    /\ (getImplicitRole el = Some (Inherited k) ->
        (forall rawArgs value,
           Content.matchesLocator doc "getByRole" rawArgs value element = false)
        /\ (truthy (testIdOf el) = false ->
            nonEmpty (Content.getAccessibleName doc element) = true ->
            Content.generateBestLocator engine doc framework (S fuel) element
            = Some (Throw TypeError))
        /\ (truthy (testIdOf el) = false ->
            nonEmpty (PopupContent.getAccessibleName doc element) = true ->
            PopupContent.generateBestLocator engine doc framework (S fuel) element
            = Some (Throw TypeError))).
Proof.
  intros engine doc framework fuel element k el. split.
  - unfold getImplicitRole.
    destruct (truthy (getAttribute el "role")) eqn:R.
    { split.
      - destruct (getAttribute el "role"); discriminate.
      - intros [H _]. discriminate. }
    destruct (tableLookup (localName el) roleMappings) as [r|] eqn:M.
    { split.
      - intros [= ->].
        apply (tableLookup_inherited _ _ roleMappings (or_introl eq_refl)) in M
          as [M E].
        auto.
      - intros [_ [E [L|[L T]]]].
        + rewrite <- L in E.
          assert (X : tableLookup (localName el) roleMappings
                      = Some (Inherited (localName el)))
            by (apply tableLookup_inherited; auto).
          rewrite X in M. injection M as <-. now rewrite L.
        + rewrite L in M. discriminate. }
    destruct (String.eqb (localName el) "input") eqn:I.
    + apply String.eqb_eq in I.
      destruct (getAttribute el "type") as [t|] eqn:T.
      * destruct (tableLookup t inputTypeRoles) as [r|] eqn:X.
        -- split.
           ++ intros [= ->].
              apply (tableLookup_inherited _ _ inputTypeRoles (or_intror eq_refl))
                in X as [-> E].
              auto.
           ++ intros [_ [E [L|[_ [= ->]]]]].
              ** rewrite <- L, I in E. discriminate.
              ** assert (Y : tableLookup k inputTypeRoles = Some (Inherited k))
                   by (apply tableLookup_inherited; auto).
                 rewrite Y in X. now injection X as <-.
        -- split; [discriminate|].
           intros [_ [E [L|[_ [= ->]]]]].
           ++ rewrite <- L, I in E. discriminate.
           ++ assert (Y : tableLookup k inputTypeRoles = Some (Inherited k))
                by (apply tableLookup_inherited; auto).
              rewrite Y in X. discriminate.
      * split; [discriminate|].
        intros [_ [E [L|[_ X]]]]; [|discriminate].
        rewrite <- L, I in E. discriminate.
    + split; [discriminate|].
      intros [_ [E [L|[L _]]]].
      * rewrite <- L in E.
        assert (X : tableLookup (localName el) roleMappings
                    = Some (Inherited (localName el)))
          by (apply tableLookup_inherited; auto).
        rewrite X in M. discriminate.
      * rewrite L in I. discriminate.
  - intro R. split; [|split].
    + intros rawArgs value. unfold Content.matchesLocator. fold el. rewrite R.
      cbn [String.eqb Ascii.eqb Bool.eqb roleIsText andb].
      now destruct (search reNameOption rawArgs).
    + intros T A. unfold Content.generateBestLocator.
      cbn [Generator.generateBestLocator].
      unfold Generator.generateBestLocatorBody. fold el. now rewrite T, R, A.
    + intros T A. unfold PopupContent.generateBestLocator.
      cbn [Generator.generateBestLocator].
      unfold Generator.generateBestLocatorBody. fold el. now rewrite T, R, A.
Qed.

(** The theorem at the element of [constructorPage]. *)
Lemma X_inherited_role_raises_witness :
  getImplicitRole (elementAt constructorPage [1; 0]) = Some (Inherited "constructor")
  /\ Content.generateBestLocator typeSelectorEngine constructorPage "js" 1 [1; 0]
     = Some (Throw TypeError)
  /\ Content.matchesLocator constructorPage "getByRole" (dq "constructor")
                            "constructor" [1; 0] = false.
Proof.
  destruct (X_inherited_role_raises typeSelectorEngine constructorPage "js" 0 [1; 0]
              "constructor") as [[_ C] H].
  assert (R : getImplicitRole (elementAt constructorPage [1; 0])
              = Some (Inherited "constructor")).
  { apply C. split; [reflexivity|]. split; [reflexivity|]. left. reflexivity. }
  destruct (H R) as [M [G _]].
  split; [exact R|]. split; [apply G; reflexivity|apply M].
Defined.

(** A separator of the copy button starts where a blank is: it does not
    start in a text that holds none, continued by a blank. *)
Lemma beforeComment_append (a b : string) :
  noComment a = true ->
  startsWith " #" b || startsWith " //" b = true ->
  Content.beforeComment (a ++ b) = a.
Proof.
  intros N B. induction a as [|c a IH].
  - cbn [append]. destruct b as [|x b]; [discriminate|].
    cbn [Content.beforeComment]. now rewrite B.
  - unfold noComment in N. apply andb_prop in N as [N1 N2].
    apply negb_true_iff in N1, N2.
    assert (Na : noComment a = true).
    { unfold noComment.
      now rewrite (includes_rest _ _ _ N1), (includes_rest _ _ _ N2). }
    cbn [append Content.beforeComment]. rewrite (IH Na).
    apply includes_startsWith in N1, N2.
    destruct b as [|x b]; [discriminate|].
    assert (X : x = " "%char).
    { change (Ascii.eqb " " x && startsWith "#" b
              || Ascii.eqb " " x && startsWith "//" b = true) in B.
      destruct (Ascii.eqb " " x) eqn:E; [|discriminate].
      now apply Ascii.eqb_eq in E. }
    subst x.
    change (startsWith " #" (String c (a ++ String " " b)))
      with (Ascii.eqb " " c && startsWith "#" (a ++ String " " b)).
    change (startsWith " //" (String c (a ++ String " " b)))
      with (Ascii.eqb " " c && startsWith "//" (a ++ String " " b)).
    rewrite !(startsWith_before " ") by reflexivity.
    change (Ascii.eqb " " c && startsWith "#" a) with (startsWith " #" (String c a)).
    change (Ascii.eqb " " c && startsWith "//" a) with (startsWith " //" (String c a)).
    now rewrite N1, N2.
Qed.

Lemma beforeComment_whole (a : string) : noComment a = true -> Content.beforeComment a = a.
Proof.
  intro N. induction a as [|c a IH]; [reflexivity|].
  unfold noComment in N. apply andb_prop in N as [N1 N2].
  apply negb_true_iff in N1, N2.
  assert (Na : noComment a = true).
  { unfold noComment.
    now rewrite (includes_rest _ _ _ N1), (includes_rest _ _ _ N2). }
  cbn [Content.beforeComment]. rewrite (IH Na).
  apply includes_startsWith in N1, N2. now rewrite N1, N2.
Qed.

(** The copy button.  Of a text with a comment, or with anything else
    behind a blank and a hash or two slashes, it copies what is before,
    trimmed; a text without such a separator is copied whole, trimmed.  So
    the fallback locator of the content script is copied without its
    comment when its selector holds no separator, and a locator whose value
    holds one is cut in the value. *)
Theorem X_copy_cuts_at_separator :
  forall (before after : string),
    noComment before = true ->
    Content.pureLocator before = trim before
    /\ Content.pureLocator (before ++ " #" ++ after) = trim before
    /\ Content.pureLocator (before ++ " //" ++ after) = trim before
    /\ (forall isPytest : bool,
          Content.pureLocator (before ++ " " ++ Content.fallbackComment isPytest)
          = trim before).
Proof.
  intros before after N. unfold Content.pureLocator.
  split; [now rewrite beforeComment_whole|].
  split; [now rewrite beforeComment_append|].
  split; [now rewrite beforeComment_append|].
  intros [|]; now rewrite beforeComment_append.
Qed.

(** The theorem at a fallback locator, which is copied without its comment,
    and at a locator whose name holds a hash behind a blank, which is cut
    there. *)
Lemma X_copy_cuts_at_separator_witness :
  Content.pureLocator ("page.locator(" ++ dq "p" ++ ") "
               ++ Content.fallbackComment false)
  = "page.locator(" ++ dq "p" ++ ")"
  /\ Content.pureLocator ("page.getByRole(" ++ dq "link" ++ ", { name: "
                  ++ dq "Issue #5" ++ ", exact: true })")
     = "page.getByRole(" ++ dq "link" ++ ", { name: " ++ String dquote "Issue".
Proof.
  split.
  - destruct (X_copy_cuts_at_separator ("page.locator(" ++ dq "p" ++ ")")
                EmptyString eq_refl) as [_ [_ [_ H]]].
    exact (H false).
  - destruct (X_copy_cuts_at_separator
                ("page.getByRole(" ++ dq "link" ++ ", { name: "
                 ++ String dquote "Issue")
                ("5" ++ String dquote ", exact: true })") eq_refl)
      as [_ [H _]].
    exact H.
Defined.

(** ** Scopes and relative selectors *)

Lemma roleEqb_eq (a b : RoleValue) : roleEqb a b = true <-> a = b.
Proof.
  destruct a as [x|x], b as [y|y]; simpl; split; intro H; try discriminate;
    try (apply String.eqb_eq in H; now subst);
    injection H as ->; apply String.eqb_refl.
Qed.

Lemma NoDup_tl {A : Type} (l : list A) : NoDup l -> NoDup (tl l).
Proof. intro H. destruct l; [constructor|now inversion H]. Qed.

Lemma NoDup_map_app (s : NodeId) (l : list NodeId) :
  NoDup l -> NoDup (map (app s) l).
Proof.
  induction 1 as [|x l X N IH]; simpl; constructor; [|exact IH].
  intro H. apply in_map_iff in H as [y [E Y]].
  apply app_inv_head in E. now subst.
Qed.

Lemma scopeElements_NoDup (doc : Document) (scope : option NodeId) :
  NoDup (scopeElements doc scope).
Proof.
  destruct scope as [s|]; simpl.
  - unfold descendants. apply NoDup_map_app, NoDup_tl, subtree_NoDup.
  - apply subtree_NoDup.
Qed.

Lemma filter_one {A : Type} (f : A -> bool) (l : list A) (x : A) :
  filter f l = [x] ->
  In x l /\ f x = true /\ forall y, In y l -> f y = true -> y = x.
Proof.
  intro H.
  assert (I : In x (filter f l)) by (rewrite H; now left).
  apply filter_In in I as [I F]. repeat split; auto.
  intros y Y Fy.
  assert (J : In y (filter f l)) by (apply filter_In; auto).
  rewrite H in J. destruct J as [J|[]]. now subst.
Qed.

(** [isLocatorUniqueInScope] holds exactly for the method [getByRole]
    when the target is in the scope, has the role, and is the only element
    of the scope that has it.  The scope itself is not among its
    elements. *)
Theorem X_unique_in_scope :
  forall (doc : Document) (locator : string) (value : RoleValue)
         (target : NodeId) (scope : option NodeId),
    isLocatorUniqueInScope doc locator value target scope = true
    <-> locator = "getByRole"
        /\ In target (scopeElements doc scope)
        /\ hasRole doc value target
        /\ forall n, In n (scopeElements doc scope) -> hasRole doc value n ->
                     n = target.
Proof.
  intros doc locator value target scope. unfold isLocatorUniqueInScope, hasRole.
  fold (scopeElements doc scope).
  set (f := fun el => match getImplicitRole (elementAt doc el) with
                      | Some r => roleEqb r value
                      | None => false
                      end).
  assert (F : forall n, f n = true <-> getImplicitRole (elementAt doc n) = Some value).
  { intro n. unfold f. destruct (getImplicitRole (elementAt doc n)) as [r|].
    - rewrite roleEqb_eq. split; [now intros ->|now intros [= ->]].
    - split; discriminate. }
  destruct (String.eqb locator "getByRole") eqn:L.
  - apply String.eqb_eq in L. split.
    + intro H.
      destruct (filter f (scopeElements doc scope)) as [|e [|e' l]] eqn:E;
        try discriminate.
      apply nodeEqb_eq in H. subst e.
      apply filter_one in E as [I [Ft U]].
      repeat split; auto.
      * now apply F.
      * intros n N R. apply U; [exact N|now apply F].
    + intros [_ [I [R U]]].
      rewrite (filter_single f _ target (scopeElements_NoDup doc scope) I).
      * now apply nodeEqb_eq.
      * intros y Y Fy. apply U; [exact Y|now apply F].
      * now apply F.
  - split; [discriminate|]. intros [E _]. subst locator. discriminate.
Qed.

Lemma indexOf_In (n : NodeId) (l : list NodeId) :
  In n l -> exists k, indexOf n l = Some k /\ nth_error l k = Some n.
Proof.
  induction l as [|x l IH]; [contradiction|]. intro H. simpl.
  destruct (nodeEqb x n) eqn:E.
  - apply nodeEqb_eq in E. subst x. now exists 0.
  - destruct H as [->|H].
    + assert (X : nodeEqb n n = true) by now apply nodeEqb_eq. congruence.
    + destruct (IH H) as [k [I N]]. exists (S k). rewrite I. now split.
Qed.

Lemma indexOf_absent (n : NodeId) (l : list NodeId) :
  ~ In n l -> indexOf n l = None.
Proof.
  induction l as [|x l IH]; [reflexivity|]. intro H. simpl.
  destruct (nodeEqb x n) eqn:E.
  - apply nodeEqb_eq in E. subst x. exfalso. apply H. now left.
  - rewrite IH; [reflexivity|]. intro I. apply H. now right.
Qed.

Lemma filterM_sublist {A : Type} (f : A -> Completion bool) (l r : list A) :
  filterM f l = Return r -> forall x, In x r -> In x l.
Proof.
  revert r. induction l as [|y l IH]; simpl; intros r H x X.
  - injection H as <-. contradiction.
  - destruct (f y) as [keep|e]; [|discriminate]. simpl in H.
    destruct (filterM f l) as [rest|e]; [|discriminate]. simpl in H.
    injection H as <-. destruct keep.
    + destruct X as [->|X]; [now left|right; now apply (IH rest)].
    + right. now apply (IH rest).
Qed.

(** [getRelativeCSS] with a parent: when at most one child of the parent
    matches the selector of the tag and the stable classes, the result is
    that selector; when more than one matches, the result carries the index,
    from one, of the element among the matching children, and the index 0
    when the element is no child of the parent. *)
Theorem X_relative_css_index :
  forall (engine : SelectorEngine) (doc : Document) (element parent : NodeId)
         (matching : list NodeId),
    let selector := tagAndStableClasses (elementAt doc element) in
    filterM (fun sibling => engineResult (matches engine doc sibling selector))
            (childNodes doc parent) = Return matching ->
    let result := getRelativeCSS engine doc element (Some parent) in
    (List.length matching <= 1 -> result = Return selector)
    /\ (1 < List.length matching -> In element matching ->
        exists k, result = Return (selector ++ ":nth-of-type(" ++ ofNat (S k) ++ ")")
                  /\ nth_error matching k = Some element)
    /\ (1 < List.length matching -> ~ In element (childNodes doc parent) ->
        result = Return (selector ++ ":nth-of-type(0)")).
Proof.
  intros engine doc element parent matching selector M result.
  assert (R : result
              = if (1 <? List.length matching)%nat
                then Return (selector ++ ":nth-of-type("
                             ++ ofNat (match indexOf element matching with
                                       | Some index => S index
                                       | None => 0
                                       end) ++ ")")
                else Return selector).
  { unfold result, getRelativeCSS. fold (tagAndStableClasses (elementAt doc element)).
    fold selector. rewrite M. reflexivity. }
  rewrite R. split; [|split].
  - intro L. apply Nat.ltb_ge in L. now rewrite L.
  - intros L I. apply Nat.ltb_lt in L. rewrite L.
    destruct (indexOf_In element matching I) as [k [X N]].
    exists k. now rewrite X.
  - intros L A. apply Nat.ltb_lt in L. rewrite L.
    rewrite indexOf_absent; [reflexivity|].
    intro I. apply A. now apply (filterM_sublist _ _ _ M).
Qed.

(** The theorem at an element that is no child of the parent it is placed
    under. *)
Lemma X_relative_css_index_witness :
  getRelativeCSS typeSelectorEngine nestedItems [1; 0; 0; 0] (Some [1; 0])
  = Return "div:nth-of-type(0)".
Proof.
  destruct (X_relative_css_index typeSelectorEngine nestedItems [1; 0; 0; 0] [1; 0]
              [[1; 0; 0]; [1; 0; 1]] eq_refl) as [_ [_ H]].
  apply H.
  - simpl. lia.
  - simpl. intros [H0|[H0|[]]]; discriminate.
Defined.

(** ** Accessible names *)

Lemma trimStart_head (s : string) : startsWithSpace (trimStart s) = false.
Proof.
  induction s as [|c r IH]; simpl; [reflexivity|].
  destruct (isSpace c) eqn:E; [exact IH|]. simpl. exact E.
Qed.

Lemma trimStart_fix (s : string) : startsWithSpace s = false -> trimStart s = s.
Proof. destruct s as [|c r]; simpl; [reflexivity|]. now intros ->. Qed.

Lemma trimEnd_head (s : string) :
  startsWithSpace s = false -> startsWithSpace (trimEnd s) = false.
Proof.
  destruct s as [|c r]; simpl; [reflexivity|]. intro H.
  destruct (trimEnd r); simpl; now rewrite ?H.
Qed.

Lemma trimEnd_last (s : string) : endsWithSpace (trimEnd s) = false.
Proof.
  induction s as [|c r IH]; simpl; [reflexivity|].
  destruct (trimEnd r) as [|d u] eqn:E.
  - destruct (isSpace c) eqn:X; simpl; [reflexivity|exact X].
  - exact IH.
Qed.

Lemma trimEnd_fix (s : string) : endsWithSpace s = false -> trimEnd s = s.
Proof.
  induction s as [|c r IH]; simpl; [reflexivity|].
  destruct r as [|d u].
  - simpl. now intros ->.
  - intro H. rewrite (IH H). reflexivity.
Qed.

Lemma trim_fix (s : string) :
  startsWithSpace s = false -> endsWithSpace s = false -> trim s = s.
Proof. intros H L. unfold trim. now rewrite (trimStart_fix s H), (trimEnd_fix s L). Qed.

Lemma trim_head (s : string) : startsWithSpace (trim s) = false.
Proof. apply trimEnd_head, trimStart_head. Qed.

Lemma trim_last (s : string) : endsWithSpace (trim s) = false.
Proof. apply trimEnd_last. Qed.

Lemma trim_trim (s : string) : trim (trim s) = trim s.
Proof. apply trim_fix; [apply trim_head|apply trim_last]. Qed.

Lemma collapse_nonEmpty (b : bool) (s : string) :
  endsWithSpace s = false -> nonEmpty s = true -> nonEmpty (collapseFrom b s) = true.
Proof.
  revert b. induction s as [|c r IH]; intros b L N; [discriminate|].
  simpl. destruct (isSpace c) eqn:E; [|reflexivity].
  destruct r as [|d u]; [simpl in L; congruence|].
  destruct b; [|reflexivity]. now apply IH.
Qed.

Lemma endsWithSpace_cons (c : ascii) (s : string) :
  nonEmpty s = true -> endsWithSpace (String c s) = endsWithSpace s.
Proof. destruct s; [discriminate|reflexivity]. Qed.

Lemma collapse_last (b : bool) (s : string) :
  endsWithSpace s = false -> endsWithSpace (collapseFrom b s) = false.
Proof.
  revert b. induction s as [|c r IH]; intros b L; [reflexivity|].
  destruct (nonEmpty r) eqn:N.
  - rewrite (endsWithSpace_cons c r N) in L. cbn [collapseFrom].
    destruct (isSpace c).
    + destruct b; [now apply IH|].
      rewrite endsWithSpace_cons; [now apply IH|now apply collapse_nonEmpty].
    + rewrite endsWithSpace_cons; [now apply IH|now apply collapse_nonEmpty].
  - destruct r; [|discriminate]. simpl in *. rewrite L. simpl. exact L.
Qed.

Lemma collapse_head (s : string) :
  startsWithSpace s = false -> startsWithSpace (collapseWhitespace s) = false.
Proof.
  destruct s as [|c r]; [reflexivity|].
  unfold collapseWhitespace. cbn [collapseFrom startsWithSpace].
  intro H. rewrite H. exact H.
Qed.

Lemma trim_collapse (s : string) :
  trim (collapseWhitespace (trim s)) = collapseWhitespace (trim s).
Proof.
  apply trim_fix.
  - apply collapse_head, trim_head.
  - apply collapse_last, trim_last.
Qed.

(** The accessible name has no white space at its ends, in the three
    scripts: trimming leaves it as it is. *)
Theorem X_accessible_name_trimmed :
  forall (doc : Document) (element : NodeId),
    trim (Content.getAccessibleName doc element) = Content.getAccessibleName doc element
    /\ trim (PopupContent.getAccessibleName doc element)
       = PopupContent.getAccessibleName doc element
    /\ trim (Legacy.getAccessibleName doc element)
       = Legacy.getAccessibleName doc element.
Proof.
  intros doc element. split; [|split].
  - unfold Content.getAccessibleName.
    repeat match goal with
           | |- trim (if ?c then _ else _) = _ => destruct c
           | |- trim (match ?c with Some _ => _ | None => _ end) = _ => destruct c
           end; try apply trim_trim; try apply trim_collapse; reflexivity.
  - unfold PopupContent.getAccessibleName.
    repeat match goal with
           | |- trim (if ?c then _ else _) = _ => destruct c
           | |- trim (match ?c with Some _ => _ | None => _ end) = _ => destruct c
           end; try apply trim_trim; try apply trim_collapse; reflexivity.
  - unfold Legacy.getAccessibleName, Legacy.shownText.
    repeat match goal with
           | |- trim (if ?c then _ else _) = _ => destruct c
           | |- trim (match ?c with Some _ => _ | None => _ end) = _ => destruct c
           end; try apply trim_trim; reflexivity.
Qed.

(** ** The evaluator of the earlier content script *)

(** The evaluator accepts a locator exactly when the target is an element
    of the document, is a candidate, and is the only candidate of the
    document. *)
Theorem X_evaluator_unique :
  forall (doc : Document) (target : NodeId) (method value : string)
         (options : Legacy.Options),
    Legacy.validatePlaywrightLocatorUniqueness doc target method value options = true
    <-> inDocument doc target = true
        /\ Legacy.isCandidate doc method value options target = true
        /\ forall n, inDocument doc n = true ->
                     Legacy.isCandidate doc method value options n = true ->
                     n = target.
Proof.
  intros doc target method value options.
  unfold Legacy.validatePlaywrightLocatorUniqueness. split.
  - intro H.
    destruct (filter _ (allElements doc)) as [|e [|e' l]] eqn:E; try discriminate.
    apply nodeEqb_eq in H. subst e.
    apply filter_one in E as [I [C U]].
    split; [now apply subtree_In|]. split; [exact C|].
    intros n N Cn. apply U; [now apply subtree_In|exact Cn].
  - intros [D [C U]].
    rewrite (filter_single _ _ target (subtree_NoDup doc)).
    + now apply nodeEqb_eq.
    + now apply subtree_In.
    + intros y Y Cy. apply U; [now apply subtree_In|exact Cy].
    + exact C.
Qed.

Lemma filter_narrow {A : Type} (P E : A -> bool) (l : list A) (t : A) :
  filter P l = [t] -> (forall x, E x = true -> P x = true) -> E t = true ->
  filter E l = [t].
Proof.
  intros H S T. induction l as [|x l IH]; [discriminate|].
  simpl in *. destruct (P x) eqn:Px.
  - injection H as -> H. rewrite T. f_equal.
    apply filter_none. intros y Y.
    destruct (E y) eqn:Ey; [|reflexivity].
    assert (J : In y (filter P l)) by (apply filter_In; auto).
    rewrite H in J. contradiction.
  - destruct (E x) eqn:Ex; [rewrite (S x Ex) in Px; discriminate|].
    now apply IH.
Qed.

Lemma textMatches_exact_partial (text value : string) :
  Legacy.textMatches Legacy.exactOnly text value = true ->
  Legacy.textMatches Legacy.noOptions text value = true.
Proof.
  unfold Legacy.textMatches. simpl. intro H. apply String.eqb_eq in H. subst.
  apply includes_refl.
Qed.

Lemma exact_candidate_is_partial (doc : Document) (method value : string)
    (name : option string) (n : NodeId) :
  Legacy.isCandidate doc method value (Legacy.mkOptions name (Some true)) n = true ->
  Legacy.isCandidate doc method value (Legacy.mkOptions name None) n = true.
Proof.
  assert (T : forall text v,
             Legacy.textMatches (Legacy.mkOptions name (Some true)) text v = true ->
             Legacy.textMatches (Legacy.mkOptions name None) text v = true).
  { intros text v. unfold Legacy.textMatches. simpl. intro H.
    apply String.eqb_eq in H. subst. apply includes_refl. }
  unfold Legacy.isCandidate.
  destruct (Legacy.ignored (elementAt doc n)); [discriminate|].
  repeat match goal with
         | |- (if ?c then _ else _) = true -> _ => destruct c
         end; try discriminate; try (intro H; exact H).
  - destruct (orElse _ _) as [r|]; [|discriminate].
    destruct (String.eqb r value); [|discriminate].
    cbn [Legacy.name]. destruct name as [m|]; [apply T|reflexivity].
  - intro H. apply andb_prop in H as [A B]. now rewrite A, (T _ _ B).
  - intro H. apply andb_prop in H as [A B]. now rewrite A, (T _ _ B).
  - intro H. apply andb_prop in H as [A B]. now rewrite A, (T _ _ B).
  - intro H. apply andb_prop in H as [A B]. now rewrite A, (T _ _ B).
  - intro H. apply andb_prop in H as [A B]. now rewrite A, (T _ _ B).
Qed.

Lemma validate_single (doc : Document) (target : NodeId) (method value : string)
    (options : Legacy.Options) :
  Legacy.validatePlaywrightLocatorUniqueness doc target method value options = true
  <-> filter (Legacy.isCandidate doc method value options) (allElements doc) = [target].
Proof.
  unfold Legacy.validatePlaywrightLocatorUniqueness. split.
  - destruct (filter _ (allElements doc)) as [|e [|e' l]]; try discriminate.
    intro H. apply nodeEqb_eq in H. now subst.
  - intros ->. now apply nodeEqb_eq.
Qed.

Lemma narrow_to_exact (doc : Document) (target : NodeId) (method value : string)
    (name : option string) :
  (Legacy.isCandidate doc method value (Legacy.mkOptions name None) target = true ->
   Legacy.isCandidate doc method value (Legacy.mkOptions name (Some true)) target = true) ->
  Legacy.validatePlaywrightLocatorUniqueness doc target method value
    (Legacy.mkOptions name None) = true ->
  Legacy.validatePlaywrightLocatorUniqueness doc target method value
    (Legacy.mkOptions name (Some true)) = true.
Proof.
  intros T H. apply validate_single in H. apply validate_single.
  apply (filter_narrow _ _ _ _ H).
  - intro x. apply exact_candidate_is_partial.
  - apply T. now apply filter_one in H as [_ [C _]].
Qed.

Lemma own_candidate (doc : Document) (target : NodeId) (method : string) :
  In method ["getByLabel"; "getByText"; "getByPlaceholder"; "getByAltText";
             "getByTitle"] ->
  nonEmpty (ownValue doc target method) = true ->
  Legacy.isCandidate doc method (ownValue doc target method) Legacy.noOptions target
    = true ->
  Legacy.isCandidate doc method (ownValue doc target method) Legacy.exactOnly target
    = true.
Proof.
  intros M N.
  unfold Legacy.isCandidate.
  destruct (Legacy.ignored (elementAt doc target)); [discriminate|].
  unfold Legacy.textMatches. cbn [Legacy.exactMatch Legacy.exact Legacy.noOptions
                                  Legacy.exactOnly].
  destruct M as [<-|[<-|[<-|[<-|[<-|[]]]]]];
    unfold ownValue in *; cbn [String.eqb Ascii.eqb Bool.eqb orb andb negb] in *;
    cbv iota in *.
  - intro H. apply andb_prop in H as [A _]. now rewrite A, String.eqb_refl.
  - intro H. apply andb_prop in H as [A _]. now rewrite A, String.eqb_refl.
  - intro H. apply andb_prop in H as [A _]. rewrite A.
    unfold Legacy.placeholderOf in *.
    destruct (String.eqb (localName (elementAt doc target)) "input"
              || String.eqb (localName (elementAt doc target)) "textarea");
      [apply String.eqb_refl|discriminate].
  - destruct (negb (String.eqb (localName (elementAt doc target)) "img"));
      [discriminate|].
    intro H. apply andb_prop in H as [A _]. now rewrite A, String.eqb_refl.
  - intro H. apply andb_prop in H as [A _]. rewrite A.
    unfold Legacy.titleOf. apply String.eqb_refl.
Qed.

Lemma own_role_candidate (doc : Document) (target : NodeId) (role : string) :
  let name := Legacy.getAccessibleName doc target in
  Legacy.isCandidate doc "getByRole" role (Legacy.mkOptions (Some name) None) target
    = true ->
  Legacy.isCandidate doc "getByRole" role (Legacy.mkOptions (Some name) (Some true))
    target = true.
Proof.
  intro name. unfold Legacy.isCandidate.
  destruct (Legacy.ignored (elementAt doc target)); [discriminate|].
  cbn [String.eqb Ascii.eqb Bool.eqb Legacy.name].
  destruct (orElse _ _) as [r|]; [|discriminate].
  destruct (String.eqb r role); [|discriminate].
  intros _. unfold Legacy.textMatches. simpl. apply String.eqb_refl.
Qed.

(** The second try of the earlier generator, without [exact], never
    succeeds where the first try, with [exact], has failed: for the value of
    the element itself a locator that is unique as a part is unique
    exactly.  So it is for the role with the name, and for the label, text,
    placeholder, alt text and title methods, where the two tries give the
    exact locator or nothing. *)
Theorem X_partial_try_never_succeeds :
  forall (doc : Document) (framework : string) (target : NodeId)
         (method role : string),
    let validate := Legacy.validatePlaywrightLocatorUniqueness doc target in
    let name := Legacy.getAccessibleName doc target in
    (validate "getByRole" role (Legacy.nameOnly name) = true ->
     validate "getByRole" role (Legacy.nameExact name) = true)
    /\ (In method ["getByLabel"; "getByText"; "getByPlaceholder"; "getByAltText";
                   "getByTitle"] ->
        let own := ownValue doc target method in
        nonEmpty own = true ->
        (validate method own Legacy.noOptions = true ->
         validate method own Legacy.exactOnly = true)
        /\ Legacy.exactThenPartial doc framework target method own
           = if validate method own Legacy.exactOnly
             then Some (Legacy.formatLocator framework method own
                          (Some Legacy.exactOnly))
             else None).
Proof.
  intros doc framework target method role validate name.
  split.
  - apply narrow_to_exact. apply own_role_candidate.
  - intros M own N.
    assert (P : validate method own Legacy.noOptions = true ->
                validate method own Legacy.exactOnly = true).
    { apply narrow_to_exact. now apply own_candidate. }
    split; [exact P|].
    unfold Legacy.exactThenPartial, Legacy.validate. fold validate.
    destruct (validate method own Legacy.exactOnly) eqn:E; [reflexivity|].
    destruct (validate method own Legacy.noOptions) eqn:F; [|reflexivity].
    specialize (P eq_refl). congruence.
Qed.

(** The theorem at the placeholder of the field of [nameField]. *)
Lemma X_partial_try_never_succeeds_witness :
  Legacy.exactThenPartial nameField "js" [1; 0] "getByPlaceholder" "Name"
  = Some (Legacy.formatLocator "js" "getByPlaceholder" "Name" (Some Legacy.exactOnly)).
Proof.
  destruct (X_partial_try_never_succeeds nameField "js" [1; 0] "getByPlaceholder"
              "textbox") as [_ H].
  destruct H as [_ H].
  - right. right. left. reflexivity.
  - reflexivity.
  - exact H.
Defined.

Lemma nonEmpty_append_l (a b : string) : nonEmpty a = true -> nonEmpty (a ++ b) = true.
Proof. destruct a; [discriminate|reflexivity]. Qed.

Lemma nonEmpty_append_r (a b : string) : nonEmpty b = true -> nonEmpty (a ++ b) = true.
Proof. destruct a; [now simpl|reflexivity]. Qed.

Lemma join_solid (path : list string) :
  solidPath path = true -> nonEmpty (join " > " path) = true.
Proof.
  destruct path as [|x [|y r]]; simpl; [discriminate|auto|].
  intros _. apply nonEmpty_append_r. reflexivity.
Qed.

Lemma pathLoop_solid (quirksMode : bool) (doc : Document) (rounds : nat) :
  forall (current : option NodeId) (path : list string),
    solidPath path = true ->
    solidPath (fst (Legacy.pathLoop quirksMode doc rounds current path)) = true.
Proof.
  induction rounds as [|n IH]; intros current path S; [exact S|].
  simpl. destruct current as [cur|]; [|exact S].
  destruct (Legacy.isBody doc cur); [exact S|].
  destruct (Legacy.pathStep quirksMode doc cur) as [selector stop].
  destruct stop.
  - destruct path; [discriminate|reflexivity].
  - apply IH. destruct path; [discriminate|reflexivity].
Qed.

Lemma pathStep_solid (quirksMode : bool) (doc : Document) (current : NodeId) :
  nonEmpty (localName (elementAt doc current)) = true ->
  nonEmpty (fst (Legacy.pathStep quirksMode doc current)) = true.
Proof.
  intro N. unfold Legacy.pathStep.
  destruct (nonEmpty (id (elementAt doc current)) && _); [reflexivity|].
  assert (T : nonEmpty (Legacy.tagAndClasses (elementAt doc current)) = true)
    by now apply nonEmpty_append_l.
  destruct (1 <? _)%nat; [|exact T].
  destruct (Legacy.indexOf _ _); [|exact T].
  now apply nonEmpty_append_l.
Qed.

(** [generateCSSPath] gives the empty text, which sends the earlier
    generator to its last resort, the tag name, for the body without unique
    id and for no other element that has a tag name. *)
Theorem X_css_path_empty_only_for_body :
  forall (quirksMode : bool) (doc : Document) (element : NodeId),
    nonEmpty (localName (elementAt doc element)) = true ->
    (Legacy.generateCSSPath quirksMode doc element = EmptyString
     <-> Legacy.isBody doc element = true /\ hasUniqueId quirksMode doc element = false).
Proof.
  intros quirksMode doc element N. unfold Legacy.generateCSSPath, hasUniqueId.
  destruct (nonEmpty (id (elementAt doc element))
            && (List.length (Legacy.withId quirksMode doc (id (elementAt doc element))) =? 1)%nat)
    eqn:U.
  - split; [discriminate|]. intros [_ H]. discriminate.
  - destruct (Legacy.isBody doc element) eqn:B.
    + cbn [Legacy.pathLoop]. rewrite B. split; [auto|reflexivity].
    + split; [|intros [H _]; discriminate].
      intro H. exfalso.
      assert (P0 : solidPath (fst (Legacy.pathLoop quirksMode doc (S (List.length element))
                                     (Some element) [])) = true).
      { cbn [Legacy.pathLoop]. rewrite B.
        pose proof (pathStep_solid quirksMode doc element N) as P.
        destruct (Legacy.pathStep quirksMode doc element) as [selector stop].
        destruct stop; [exact P|].
        apply pathLoop_solid. exact P. }
      destruct (Legacy.pathLoop quirksMode doc (S (List.length element)) (Some element) [])
        as [path current].
      cbn [fst] in P0.
      assert (J : nonEmpty (join " > "
                    match current, path with
                    | Some cur, first :: _ =>
                        if Legacy.isBody doc cur && negb (String.eqb first "body")
                        then "body" :: path
                        else if nodeEqb cur [] && negb (String.eqb first "html")
                             then "html" :: path
                             else path
                    | _, _ => path
                    end) = true).
      { apply join_solid. destruct current as [cur|]; [|exact P0].
        destruct path as [|first rest]; [discriminate|].
        destruct (Legacy.isBody doc cur && negb (String.eqb first "body"));
          [reflexivity|].
        destruct (nodeEqb cur [] && negb (String.eqb first "html"));
          [reflexivity|exact P0]. }
      rewrite H in J. discriminate.
Qed.

(** The theorem at the body of [emptyPage]. *)
Lemma X_css_path_empty_only_for_body_witness :
  Legacy.generateCSSPath false emptyPage [1] = EmptyString
  <-> Legacy.isBody emptyPage [1] = true /\ hasUniqueId false emptyPage [1] = false.
Proof.
  apply (X_css_path_empty_only_for_body false emptyPage [1]). reflexivity.
Defined.

(** ** The chained locators of the earlier content script *)

Lemma lazy_complete {R : Type} (p : ascii -> bool) (k : string -> option R)
    (a b : string) (r : R) :
  every p a = true -> k b = Some r -> exists r', lazy p k (a ++ b) = Some r'.
Proof.
  intros A K. induction a as [|y a IH]; cbn [append].
  - exists r. now apply lazy_here.
  - cbn [every] in A. apply andb_prop in A as [Y A].
    destruct (IH A) as [r' L].
    destruct (k (String y (a ++ b))) as [r''|] eqn:E.
    + exists r''. now apply lazy_here.
    + exists r'. simpl. now rewrite E, Y.
Qed.

Lemma startsWith_split (p s : string) :
  startsWith p s = true -> exists r, s = p ++ r.
Proof.
  revert s. induction p as [|x p IH]; intros s H; [now exists s|].
  destruct s as [|y s]; [discriminate|]. simpl in H.
  apply andb_prop in H as [E H]. apply Ascii.eqb_eq in E. subst y.
  destruct (IH s H) as [r ->]. now exists r.
Qed.

Lemma endsWith_append (suffix a : string) : Legacy.endsWith suffix (a ++ suffix) = true.
Proof.
  induction a as [|x a IH]; cbn [append].
  - destruct suffix; simpl; [reflexivity|]. now rewrite Ascii.eqb_refl, String.eqb_refl.
  - simpl. rewrite IH. apply orb_true_r.
Qed.

Lemma childTail_matches (c : captures) (post : string) :
  afterValue post -> exists c', childTail c (post ++ ")") = Some c'.
Proof.
  intros [->|[o [-> [N D]]]]; unfold childTail.
  - eexists. reflexivity.
  - destruct o as [|y o]; [discriminate|]. cbn [every] in D.
    apply andb_prop in D as [Y D].
    set (c3 := openGroup 3 (String y o ++ ")") c).
    assert (G : greedy isDot (run [Close 3; Lit ")"; End] c3) (o ++ ")")
                = Some (closeGroup 3 ")" c3, EmptyString)).
    { apply greedy_gives_back_last; [exact D|reflexivity|reflexivity|reflexivity]. }
    assert (R : run [Lit ", "; Open 3; Plus isDot; Close 3; Lit ")"; End] c
                    ((", " ++ String y o) ++ ")")
                = Some (closeGroup 3 ")" c3, EmptyString)).
    { unfold run. cbn [runThen append stripPrefix]. rewrite !Ascii.eqb_refl.
      cbn [runThen]. fold c3. rewrite Y. exact G. }
    rewrite R. eexists. reflexivity.
Qed.

Lemma matchChildCall_fold (s : string) :
  matchChildCall s
  = runThen
      [Open 1; Lit "getBy"; Class isUpper; Star isAlpha; Close 1;
       Lit "("; Lit (String dquote EmptyString);
       Open 2; LazyPlus isDot; Close 2; Lit (String dquote EmptyString)]
      childTail noCaptures s.
Proof. reflexivity. Qed.

(** The child pattern matches every call of a [getBy] method whose value
    and options are on one line. *)
Lemma matchChildCall_getBy (x : ascii) (name args post : string) :
  isUpper x = true -> every isAlpha name = true ->
  nonEmpty args = true -> every isDot args = true -> afterValue post ->
  exists c,
    matchChildCall ("getBy" ++ String x name ++ "("
                    ++ String dquote (args ++ String dquote (post ++ ")")))
    = Some c.
Proof.
  intros X N A D P. rewrite matchChildCall_fold.
  destruct args as [|y args]; [discriminate|]. cbn [every] in D.
  apply andb_prop in D as [Y D].
  set (whole := "getBy" ++ String x name ++ "("
                ++ String dquote (String y args ++ String dquote (post ++ ")"))).
  set (c1 := openGroup 1 whole noCaptures).
  set (afterName := "(" ++ String dquote (String y args ++ String dquote (post ++ ")"))).
  set (c2 := closeGroup 1 afterName c1).
  set (c3 := openGroup 2 (String y args ++ String dquote (post ++ ")")) c2).
  set (b := String dquote (post ++ ")")).
  destruct (childTail_matches (closeGroup 2 b c3) post P) as [c' T].
  assert (K2 : runThen [Close 2; Lit (String dquote EmptyString)] childTail c3 b
               = Some c').
  { unfold b. cbn [runThen stripPrefix]. rewrite Ascii.eqb_refl. exact T. }
  destruct (lazy_complete isDot
              (runThen [Close 2; Lit (String dquote EmptyString)] childTail c3)
              args b c' D K2) as [r L].
  exists r.
  assert (K1 : runThen [Close 1; Lit "("; Lit (String dquote EmptyString);
                        Open 2; LazyPlus isDot; Close 2;
                        Lit (String dquote EmptyString)] childTail c1 afterName
               = Some r).
  { unfold afterName. cbn [runThen append stripPrefix].
    rewrite !Ascii.eqb_refl. cbn [runThen]. rewrite Y. exact L. }
  change (match stripPrefix "getBy" whole with
          | Some s' =>
              runThen [Class isUpper; Star isAlpha; Close 1; Lit "(";
                       Lit (String dquote EmptyString); Open 2; LazyPlus isDot;
                       Close 2; Lit (String dquote EmptyString)] childTail c1 s'
          | None => None
          end = Some r).
  unfold whole. rewrite stripPrefix_append.
  change ((if isUpper x
           then greedy isAlpha
                  (runThen [Close 1; Lit "("; Lit (String dquote EmptyString);
                            Open 2; LazyPlus isDot; Close 2;
                            Lit (String dquote EmptyString)] childTail c1)
                  (name ++ afterName)
           else None) = Some r).
  rewrite X.
  apply greedy_run; [exact N|].
  unfold afterName at 1. cbn [append].
  rewrite greedy_stops by reflexivity. exact K1.
Qed.

Lemma js_child_shape (framework method value : string) (options : option Legacy.Options) :
  String.eqb framework "pytest" = false -> childOptions options ->
  exists post,
    Legacy.formatLocator framework method value options
    = "page." ++ method ++ "("
      ++ String dquote (escapeStr value ++ String dquote (post ++ ")"))
    /\ afterValue post.
Proof.
  intros F O. unfold Legacy.formatLocator, Legacy.isPytest. rewrite F.
  destruct O as [->|[->|[n [-> D]]]].
  - exists EmptyString. split; [|now left].
    cbn [nonEmpty]. unfold quoted. cbn [append]. do 5 f_equal.
    rewrite !append_assoc. reflexivity.
  - exists ", exact: true". split; [|right; exists "exact: true"; auto].
    unfold quoted. cbn. do 5 f_equal. rewrite !append_assoc. reflexivity.
  - exists (", name: " ++ quoted n ++ ", exact: true"). split.
    + unfold quoted. cbn. do 5 f_equal. rewrite !append_assoc. cbn.
      rewrite ?append_assoc. reflexivity.
    + right. exists ("name: " ++ quoted n ++ ", exact: true").
      split; [reflexivity|]. split; [reflexivity|].
      unfold quoted. cbn [append every]. rewrite !every_append. cbn [every].
      now rewrite D.
Qed.

(** [formatChainedLocator] by dialect.  For pytest a child by test id, by
    role or by text is appended to the parent as it is.  For the other
    dialects such a child, with a value that is not empty and on one line,
    makes the helper raise an exception.  A child that is a call of
    [locator] is appended in every dialect. *)
Theorem X_chained_child_by_dialect :
  forall (optionsFailure : string -> Exception) (framework parent method value : string)
         (options : option Legacy.Options) (css : string),
    In method ["getByTestId"; "getByRole"; "getByText"] ->
    childOptions options ->
    let child := dropPagePrefix (Legacy.formatLocator framework method value options) in
    (framework = "pytest" ->
     Legacy.formatChainedLocator optionsFailure parent child
     = Return (parent ++ "." ++ child))
    /\ (String.eqb framework "pytest" = false ->
        nonEmpty value = true -> every isDot (escapeStr value) = true ->
        exists e, Legacy.formatChainedLocator optionsFailure parent child = Throw e)
    /\ Legacy.formatChainedLocator optionsFailure parent ("locator(" ++ dq css ++ ")")
       = Return (parent ++ ".locator(" ++ dq css ++ ")").
Proof.
  intros oF framework parent method value options css M O child.
  split; [|split].
  - intros ->. unfold child.
    destruct M as [<-|[<-|[<-|[]]]];
      destruct O as [->|[->|[n [-> D]]]]; reflexivity.
  - intros F N D.
    destruct (js_child_shape framework method value options F O) as [post [E P]].
    assert (X : exists x name, method = "getBy" ++ String x name
                               /\ isUpper x = true /\ every isAlpha name = true).
    { destruct M as [<-|[<-|[<-|[]]]].
      - exists "T"%char, "estId". auto.
      - exists "R"%char, "ole". auto.
      - exists "T"%char, "ext". auto. }
    destruct X as [x [name [-> [U A]]]].
    assert (NE : nonEmpty (escapeStr value) = true).
    { destruct value as [|c v]; [discriminate|]. simpl.
      destruct (Ascii.eqb c dquote); reflexivity. }
    destruct (matchChildCall_getBy x name (escapeStr value) post U A NE D P) as [c C].
    unfold child. rewrite E.
    set (call := ("getBy" ++ String x name) ++ "("
                 ++ String dquote (escapeStr value ++ String dquote (post ++ ")"))).
    assert (C' : matchChildCall call = Some c).
    { rewrite <- C. unfold call. now rewrite append_assoc. }
    assert (P1 : dropPagePrefix ("page." ++ call) = call)
      by (unfold dropPagePrefix; now rewrite stripPrefix_append).
    rewrite P1. unfold Legacy.formatChainedLocator.
    assert (P2 : dropPagePrefix call = call) by reflexivity.
    assert (P3 : startsWith ("locator(" ++ String dquote EmptyString) call = false)
      by reflexivity.
    rewrite P2, P3, C'. cbn [andb].
    destruct (nonEmpty (group 3 c)); eexists; reflexivity.
  - set (call := "locator(" ++ dq css ++ ")").
    assert (P2 : dropPagePrefix call = call) by reflexivity.
    assert (P3 : startsWith ("locator(" ++ String dquote EmptyString) call = true)
      by reflexivity.
    assert (P4 : Legacy.endsWith (String dquote ")") call = true).
    { assert (E : call = ("locator(" ++ String dquote css) ++ String dquote ")").
      { unfold call, dq. cbn [append]. do 9 f_equal. now rewrite append_assoc. }
      rewrite E. apply endsWith_append. }
    unfold Legacy.formatChainedLocator. rewrite P2, P3, P4. reflexivity.
Qed.

(** The theorem at a child by test id, for pytest and for JavaScript. *)
Lemma X_chained_child_by_dialect_witness :
  let parent := "page.get_by_test_id(" ++ dq "left" ++ ")" in
  Legacy.formatChainedLocator (fun _ => SyntaxError) parent
    (dropPagePrefix (Legacy.formatLocator "pytest" "getByTestId" "save" None))
  = Return (parent ++ ".get_by_test_id(" ++ dq "save" ++ ")")
  /\ exists e,
       Legacy.formatChainedLocator (fun _ => SyntaxError) parent
         (dropPagePrefix (Legacy.formatLocator "js" "getByTestId" "save" None))
       = Throw e.
Proof.
  intro parent. split.
  - destruct (X_chained_child_by_dialect (fun _ => SyntaxError) "pytest" parent
                "getByTestId" "save" None "p") as [P _].
    + left. reflexivity.
    + left. reflexivity.
    + exact (P eq_refl).
  - destruct (X_chained_child_by_dialect (fun _ => SyntaxError) "js" parent
                "getByTestId" "save" None "p") as [_ [J _]].
    + left. reflexivity.
    + left. reflexivity.
    + apply J; reflexivity.
Defined.

Section LegacyPytest.

Variable engine : SelectorEngine.
Variable optionsFailure : string -> Exception.
Variable quirksMode : bool.
Variable doc : Document.

Hypothesis Q : quiet engine.

Lemma pytest_child (method value : string) (options : option Legacy.Options) :
  In method ["getByTestId"; "getByRole"; "getByText"] ->
  (options = None \/ options = Some Legacy.exactOnly
   \/ exists n, options = Some (Legacy.nameExact n)) ->
  chainable optionsFailure
    (dropPagePrefix (Legacy.formatLocator "pytest" method value options)).
Proof.
  intros M O parent. eexists.
  destruct M as [<-|[<-|[<-|[]]]];
    destruct O as [->|[->|[n ->]]]; reflexivity.
Qed.

Lemma css_child (css : string) :
  chainable optionsFailure ("locator(" ++ String dquote css ++ String dquote ")").
Proof.
  intro parent.
  eexists. set (call := "locator(" ++ String dquote css ++ String dquote ")").
  assert (P2 : dropPagePrefix call = call) by reflexivity.
  assert (P3 : startsWith ("locator(" ++ String dquote EmptyString) call = true)
    by reflexivity.
  assert (P4 : Legacy.endsWith (String dquote ")") call = true).
  { assert (E : call = ("locator(" ++ String dquote css) ++ String dquote ")").
    { unfold call. cbn [append]. reflexivity. }
    rewrite E. apply endsWith_append. }
  unfold Legacy.formatChainedLocator. rewrite P2, P3, P4. reflexivity.
Qed.

Lemma childCssPart_chainable (element currentParent : NodeId) :
  exists r, Legacy.childCssPart engine quirksMode doc element currentParent = Return r
            /\ forall part, r = Some part -> chainable optionsFailure part.
Proof.
  unfold Legacy.childCssPart.
  destruct (nonEmpty (id (elementAt doc element)) && _).
  - eexists. split; [reflexivity|]. intros part E.
    apply (f_equal (fun o => match o with Some x => x | None => EmptyString end)) in E.
    cbv beta iota in E. rewrite <- E. apply css_child.
  - destruct Q as [_ Q2].
    match goal with
    | |- context [querySelectorAll engine doc ?s ?t] =>
        destruct (querySelectorAll engine doc s t) as [found|] eqn:E;
          [|now apply Q2 in E]
    end.
    destruct (Legacy.isNode (hd_error found) element).
    + eexists. split; [reflexivity|]. intros part E'.
      apply (f_equal (fun o => match o with Some x => x | None => EmptyString end)) in E'.
      cbv beta iota in E'. rewrite <- E'. apply css_child.
    + eexists. split; [reflexivity|]. discriminate.
Qed.

Lemma chainable_part (a : string) :
  chainable optionsFailure a ->
  forall part, Some a = Some part -> chainable optionsFailure part.
Proof. intros H part E. injection E as <-. exact H. Qed.

Lemma childLocatorPart_chainable (element currentParent : NodeId)
    (testId role : option string) (accessibleName textContent : string) :
  exists r,
    Legacy.childLocatorPart engine quirksMode doc "pytest" element currentParent
                            testId role accessibleName textContent = Return r
    /\ forall part, r = Some part -> chainable optionsFailure part.
Proof.
  unfold Legacy.childLocatorPart.
  destruct (truthy testId && _).
  - eexists. split; [reflexivity|]. apply chainable_part.
    apply pytest_child; [now left|now left].
  - destruct (truthy role && nonEmpty accessibleName && _).
    + eexists. split; [reflexivity|]. apply chainable_part.
      apply pytest_child; [right; now left|right; right; now eexists].
    + destruct (nonEmpty textContent && _ && _).
      * eexists. split; [reflexivity|]. apply chainable_part.
        apply pytest_child; [right; right; now left|right; now left].
      * apply childCssPart_chainable.
Qed.

Lemma chainLoop_returns (element : NodeId) (testId role : option string)
    (accessibleName textContent : string) (remaining : nat) :
  forall currentParent,
    exists r,
      Legacy.chainLoop engine optionsFailure quirksMode doc "pytest" element testId
                       role accessibleName textContent remaining currentParent
      = Return r.
Proof.
  induction remaining as [|n IH]; intro currentParent; [now exists None|].
  cbn [Legacy.chainLoop].
  destruct currentParent as [parent|]; [|now exists None].
  destruct (Legacy.isBody doc parent || nodeEqb parent []); [now exists None|].
  destruct (Legacy.parentLocatorCandidate quirksMode doc "pytest" parent)
    as [candidate|]; [|apply IH].
  destruct (childLocatorPart_chainable element parent testId role
              accessibleName textContent) as [r [E C]].
  rewrite E. cbn [bind]. destruct r as [part|]; [|apply IH].
  destruct (C part eq_refl candidate) as [t T]. rewrite T. cbn [bind].
  eexists. reflexivity.
Qed.

Lemma legacy_pytest_returns (element : NodeId) :
  exists t,
    Legacy.generateBestLocator engine optionsFailure quirksMode doc "pytest" element
    = Return t.
Proof.
  unfold Legacy.generateBestLocator.
  destruct (Legacy.uniqueLocator doc "pytest" element) as [l|];
    [eexists; reflexivity|].
  destruct (chainLoop_returns element
              (testIdOf (elementAt doc element)) (Legacy.roleOf doc element)
              (Legacy.getAccessibleName doc element)
              (Legacy.getAccessibleName doc element) 3 (parentElement element))
    as [r E].
  rewrite E. cbn [bind]. destruct r as [l|]; [eexists; reflexivity|].
  destruct (Legacy.shortText _); [eexists; reflexivity|].
  destruct (nonEmpty _); eexists; reflexivity.
Qed.

End LegacyPytest.



End Properties.
